(** * clawdbot-memory-infra: session rotation, checkpointing, disclosure

  A shallow embedding of the policy code of the repository:
  - [JS]           : the JavaScript string and number primitives used
  - [Rotation]     : scripts/session-rotation-monitor.js
  - [World]        : files, console and exceptions of the Node scripts
  - [Config]       : the agents of clawdbot.json
  - [Checkpoint]   : scripts/memory-checkpoint.js
  - [Hooks]        : hooks/session-summary (workspace resolver) and
                     hooks/memory-index-inject (disclosure planner)
  - [IndexBuilder] : scripts/generate-memory-index.sh
  - [Effects]      : judgements on computations (never raises, may
                     change only these files)
  - [RotationArgs] : the command line of the rotation monitor
  - [SessionKey]   : hooks/session-summary (agent of a session key)
  - [SessionSummary] : hooks/session-summary (reader of the session)
  - [Regenerate]   : scripts/regenerate-all-indexes.sh (workspaces)

  JavaScript strings are modelled as Rocq [string]s (sequences of
  bytes); numbers that the code only ever uses as integers are [Z], [N]
  or [nat].  File-system and gateway effects are threaded explicitly;
  what the platform supplies (JSON parsing, the clock, the gateway) is a
  section variable.  The definitions come first, the properties after
  them. *)

From Stdlib Require Import ZArith String Ascii List Bool Lia DecimalString.
From Stdlib Require Import Sorted Permutation.
From stdpp Require Import base option gmap strings list.

Import ListNotations.
Local Open Scope string_scope.
Local Open Scope Z_scope.

(* ===================================================================== *)
(** ** JavaScript string primitives used by the scripts *)
(* ===================================================================== *)

Module JS.

(** [s.startsWith(p)] *)
Definition startsWith (p s : string) : bool := String.prefix p s.

(** [s.includes(p)] : [p] occurs somewhere in [s]. *)
Fixpoint includes (p s : string) : bool :=
  startsWith p s ||
  match s with
  | EmptyString => false
  | String _ r => includes p r
  end.

(** [s.slice(0, n)] *)
Definition slice0 (n : nat) (s : string) : string := String.substring 0 n s.

(** [s.endsWith(p)] *)
Definition endsWith (p s : string) : bool :=
  let lp := String.length p in
  let ls := String.length s in
  (lp <=? ls)%nat && String.eqb (String.substring (ls - lp) lp s) p.

(** [xs.slice(-n)] on arrays: the last [n] elements. *)
Definition lastn {A} (n : nat) (xs : list A) : list A :=
  skipn (length xs - n) xs.

(** [String(n)] for an integer. *)
Definition string_of_Z (z : Z) : string := NilZero.string_of_int (Z.to_int z).
Definition string_of_nat (n : nat) : string := string_of_Z (Z.of_nat n).

(** [String(n).padStart(2, "0")] *)
Definition pad2 (n : nat) : string :=
  let s := string_of_nat n in
  match String.length s with
  | O => "00"
  | S O => "0" +:+ s
  | _ => s
  end.

(** A JavaScript string is truthy when it is not empty. *)
Definition truthy (s : string) : bool := negb (String.eqb s "").

(** [o?.f] followed by a truthiness test, for an optional string. *)
Definition truthy_opt (o : option string) : bool :=
  match o with Some s => truthy s | None => false end.

(** ASCII lower-casing, [s.toLowerCase()]. *)
Definition lower_ascii (c : ascii) : ascii :=
  let n := nat_of_ascii c in
  if ((65 <=? n) && (n <=? 90))%nat then ascii_of_nat (n + 32) else c.

Fixpoint toLowerCase (s : string) : string :=
  match s with
  | EmptyString => EmptyString
  | String c r => String (lower_ascii c) (toLowerCase r)
  end.

(** White space removed by [s.trim()] (ASCII part: TAB, LF, VT, FF, CR,
    space). *)
Definition is_space (c : ascii) : bool :=
  let n := nat_of_ascii c in
  ((9 <=? n) && (n <=? 13) || (n =? 32))%nat.

Fixpoint trimStart (s : string) : string :=
  match s with
  | String c r => if is_space c then trimStart r else s
  | EmptyString => EmptyString
  end.

Fixpoint rev_string (s acc : string) : string :=
  match s with
  | EmptyString => acc
  | String c r => rev_string r (String c acc)
  end.

Definition trim (s : string) : string :=
  rev_string (trimStart (rev_string (trimStart s) "")) "".

(** [s.replace(/^~/, home)] *)
Definition replace_tilde (home s : string) : string :=
  match s with
  | String "~" r => home +:+ r
  | _ => s
  end.

(** Line terminators, which the regular-expression dot does not match
    (LF and CR; the two non-ASCII ones do not occur in byte strings). *)
Definition is_line_terminator (c : ascii) : bool :=
  let n := nat_of_ascii c in ((n =? 10) || (n =? 13))%nat.

(** Does the regular expression [.*lit], anchored at the start of [s],
    match?  The dot run may stop anywhere before the first line
    terminator. *)
Fixpoint dotstar_then (lit s : string) : bool :=
  startsWith lit s ||
  match s with
  | EmptyString => false
  | String c r => negb (is_line_terminator c) && dotstar_then lit r
  end.

(** JavaScript numbers as the rotation monitor sees them: an integer,
    or NaN (what [parseInt] gives for a non-numeric argument). *)
Inductive num := Num (z : Z) | NaN.

Definition lt (a b : num) : bool :=
  match a, b with
  | Num x, Num y => x <? y
  | _, _ => false
  end.

Definition truthy_num (a : num) : bool :=
  match a with Num x => negb (x =? 0) | NaN => false end.

Definition string_of_num (a : num) : string :=
  match a with Num x => string_of_Z x | NaN => "NaN" end.

(** [s.split("\n")] *)
Fixpoint split_lines (s : string) : list string :=
  match s with
  | EmptyString => [EmptyString]
  | String c r =>
      if Ascii.eqb c "010" then EmptyString :: split_lines r
      else match split_lines r with
           | h :: t => String c h :: t
           | [] => [String c EmptyString]
           end
  end.

(** [Math.round(a / b)] for integers [a] and [b > 0]. *)
Definition round_div (a b : Z) : Z := (2 * a + b) / (2 * b).

End JS.

(* ===================================================================== *)
(** ** scripts/session-rotation-monitor.js *)
(* ===================================================================== *)

Module Rotation.

(** A session descriptor as returned by [sessions.list].  A missing
    property is [None]. *)
Record session := {
  key : option string;
  totalTokens : option Z;
  sessionId : option string
}.

(** A pattern of the shape [/^pre.*post/]. *)
Record skip_pattern := { pre : string; post : string }.

Definition test (p : skip_pattern) (s : string) : bool :=
  JS.startsWith (pre p) s &&
  JS.dotstar_then (post p)
    (String.substring (String.length (pre p)) (String.length s) s).

Definition SKIP_PATTERNS : list skip_pattern :=
  [ {| pre := "agent:"; post := ":cron:" |};
    {| pre := "agent:"; post := ":subagent:" |} ].

Definition tokens_num (s : session) : JS.num :=
  match totalTokens s with Some n => JS.Num n | None => JS.NaN end.

(** The callback of [sessions.filter] in [main]. *)
Definition is_candidate (THRESHOLD : JS.num) (s : session) : bool :=
  if negb (JS.truthy_num (tokens_num s)) || JS.lt (tokens_num s) THRESHOLD
  then false
  else match key s with
       | None => false
       | Some k =>
           if negb (JS.truthy k) then false
           else negb (existsb (fun p => test p k) SKIP_PATTERNS)
       end.

Definition candidates (THRESHOLD : JS.num) (sessions : list session) :=
  List.filter (is_candidate THRESHOLD) sessions.

(** Requests sent to the gateway through [callGateway]. *)
Inductive call :=
| CallList
| CallReset (k : string).

(** What [sessions.list] answers: a session array, or an exception. *)
Inductive list_reply :=
| ListOk (sessions : list session)
| ListThrow (msg : string).

(** What [sessions.reset] answers: a result with [ok] or [entry] set
    (carrying the new session id when there is one), any other result
    (with its JSON text), or an exception. *)
Inductive reset_reply :=
| ResetOk (newId : option string)
| ResetOther (json : string)
| ResetThrow (msg : string).

Record run := {
  calls : list call;      (* gateway requests, in order *)
  logs : list string;     (* lines given to [log], without time stamp *)
  rotated : nat;
  exit_code : Z
}.

Definition key_str (s : session) : string := default "undefined" (key s).
Definition tokens_str (s : session) : string :=
  JS.string_of_num (tokens_num s).

Section Main.
(** The gateway is an external collaborator: a state [G] and the
    answers it gives. *)
Context {G : Type}.
Variable gw_list : G -> list_reply * G.
Variable gw_reset : string -> G -> reset_reply * G.
Variable DRY_RUN : bool.
Variable VERBOSE : bool.
Variable THRESHOLD : JS.num.

(** Step 3 of [main]: the loop over the candidates. *)
Fixpoint rotate_loop (cs : list session) (g : G) (r : run) : run * G :=
  match cs with
  | [] => (r, g)
  | s :: rest =>
      if DRY_RUN then
        rotate_loop rest g
          {| calls := calls r;
             logs := logs r ++
               ["  [DRY RUN] Would rotate: " +:+ key_str s +:+ " (" +:+
                tokens_str s +:+ " tokens)"];
             rotated := S (rotated r);
             exit_code := exit_code r |}
      else
        let k := key_str s in
        let '(reply, g') := gw_reset k g in
        let r' :=
          match reply with
          | ResetOk newId =>
              let shown :=
                match newId with
                | Some i => if JS.truthy (JS.slice0 8 i)
                            then JS.slice0 8 i else "unknown"
                | None => "unknown"
                end in
              {| calls := calls r ++ [CallReset k];
                 logs := logs r ++
                   ["  Rotated: " +:+ k +:+ " — " +:+ tokens_str s +:+
                    " tokens → new session " +:+ shown];
                 rotated := S (rotated r);
                 exit_code := exit_code r |}
          | ResetOther json =>
              {| calls := calls r ++ [CallReset k];
                 logs := logs r ++
                   ["  Failed to rotate " +:+ k +:+
                    ": unexpected response " +:+ JS.slice0 200 json];
                 rotated := rotated r;
                 exit_code := exit_code r |}
          | ResetThrow msg =>
              {| calls := calls r ++ [CallReset k];
                 logs := logs r ++
                   ["  Error rotating " +:+ k +:+ ": " +:+ msg];
                 rotated := rotated r;
                 exit_code := exit_code r |}
          end in
        rotate_loop rest g' r'
  end.

Definition start_line : string :=
  "Starting rotation check (threshold: " +:+ JS.string_of_num THRESHOLD
  +:+ " tokens)" +:+ (if DRY_RUN then " [DRY RUN]" else "").

Definition found_line (s : session) : string :=
  "  " +:+ key_str s +:+ " — " +:+ tokens_str s +:+ " tokens (session: "
  +:+ default "undefined" (JS.slice0 8 <$> sessionId s) +:+ ")".

(** The line of [verbose], present in verbose mode only. *)
Definition verbose_line (line : string) : list string :=
  if VERBOSE then [line] else [].

Definition main (g : G) : run * G :=
  let '(reply, g1) := gw_list g in
  match reply with
  | ListThrow msg =>
      ({| calls := [CallList];
          logs := [start_line; "Failed to list sessions: " +:+ msg];
          rotated := 0; exit_code := 1 |}, g1)
  | ListOk sessions =>
      let found :=
        verbose_line ("Found " +:+ JS.string_of_nat (length sessions) +:+
                      " total sessions") in
      let cs := candidates THRESHOLD sessions in
      match cs with
      | [] =>
          ({| calls := [CallList];
              logs := [start_line] ++ found ++
                      ["No sessions exceed threshold. Done."];
              rotated := 0; exit_code := 0 |}, g1)
      | _ =>
          let r0 :=
            {| calls := [CallList];
               logs := [start_line] ++ found ++
                       ["Found " +:+ JS.string_of_nat (length cs) +:+
                        " session(s) exceeding " +:+
                        JS.string_of_num THRESHOLD +:+ " tokens:"]
                       ++ map found_line cs;
               rotated := 0; exit_code := 0 |} in
          let '(r, g2) := rotate_loop cs g1 r0 in
          ({| calls := calls r;
              logs := logs r ++
                ["Done. Rotated " +:+ JS.string_of_nat (rotated r) +:+ "/"
                 +:+ JS.string_of_nat (length cs) +:+ " sessions."];
              rotated := rotated r;
              exit_code := exit_code r |}, g2)
      end
  end.

(** The keys of the rotate commands found in a gateway trace. *)
Definition reset_keys (cl : list call) : list string :=
  omap (fun c => match c with CallReset k => Some k | CallList => None end)
       cl.

End Main.

End Rotation.


(* ===================================================================== *)
(** ** The world the Node scripts run in: files, console, exceptions *)
(* ===================================================================== *)

Module World.

(** [path.join(a, b)], without the normalisation of [.] and [..]. *)
Definition path_join (a b : string) : string := a +:+ "/" +:+ b.

(** A file is addressed the way the scripts build its path:
    [path.join(dir, base)]. *)
Record path := { dir : string; base : string }.

Record file := { content : string; mtimeMs : Z }.

(** [stat.size]: the byte length of the content. *)
Definition size (f : file) : Z := Z.of_nat (String.length (content f)).

(** The file system maps a directory path to its entries.  [denied]
    lists the files that cannot be written and [denied_dirs] the
    directories that cannot be created (permissions, full disk):
    writing or creating there raises. *)
Record world := {
  dirs : gmap string (gmap string file);
  denied : gset (string * string);
  denied_dirs : gset string;
  console : list string
}.

Definition set_dirs (d : gmap string (gmap string file)) (w : world) : world :=
  {| dirs := d; denied := denied w; denied_dirs := denied_dirs w;
     console := console w |}.

Definition lookup_file (p : path) (w : world) : option file :=
  dirs w !! dir p ≫= fun entries => entries !! base p.

(** The outcome of an [await]: a value, or a thrown error with its
    message. *)
Inductive outcome (A : Type) :=
| Val (a : A)
| Throw (msg : string).
Arguments Val {A} a.
Arguments Throw {A} msg.

(** Computations of the scripts: state passing over the world, with
    exceptions. *)
Definition M (A : Type) : Type := world -> outcome A * world.

Definition ret {A} (a : A) : M A := fun w => (Val a, w).

Definition bind {A B} (m : M A) (k : A -> M B) : M B :=
  fun w => match m w with
           | (Val a, w') => k a w'
           | (Throw e, w') => (Throw e, w')
           end.

(** [try { m } catch (err) { h(err.message) }] *)
Definition try_catch {A} (m : M A) (h : string -> M A) : M A :=
  fun w => match m w with
           | (Val a, w') => (Val a, w')
           | (Throw e, w') => h e w'
           end.

Declare Scope world_scope.
Delimit Scope world_scope with world.
Notation "'let*' x ':=' c1 'in' c2" := (bind c1 (fun x => c2))
  (at level 10, x name, c1 at level 100, c2 at level 200) : world_scope.

(** [console.log] / [console.error] of one line. *)
Definition print (line : string) : M unit :=
  fun w => (Val tt,
            {| dirs := dirs w; denied := denied w;
               denied_dirs := denied_dirs w;
               console := console w ++ [line] |}).

(** [fs.readFile(p, "utf-8")] *)
Definition readFile (p : path) : M string :=
  fun w => match lookup_file p w with
           | Some f => (Val (content f), w)
           | None => (Throw "ENOENT", w)
           end.

(** [fs.access(p)] *)
Definition access (p : path) : M unit :=
  fun w => match lookup_file p w with
           | Some _ => (Val tt, w)
           | None => (Throw "ENOENT", w)
           end.

(** [fs.stat(p)] *)
Definition stat (p : path) : M file :=
  fun w => match lookup_file p w with
           | Some f => (Val f, w)
           | None => (Throw "ENOENT", w)
           end.

(** [fs.readdir(d)]: the names of the entries, in the directory's own
    order. *)
Definition readdir (d : string) : M (list string) :=
  fun w => match dirs w !! d with
           | Some entries => (Val (fst <$> map_to_list entries), w)
           | None => (Throw "ENOENT", w)
           end.

(** [fs.mkdir(d, { recursive: true })] *)
Definition mkdir (d : string) : M unit :=
  fun w => if decide (d ∈ denied_dirs w) then (Throw "EACCES", w)
           else match dirs w !! d with
                | Some _ => (Val tt, w)
                | None => (Val tt, set_dirs (<[d := ∅]> (dirs w)) w)
                end.

(** [fs.writeFile(p, text, "utf-8")] at time [now]. *)
Definition writeFile (p : path) (text : string) (now : Z) : M unit :=
  fun w => if decide ((dir p, base p) ∈ denied w) then (Throw "EACCES", w)
           else match dirs w !! dir p with
                | None => (Throw "ENOENT", w)
                | Some entries =>
                    (Val tt,
                     set_dirs
                       (<[dir p :=
                            <[base p := {| content := text; mtimeMs := now |}]>
                              entries]> (dirs w)) w)
                end.

(** Two worlds with the same files and the same write permissions; only
    the console may differ. *)
Definition same_fs (w w' : world) : Prop :=
  dirs w' = dirs w /\ denied w' = denied w /\ denied_dirs w' = denied_dirs w.

(** Two worlds in which every file reads the same (a directory may have
    been created empty) and the write permissions are the same. *)
Definition same_files (w w' : world) : Prop :=
  (forall p, lookup_file p w' = lookup_file p w)
  /\ denied w' = denied w /\ denied_dirs w' = denied_dirs w.

(** A computation that reads but never writes. *)
Definition readonly {A} (m : M A) : Prop :=
  forall w : world, same_fs w (snd (m w)).

End World.

(* ===================================================================== *)
(** ** The configuration document (clawdbot.json) *)
(* ===================================================================== *)

Module Config.

Record agent := {
  id : string;
  name : option string;
  workspace : option string
}.

(** [cfg.agents.list] (empty when absent) and
    [cfg.agents.defaults.workspace]. *)
Record config := {
  agents_list : list agent;
  defaults_workspace : option string
}.

(** The predicate of [agents.find] in both resolvers:
    [a.id === agentId || a.name?.toLowerCase() === agentId]. *)
Definition matches (agentId : string) (a : agent) : bool :=
  String.eqb (id a) agentId ||
  match name a with
  | Some n => String.eqb (JS.toLowerCase n) agentId
  | None => false
  end.

(** [agentConfig?.workspace], kept only when truthy. *)
Definition found_workspace (cfg : config) (agentId : string) : option string :=
  match find (matches agentId) (agents_list cfg) with
  | Some a => match workspace a with
              | Some ws => if JS.truthy ws then Some ws else None
              | None => None
              end
  | None => None
  end.

End Config.


(* ===================================================================== *)
(** ** scripts/memory-checkpoint.js *)
(* ===================================================================== *)

Module Checkpoint.
Import World.
Local Open Scope list_scope.
Local Open Scope world_scope.

(** How many JSONL lines to read from the end of the session file. *)
Definition MAX_LINES : nat := 60.
(** Minimum session size to bother checkpointing. *)
Definition MIN_SESSION_BYTES : Z := 1024.

(** *** Transcript lines, as [JSON.parse] presents them *)

Record part := { ptype : option string; ptext : option string }.

Inductive content_json :=
| CString (s : string)
| CParts (ps : list part)
| COther.

Record message_json := {
  role : option string;
  mcontent : content_json;
  model : option string
}.

Record entry := {
  etype : option string;
  emessage : option message_json;
  timestamp : option string
}.

(** A message record kept by [extractMessages]. *)
Record message := {
  m_role : string;
  m_text : string;
  m_timestamp : option string;
  m_model : option string
}.

(** One reading of the clock: [Date.now()], [toISOString()], and the
    local calendar fields ([getMonth()] counts from 0). *)
Record clock := {
  now_ms : Z;
  iso : string;
  year : nat;
  month0 : nat;
  day : nat;
  hour : nat;
  minute : nat
}.

(** [now.toLocaleTimeString("en-US", { hour: "2-digit", minute: "2-digit",
    hour12: false })] *)
Definition timeStr (c : clock) : string :=
  JS.pad2 (hour c) +:+ ":" +:+ JS.pad2 (minute c).

Definition dateStr (c : clock) : string :=
  JS.string_of_nat (year c) +:+ "-" +:+ JS.pad2 (month0 c + 1) +:+ "-" +:+
  JS.pad2 (day c).

(** The text the duplicate test of the daily log looks at: the file, or
    the header of a new one. *)
Definition daily_existing (agentId : string) (dailyFile : path) (now : clock)
    (w : world) : string :=
  match lookup_file dailyFile w with
  | Some f => content f
  | None => "# " +:+ agentId +:+ " — " +:+ dateStr now +:+
            String "010" (String "010" EmptyString)
  end.

(** Two clock readings in the same minute of the same local day. *)
Definition same_minute (c1 c2 : clock) : Prop :=
  year c1 = year c2 /\ month0 c1 = month0 c2 /\ day c1 = day c2
  /\ hour c1 = hour c2 /\ minute c1 = minute c2.

(** The session file chosen by [findActiveSession]. *)
Record session := { spath : path; s_mtimeMs : Z; s_size : Z }.

(** [path.basename(p, ext)] *)
Definition basename_ext (p : path) (ext : string) : string :=
  let b := base p in
  if JS.endsWith ext b && (String.length ext <? String.length b)%nat
  then String.substring 0 (String.length b - String.length ext) b
  else b.

(** Insertion of the matches into a [Set]: first occurrences, in order. *)
Fixpoint set_add_all (xs seen : list string) : list string :=
  match xs with
  | [] => seen
  | x :: r =>
      if existsb (String.eqb x) seen then set_add_all r seen
      else set_add_all r (seen ++ [x])
  end.

Definition is_role (r : string) (m : message) : bool := String.eqb (m_role m) r.

Section Script.
(** What the environment supplies. *)
Variable parse_line : string -> option entry.
  (* [JSON.parse] of one line; [None] when it (or reading the entry's
     properties) raises *)
Variable fmt_time : string -> string.
  (* [new Date(ts).toLocaleTimeString(...)] of a recorded time stamp *)
Variable match_paths : string -> list string.
  (* the first groups of the file-path pattern's matches in a text *)
Variable HOME : string.            (* [os.homedir()] *)
Variable CLAWDBOT_HOME : string.
Variable SESSION_STALE_HOURS : JS.num.  (* [parseInt] of the variable *)
Variable DRY_RUN : bool.
Variable VERBOSE : bool.

(** Only checkpoint sessions modified within this window (ms). *)
Definition STALENESS_THRESHOLD_MS : Z :=
  (match SESSION_STALE_HOURS with
   | JS.Num h => if JS.truthy_num SESSION_STALE_HOURS then h else 4
   | JS.NaN => 4
   end) * 60 * 60 * 1000.

Definition log (line : string) : M unit := print line.
Definition verbose (line : string) : M unit :=
  if VERBOSE then log line else ret tt.

(** Resolve workspace directory for an agent from config. *)
Definition resolveWorkspace (cfg : Config.config) (agentId : string) : string :=
  match Config.found_workspace cfg agentId with
  | Some ws => JS.replace_tilde HOME ws
  | None =>
      let defaults := Config.defaults_workspace cfg in
      if String.eqb agentId "main" && JS.truthy_opt defaults
      then JS.replace_tilde HOME (default EmptyString defaults)
      else path_join HOME
             (if String.eqb agentId "main" then "clawd"
              else "clawd-" +:+ agentId)
  end.

Definition is_session_file (f : string) : bool :=
  JS.endsWith ".jsonl" f && negb (JS.includes ".deleted" f)
  && negb (JS.includes ".lock" f).

(** The loop of [findActiveSession] that keeps the most recently
    modified file. *)
Fixpoint newest_loop (sessionsDir : string) (fs : list string)
    (newest : option session) (newestMtime : Z) : M (option session) :=
  match fs with
  | [] => ret newest
  | f :: r =>
      let fp := {| dir := sessionsDir; base := f |} in
      let* st := try_catch (let* x := stat fp in ret (Some x))
                           (fun _ => ret None) in
      match st with
      | Some x =>
          if newestMtime <? mtimeMs x
          then newest_loop sessionsDir r
                 (Some {| spath := fp; s_mtimeMs := mtimeMs x;
                          s_size := size x |}) (mtimeMs x)
          else newest_loop sessionsDir r newest newestMtime
      | None => newest_loop sessionsDir r newest newestMtime
      end
  end.

(** Find the most recently modified .jsonl session file for an agent. *)
Definition findActiveSession (agentId : string) (now : clock)
  : M (option session) :=
  let sessionsDir :=
    path_join (path_join (path_join CLAWDBOT_HOME "agents") agentId)
              "sessions" in
  let* entries := try_catch (let* es := readdir sessionsDir in ret (Some es))
                            (fun _ => ret None) in
  match entries with
  | None => ret None
  | Some es =>
      let jsonlFiles := List.filter is_session_file es in
      match jsonlFiles with
      | [] => ret None
      | _ =>
          let* newest := newest_loop sessionsDir jsonlFiles None 0 in
          match newest with
          | None => ret None
          | Some n =>
              let age := now_ms now - s_mtimeMs n in
              if STALENESS_THRESHOLD_MS <? age then
                let* _ := verbose (agentId +:+ ": newest session is " +:+
                                   JS.string_of_Z (JS.round_div age 60000) +:+
                                   "m old, skipping") in
                ret None
              else if s_size n <? MIN_SESSION_BYTES then
                let* _ := verbose (agentId +:+ ": session too small (" +:+
                                   JS.string_of_Z (s_size n) +:+
                                   "B), skipping") in
                ret None
              else ret (Some n)
          end
      end
  end.

(** Read the last N lines from a file. *)
Definition readLastLines (filePath : path) (maxLines : nat)
  : M (list string) :=
  let* content := readFile filePath in
  ret (JS.lastn maxLines (JS.split_lines (JS.trim content))).

(** The text of a message: its string content, or its text parts joined
    by a line break. *)
Definition message_text (c : content_json) : string :=
  match c with
  | CString s => s
  | CParts ps =>
      String.concat (String "010" EmptyString)
        (omap (fun p =>
                 match ptype p, ptext p with
                 | Some t, Some x =>
                     if String.eqb t "text" && JS.truthy x then Some x
                     else None
                 | _, _ => None
                 end) ps)
  | COther => EmptyString
  end.

(** The body of the loop of [extractMessages] for one line: the record
    pushed, if any. *)
Definition extract_line (line : string) : option message :=
  match parse_line line with
  | None => None
  | Some e =>
      match etype e, emessage e with
      | Some t, Some msg =>
          if negb (String.eqb t "message") then None
          else match role msg with
               | Some r =>
                   if negb (String.eqb r "user" || String.eqb r "assistant")
                   then None
                   else
                     let text := message_text (mcontent msg) in
                     if negb (JS.truthy text)
                        || (String.length text <? 5)%nat then None
                     else if String.eqb text "HEARTBEAT_OK"
                             || String.eqb text "NO_REPLY" then None
                     else if JS.startsWith "/" text then None
                     else Some {| m_role := r;
                                  m_text := JS.slice0 1000 text;
                                  m_timestamp :=
                                    match timestamp e with
                                    | Some ts => if JS.truthy ts then Some ts
                                                 else None
                                    | None => None
                                    end;
                                  m_model :=
                                    match model msg with
                                    | Some md => if JS.truthy md then Some md
                                                 else None
                                    | None => None
                                    end |}
               | None => None
               end
      | _, _ => None
      end
  end.

(** Extract structured message data from JSONL lines. *)
Definition extractMessages (lines : list string) : list message :=
  omap extract_line lines.


(** The time shown in front of a snapshot entry. *)
Definition entry_time (m : message) : string :=
  match m_timestamp m with
  | Some ts => fmt_time ts
  | None => "??:??"
  end.

(** Build ACTIVE_CONTEXT.md content from extracted messages. *)
Definition buildActiveContext (agentId : string) (messages : list message)
    (sessionPath : path) (now : clock) : string :=
  let sessionId := basename_ext sessionPath ".jsonl" in
  let header :=
    [ "# Active Context — " +:+ agentId;
      "> Auto-generated by memory-checkpoint at " +:+ iso now;
      "> Session: " +:+ sessionId;
      "> Messages captured: " +:+ JS.string_of_nat (length messages);
      "" ] in
  let recentAssistant := JS.lastn 5 (List.filter (is_role "assistant") messages) in
  let recentUser := JS.lastn 5 (List.filter (is_role "user") messages) in
  let requests :=
    match recentUser with
    | [] => []
    | _ => ["## Recent Requests"] ++
           map (fun m => "- **[" +:+ entry_time m +:+ "]** " +:+
                         JS.slice0 300 (m_text m)) recentUser ++ [""]
    end in
  let work :=
    match recentAssistant with
    | [] => []
    | _ => ["## Recent Work"] ++
           map (fun m => "- **[" +:+ entry_time m +:+ "]** " +:+
                         JS.slice0 400 (m_text m)) recentAssistant ++ [""]
    end in
  let allText := String.concat (String "010" EmptyString) (map m_text messages) in
  let fileRefs :=
    set_add_all
      (List.filter (fun ref => (5 <? String.length ref)%nat
                               && negb (JS.startsWith "http" ref)
                               && negb (JS.includes "node_modules" ref))
                   (match_paths allText)) [] in
  let files :=
    match fileRefs with
    | [] => []
    | _ => ["## Files Referenced"] ++
           map (fun ref => "- `" +:+ ref +:+ "`") (firstn 20 fileRefs) ++ [""]
    end in
  String.concat (String "010" EmptyString) (header ++ requests ++ work ++ files).

(** Build a daily log entry from extracted messages. *)
Definition buildDailyEntry (agentId : string) (messages : list message)
    (now : clock) : string :=
  let userMsgs := List.filter (is_role "user") messages in
  let assistantMsgs := List.filter (is_role "assistant") messages in
  let lines :=
    [ "### Checkpoint " +:+ timeStr now +:+ " (auto)";
      "";
      "- " +:+ JS.string_of_nat (length messages) +:+ " messages (" +:+
      JS.string_of_nat (length userMsgs) +:+ " user, " +:+
      JS.string_of_nat (length assistantMsgs) +:+ " assistant)" ]
    ++ match last userMsgs with
       | Some m => ["- Last request: " +:+ JS.slice0 200 (m_text m)]
       | None => []
       end
    ++ match last assistantMsgs with
       | Some m => ["- Last output: " +:+ JS.slice0 200 (m_text m)]
       | None => []
       end
    ++ [""] in
  String.concat (String "010" EmptyString) lines.

(** The needle of the duplicate test of the daily log. *)
Definition checkpoint_needle (now : clock) : string :=
  "Checkpoint " +:+ JS.slice0 4 (timeStr now).

(** The [try] block that appends to the daily log. *)
Definition appendDaily (agentId : string) (dailyFile : path)
    (dailyEntry : string) (now : clock) : M unit :=
  try_catch
    (let* existing :=
       try_catch (readFile dailyFile)
         (fun _ => ret ("# " +:+ agentId +:+ " — " +:+ dateStr now +:+
                        String "010" (String "010" EmptyString))) in
     let recentCheckpoint := JS.includes (checkpoint_needle now) existing in
     if negb recentCheckpoint then
       let* _ := writeFile dailyFile (existing +:+ dailyEntry) (now_ms now) in
       verbose (agentId +:+ ": appended to " +:+ dateStr now +:+ ".md")
     else
       verbose (agentId +:+ ": skipped daily append (recent checkpoint exists)"))
    (fun msg => log (agentId +:+ ": failed to append daily log: " +:+ msg)).

(** The [try] block that overwrites ACTIVE_CONTEXT.md. *)
Definition writeSnapshot (agentId : string) (activeContextFile : path)
    (activeContext : string) (now : clock) : M unit :=
  try_catch
    (let* _ := writeFile activeContextFile activeContext (now_ms now) in
     verbose (agentId +:+ ": wrote ACTIVE_CONTEXT.md (" +:+
              JS.string_of_nat (String.length activeContext) +:+ " chars)"))
    (fun msg => log (agentId +:+ ": failed to write ACTIVE_CONTEXT.md: " +:+ msg)).

Definition memoryDir_of (cfg : Config.config) (agentId : string) : string :=
  path_join (resolveWorkspace cfg agentId) "memory".

Definition dailyFile_of (cfg : Config.config) (agentId : string) (now : clock)
  : path :=
  {| dir := memoryDir_of cfg agentId; base := dateStr now +:+ ".md" |}.

Definition activeContextFile_of (cfg : Config.config) (agentId : string) : path :=
  {| dir := memoryDir_of cfg agentId; base := "ACTIVE_CONTEXT.md" |}.

(** Process a single agent: find session, extract, write checkpoint. *)
Definition checkpointAgent (cfg : Config.config) (agentId : string)
    (now : clock) : M bool :=
  let* session := findActiveSession agentId now in
  match session with
  | None =>
      let* _ := verbose (agentId +:+ ": no active session") in
      ret false
  | Some session =>
      let* _ := verbose (agentId +:+ ": reading " +:+
                         path_join (dir (spath session)) (base (spath session))
                         +:+ " (" +:+ JS.string_of_Z (s_size session) +:+ "B)") in
      let* lines := readLastLines (spath session) MAX_LINES in
      let messages := extractMessages lines in
      if (length messages <? 3)%nat then
        let* _ := verbose (agentId +:+ ": too few messages (" +:+
                           JS.string_of_nat (length messages) +:+
                           "), skipping") in
        ret false
      else
        let memoryDir := memoryDir_of cfg agentId in
        let* made :=
          try_catch (let* _ := mkdir memoryDir in ret true)
            (fun _ =>
               let* _ := log (agentId +:+ ": failed to create memory dir " +:+
                              memoryDir) in
               ret false) in
        if negb made then ret false
        else
          let activeContext :=
            buildActiveContext agentId messages (spath session) now in
          let dailyEntry := buildDailyEntry agentId messages now in
          let dailyFile := dailyFile_of cfg agentId now in
          let activeContextFile := activeContextFile_of cfg agentId in
          if DRY_RUN then
            let* _ := log (agentId +:+
                           ": [DRY RUN] would write ACTIVE_CONTEXT.md (" +:+
                           JS.string_of_nat (String.length activeContext) +:+
                           " chars)") in
            let* _ := log (agentId +:+ ": [DRY RUN] would append to " +:+
                           dateStr now +:+ ".md (" +:+
                           JS.string_of_nat (String.length dailyEntry) +:+
                           " chars)") in
            ret true
          else
            let* _ := writeSnapshot agentId activeContextFile activeContext now in
            let* _ := appendDaily agentId dailyFile dailyEntry now in
            ret true
  end.

(** The loop of [main] over the agents, with its success counter. *)
Fixpoint agents_loop (cfg : Config.config) (agents : list string)
    (now : clock) (checkpointed : nat) : M nat :=
  match agents with
  | [] => ret checkpointed
  | agentId :: rest =>
      let* didCheckpoint :=
        try_catch (checkpointAgent cfg agentId now)
          (fun msg =>
             let* _ := log (agentId +:+ ": error: " +:+ msg) in ret false) in
      agents_loop cfg rest now
        (if didCheckpoint then S checkpointed else checkpointed)
  end.

(** What one invocation reports: the success count of the tally, the
    number of agents, and the exit code. *)
Record report := { checkpointed : nat; total : nat; exit_code : Z }.

(** Main: checkpoint all agents.  [loaded] is what [loadConfig] gave. *)
Definition main (loaded : outcome Config.config) (now : clock) : M report :=
  let* _ := log ("Starting checkpoint run" +:+
                 (if DRY_RUN then " [DRY RUN]" else "")) in
  match loaded with
  | Throw msg =>
      let* _ := log ("Failed to load config: " +:+ msg) in
      ret {| checkpointed := 0; total := 0; exit_code := 1 |}
  | Val cfg =>
      let agents := map Config.id (Config.agents_list cfg) in
      match agents with
      | [] =>
          let* _ := log "No agents found in config" in
          ret {| checkpointed := 0; total := 0; exit_code := 0 |}
      | _ =>
          let* n := agents_loop cfg agents now 0 in
          let* _ := log ("Done. Checkpointed " +:+ JS.string_of_nat n +:+ "/"
                         +:+ JS.string_of_nat (length agents) +:+ " agents.") in
          ret {| checkpointed := n; total := length agents; exit_code := 0 |}
      end
  end.

End Script.
End Checkpoint.


(* ===================================================================== *)
(** ** hooks/session-summary and hooks/memory-index-inject *)
(* ===================================================================== *)

Module Hooks.
Import World.
Local Open Scope list_scope.
Local Open Scope world_scope.

Section Resolver.
Variable HOME : string.    (* [os.homedir()] *)

(** [(agentId || "main").trim().toLowerCase()] *)
Definition canonical_id (agentId : string) : string :=
  JS.toLowerCase (JS.trim (if JS.truthy agentId then agentId else "main")).

(** Inline: resolve workspace directory for an agent from config. *)
Definition resolveAgentWorkspaceDir (cfg : Config.config) (agentId : string)
  : string :=
  let id := canonical_id agentId in
  match Config.found_workspace cfg id with
  | Some ws => JS.replace_tilde HOME ws
  | None =>
      if String.eqb id "main" then
        let fallback := Config.defaults_workspace cfg in
        if JS.truthy_opt fallback
        then JS.replace_tilde HOME (default EmptyString fallback)
        else path_join HOME "clawd"
      else path_join HOME ("clawd-" +:+ id)
  end.

End Resolver.

(** Minimum total memory size (bytes) to trigger index injection. *)
Definition MEMORY_THRESHOLD_BYTES : Z := 50 * 1024.

(** An element of [context.bootstrapFiles]. *)
Record bootstrap_file := { bf_name : string; bf_content : string }.

(** The event given to the hook.  [bootstrapFiles] is [None] when the
    property is not an array. *)
Record context := {
  workspaceDir : option string;
  bootstrapFiles : option (list bootstrap_file)
}.

Record event := {
  ev_type : string;
  ev_action : string;
  ev_context : option context
}.

Definition nl : string := String "010" EmptyString.

(** The progressive disclosure instruction. *)
Definition instruction (totalMemoryBytes : Z) : string :=
  String.concat nl
    [ "## Progressive Memory Disclosure";
      "";
      "Your memory pool contains " +:+
        JS.string_of_Z (JS.round_div totalMemoryBytes 1024) +:+ "KB (~" +:+
        JS.string_of_Z (JS.round_div totalMemoryBytes 4) +:+
        " tokens) across multiple files.";
      "To avoid wasting context on irrelevant memory, you've been given a compact INDEX instead of the full contents.";
      "";
      "**How to use:**";
      "1. ACTIVE_CONTEXT.md is loaded below — it contains your current working state";
      "2. The INDEX shows all available memory files with categories, sizes, and observation markers";
      "3. Use `memory_search` to find relevant files by topic";
      "4. Use `memory_get` to load specific sections of specific files";
      "5. **Don't load everything** — only pull what's relevant to the current task";
      "";
      "**Observation markers in memory files:**";
      "- 🔴 [GOTCHA] — Traps, footguns, unexpected behavior";
      "- 🟤 [DECISION] — Architectural/strategic choices";
      "- ⚖️ [TRADEOFF] — Evaluated options with pros/cons";
      "- 🟡 [SOLUTION] — Problem + how it was solved";
      "- 🔵 [PATTERN] — Reusable approach or workflow";
      "- 🟢 [FACT] — Verified reference data";
      "- 🟣 [PREFERENCE] — User preference";
      "- ⚪ [TODO] — Action items";
      "" ].

(** The test of the size loop: a memory document other than the index. *)
Definition is_memory_doc (f : string) : bool :=
  JS.endsWith ".md" f && negb (String.eqb f "INDEX.md").

(** The first injected unit: the instruction, a rule, and the index. *)
Definition index_unit (totalMemoryBytes : Z) (indexContent : string)
  : bootstrap_file :=
  {| bf_name := "MEMORY_INDEX.md";
     bf_content :=
       String.concat nl [instruction totalMemoryBytes; "---"; ""; indexContent] |}.

(** The second injected unit, pushed when [activeContextContent] is
    truthy. *)
Definition snapshot_units (activeContextContent : option string)
  : list bootstrap_file :=
  match activeContextContent with
  | Some c =>
      if JS.truthy c
      then [{| bf_name := "ACTIVE_CONTEXT.md"; bf_content := c |}]
      else []
  | None => []
  end.

(** The loop that adds up the sizes of the memory documents. *)
Fixpoint total_loop (memoryDir : string) (files : list string) (total : Z)
  : M Z :=
  match files with
  | [] => ret total
  | f :: r =>
      if is_memory_doc f then
        let* st := stat {| dir := memoryDir; base := f |} in
        total_loop memoryDir r (total + size st)
      else total_loop memoryDir r total
  end.

(** The handler.  It returns [context.bootstrapFiles] as it is when the
    handler ends ([None] when there is no such array). *)
Definition memoryIndexInject (ev : event) : M (option (list bootstrap_file)) :=
  let sink0 := ev_context ev ≫= bootstrapFiles in
  if negb (String.eqb (ev_type ev) "agent")
     || negb (String.eqb (ev_action ev) "bootstrap") then ret sink0
  else
    match ev_context ev with
    | None => ret sink0
    | Some ctx =>
        match workspaceDir ctx, bootstrapFiles ctx with
        | Some wd, Some sink =>
            if negb (JS.truthy wd) then ret sink0
            else
              let memoryDir := path_join wd "memory" in
              let indexPath := {| dir := memoryDir; base := "INDEX.md" |} in
              let* found :=
                try_catch (let* _ := access indexPath in ret true)
                  (fun _ =>
                     let* _ := print "[memory-index-inject] No INDEX.md found, skipping" in
                     ret false) in
              if negb found then ret sink0
              else
                let* total :=
                  try_catch
                    (let* files := readdir memoryDir in
                     let* t := total_loop memoryDir files 0 in
                     ret (Some t))
                    (fun _ => ret None) in
                match total with
                | None => ret sink0
                | Some totalMemoryBytes =>
                    if totalMemoryBytes <? MEMORY_THRESHOLD_BYTES then
                      let* _ :=
                        print ("[memory-index-inject] Memory pool " +:+
                               JS.string_of_Z totalMemoryBytes +:+ "B < " +:+
                               JS.string_of_Z MEMORY_THRESHOLD_BYTES +:+
                               "B threshold, skipping") in
                      ret sink0
                    else
                      let* index :=
                        try_catch
                          (let* c := readFile indexPath in ret (Some c))
                          (fun _ =>
                             let* _ := print "[memory-index-inject] Failed to read INDEX.md" in
                             ret None) in
                      match index with
                      | None => ret sink0
                      | Some indexContent =>
                          let activeContextPath :=
                            {| dir := memoryDir; base := "ACTIVE_CONTEXT.md" |} in
                          let* activeContextContent :=
                            try_catch
                              (let* c := readFile activeContextPath in
                               ret (Some c))
                              (fun _ => ret None) in
                          let sink2 :=
                            sink ++ [index_unit totalMemoryBytes indexContent]
                            ++ snapshot_units activeContextContent in
                          let* _ :=
                            print ("[memory-index-inject] Injected INDEX (" +:+
                                   JS.string_of_nat (String.length indexContent)
                                   +:+ " chars) + ACTIVE_CONTEXT for " +:+ wd) in
                          ret (Some sink2)
                      end
                end
        | _, _ => ret sink0
        end
    end.

(** The aggregate byte size of the memory documents of a directory,
    the index itself left out, as the specification words the decision
    rule of the disclosure planner. *)
Definition aggregate_size (entries : gmap string file) : Z :=
  foldr Z.add 0
    (map (fun nf => size (snd nf))
         (List.filter (fun nf => is_memory_doc (fst nf)) (map_to_list entries))).

End Hooks.


(* ===================================================================== *)
(** ** scripts/generate-memory-index.sh *)
(* ===================================================================== *)

Module IndexBuilder.
Local Open Scope list_scope.
Local Open Scope nat_scope.

(** A regular file of the memory directory: its name, its bytes and the
    date printed by [stat] / [date -r] ([%Y-%m-%d], or [unknown]). *)
Record doc := { fname : string; body : string; modified : string }.

(** The closed set of observation markers. *)
Inductive marker :=
| Decision | Gotcha | Solution | Pattern | Tradeoff | Fact | Preference | Todo.

(** The bracketed tag each [grep -c] looks for. *)
Definition tag (m : marker) : string :=
  match m with
  | Decision => "[DECISION]"
  | Gotcha => "[GOTCHA]"
  | Solution => "[SOLUTION]"
  | Pattern => "[PATTERN]"
  | Tradeoff => "[TRADEOFF]"
  | Fact => "[FACT]"
  | Preference => "[PREFERENCE]"
  | Todo => "[TODO]"
  end.

(** [grep -c tag file]: the number of lines that contain the tag. *)
Definition count_marker (m : marker) (d : doc) : nat :=
  length (List.filter (JS.includes (tag m)) (JS.split_lines (body d))).

(** The running totals kept in the script's global variables. *)
Record totals := {
  TOTAL_SIZE : N;
  TOTAL_FILES : nat;
  TOTAL_DECISIONS : nat;
  TOTAL_GOTCHAS : nat;
  TOTAL_SOLUTIONS : nat;
  TOTAL_PATTERNS : nat;
  TOTAL_TODOS : nat
}.

Definition totals0 : totals :=
  {| TOTAL_SIZE := 0%N; TOTAL_FILES := 0; TOTAL_DECISIONS := 0;
     TOTAL_GOTCHAS := 0; TOTAL_SOLUTIONS := 0; TOTAL_PATTERNS := 0;
     TOTAL_TODOS := 0 |}.

(** Function to estimate tokens (~4 chars per token for English text). *)
Definition estimate_tokens (bytes : N) : N := (bytes / 4)%N.

Definition string_of_N (n : N) : string := JS.string_of_Z (Z.of_N n).

(** [wc -c < file] *)
Definition fsize_of (body : string) : N := N.of_nat (String.length body).

(** Function to format file size. *)
Definition format_size (bytes : N) : string :=
  if (1048576 <=? bytes)%N then string_of_N (bytes / 1048576) +:+ "MB"
  else if (1024 <=? bytes)%N then string_of_N (bytes / 1024) +:+ "KB"
  else string_of_N bytes +:+ "B".

(** One piece of [OBS_STR]: the count and its emoji, when positive. *)
Definition obs_piece (n : nat) (emoji : string) : string :=
  if 0 <? n then JS.string_of_nat n +:+ emoji +:+ " " else EmptyString.

(** [count_observations]: the new totals and [OBS_STR]. *)
Definition count_observations (d : doc) (t : totals) : totals * string :=
  let decisions := count_marker Decision d in
  let gotchas := count_marker Gotcha d in
  let solutions := count_marker Solution d in
  let patterns := count_marker Pattern d in
  let tradeoffs := count_marker Tradeoff d in
  let facts := count_marker Fact d in
  let prefs := count_marker Preference d in
  let todos := count_marker Todo d in
  let t' :=
    {| TOTAL_SIZE := TOTAL_SIZE t;
       TOTAL_FILES := TOTAL_FILES t;
       TOTAL_DECISIONS := TOTAL_DECISIONS t + decisions;
       TOTAL_GOTCHAS := TOTAL_GOTCHAS t + gotchas;
       TOTAL_SOLUTIONS := TOTAL_SOLUTIONS t + solutions;
       TOTAL_PATTERNS := TOTAL_PATTERNS t + patterns;
       TOTAL_TODOS := TOTAL_TODOS t + todos |} in
  let obs :=
    obs_piece decisions "🟤" +:+ obs_piece gotchas "🔴" +:+
    obs_piece solutions "🟡" +:+ obs_piece patterns "🔵" +:+
    obs_piece tradeoffs "⚖️" +:+ obs_piece facts "🟢" +:+
    obs_piece prefs "🟣" +:+ obs_piece todos "⚪" in
  (t', if String.eqb obs EmptyString then "—" else obs).

(** [basename file .md] *)
Definition basename_md (f : string) : string :=
  if JS.endsWith ".md" f && (3 <? String.length f)
  then String.substring 0 (String.length f - 3) f
  else f.

Fixpoint drop_while (p : ascii -> bool) (s : string) : string :=
  match s with
  | String c r => if p c then drop_while p r else s
  | EmptyString => EmptyString
  end.

(** Function to get first heading or filename. *)
Definition get_title (d : doc) : string :=
  let heading :=
    match List.find (JS.startsWith "#") (JS.split_lines (body d)) with
    | Some l => drop_while (Ascii.eqb " ") (drop_while (Ascii.eqb "#") l)
    | None => EmptyString
    end in
  if String.eqb heading EmptyString then basename_md (fname d)
  else JS.slice0 60 heading.

(** The categories, in the order of the [case] branches. *)
Inductive category :=
| Core | Uqual | Research | Session | Config | Plan | Project | Other.

Definition is_digit (c : ascii) : bool :=
  let n := nat_of_ascii c in (48 <=? n) && (n <=? 57).

(** The glob [20[0-9][0-9]-[0-9][0-9]-[0-9][0-9]*]. *)
Definition is_dated (f : string) : bool :=
  match f with
  | String "2" (String "0" (String a (String b (String "-"
      (String c (String d (String "-" (String e (String g _))))))))) =>
      is_digit a && is_digit b && is_digit c && is_digit d
      && is_digit e && is_digit g
  | _ => false
  end.

Definition categorize (f : string) : category :=
  if String.eqb f "ACTIVE_CONTEXT.md" || String.eqb f "overnight-run-state.md"
     || String.eqb f "slack-mission-control.md" then Core
  else if JS.startsWith "uqual-" f then Uqual
  else if JS.startsWith "research-" f then Research
  else if is_dated f then Session
  else if JS.endsWith "-config.md" f || JS.startsWith "credentials-" f
  then Config
  else if JS.startsWith "plan-" f || JS.startsWith "procedure-" f then Plan
  else if JS.includes "-setup" f || JS.includes "-checklist" f then Project
  else Other.

(** The table row of one document. *)
Definition row (d : doc) (obs : string) : string :=
  let fsize := fsize_of (body d) in
  "| " +:+ fname d +:+ " | " +:+ get_title d +:+ " | " +:+ format_size fsize
  +:+ " | ~" +:+ string_of_N (estimate_tokens fsize) +:+ " | " +:+ obs
  +:+ " | " +:+ modified d +:+ " |".

(** The files the loop processes: the expansion of [*.md] (names that
    end in [.md] and do not start with a dot), INDEX.md skipped. *)
Definition processed (d : doc) : bool :=
  JS.endsWith ".md" (fname d) && negb (JS.startsWith "." (fname d))
  && negb (String.eqb (fname d) "INDEX.md").

(** The state of the main loop: the totals and the rows written so far
    to the temporary file of each category. *)
Record build := { acc : totals; rows : list (category * string) }.

Definition step (b : build) (d : doc) : build :=
  if processed d then
    let fsize := fsize_of (body d) in
    let t1 :=
      {| TOTAL_SIZE := (TOTAL_SIZE (acc b) + fsize)%N;
         TOTAL_FILES := TOTAL_FILES (acc b) + 1;
         TOTAL_DECISIONS := TOTAL_DECISIONS (acc b);
         TOTAL_GOTCHAS := TOTAL_GOTCHAS (acc b);
         TOTAL_SOLUTIONS := TOTAL_SOLUTIONS (acc b);
         TOTAL_PATTERNS := TOTAL_PATTERNS (acc b);
         TOTAL_TODOS := TOTAL_TODOS (acc b) |} in
    let '(t2, obs) := count_observations d t1 in
    {| acc := t2; rows := rows b ++ [(categorize (fname d), row d obs)] |}
  else b.

Definition scan (corpus : list doc) : build :=
  fold_left step corpus {| acc := totals0; rows := [] |}.

(** *** [sort -t'|' -k6 -r] *)

(** The text after the [n]-th separator: where field [n+1] starts. *)
Fixpoint after_seps (n : nat) (s : string) : string :=
  match n with
  | O => s
  | S k =>
      match s with
      | EmptyString => EmptyString
      | String c r => if Ascii.eqb c "|" then after_seps k r
                      else after_seps n r
      end
  end.

(** The sort key [-k6]: from the start of field 6 to the end of line. *)
Definition sort_key (line : string) : string := after_seps 5 line.

(** [line_ge a b]: [a] does not sort before [b] in byte order of the
    key, the whole line deciding between equal keys. *)
Definition line_ge (a b : string) : bool :=
  match String.compare (sort_key a) (sort_key b) with
  | Gt => true
  | Lt => false
  | Eq => match String.compare a b with Lt => false | _ => true end
  end.

Fixpoint insert_desc (x : string) (l : list string) : list string :=
  match l with
  | [] => [x]
  | y :: r => if line_ge x y then x :: l else y :: insert_desc x r
  end.

(** The lines in reverse ([-r]) order. *)
Definition sort_rows (l : list string) : list string :=
  fold_right insert_desc [] l.

Definition category_eqb (a b : category) : bool :=
  match a, b with
  | Core, Core | Uqual, Uqual | Research, Research | Session, Session
  | Config, Config | Plan, Plan | Project, Project | Other, Other => true
  | _, _ => false
  end.

Definition rows_of (c : category) (b : build) : list string :=
  map snd (List.filter (fun r => category_eqb (fst r) c) (rows b)).

Definition TABLE_HEADER : list string :=
  [ "| File | Title | Size | Tokens | Observations | Modified |";
    "|------|-------|------|--------|-------------|----------|" ].

(** Write each category: the lines appended to INDEX.md. *)
Definition write_category (label desc : string) (file : list string)
  : list string :=
  match file with
  | [] => []
  | _ =>
      [""; "### " +:+ label]
      ++ (if JS.truthy desc then ["_" +:+ desc +:+ "_"] else [])
      ++ [""] ++ TABLE_HEADER ++ sort_rows file
  end.

(** The second header line of INDEX.md, with the corpus-wide marker
    totals. *)
Definition observations_line (t : totals) : string :=
  "> **Observations**: " +:+ JS.string_of_nat (TOTAL_DECISIONS t) +:+
  "🟤 decisions | " +:+ JS.string_of_nat (TOTAL_GOTCHAS t) +:+
  "🔴 gotchas | " +:+ JS.string_of_nat (TOTAL_SOLUTIONS t) +:+
  "🟡 solutions | " +:+ JS.string_of_nat (TOTAL_PATTERNS t) +:+
  "🔵 patterns | " +:+ JS.string_of_nat (TOTAL_TODOS t) +:+ "⚪ todos".

Definition header (GENERATED : string) (t : totals) : list string :=
  [ "# Memory Index";
    "> **Generated**: " +:+ GENERATED +:+ " | **Files**: " +:+
      JS.string_of_nat (TOTAL_FILES t) +:+ " | **Size**: " +:+
      format_size (TOTAL_SIZE t) +:+ " | **~Tokens**: " +:+
      string_of_N (estimate_tokens (TOTAL_SIZE t));
    observations_line t;
    "";
    "## How to Use This Index";
    "- **Don't load everything.** Use `memory_search` to find relevant files, then `memory_get` to read specific sections.";
    "- **Always load**: ACTIVE_CONTEXT.md (current working state)";
    "- **Load on demand**: Everything else based on the task at hand";
    "- Observation markers: 🔴 GOTCHA | 🟤 DECISION | ⚖️ TRADEOFF | 🟡 SOLUTION | 🔵 PATTERN | 🟢 FACT | 🟣 PREFERENCE | ⚪ TODO";
    "" ].

(** The lines of INDEX.md for a corpus, generated at [GENERATED]. *)
Definition generate (GENERATED : string) (corpus : list doc) : list string :=
  let b := scan corpus in
  header GENERATED (acc b)
  ++ write_category "🔑 Core State (always load ACTIVE_CONTEXT)" "Current working state, overnight run status, mission control config" (rows_of Core b)
  ++ write_category "🏢 UQUAL Domain" "Business strategy, repos, credit/finance domain, marketing context" (rows_of Uqual b)
  ++ write_category "📋 Plans & Procedures" "Implementation plans, deployment procedures, checklists" (rows_of Plan b)
  ++ write_category "⚙️ Config & Credentials" "Integration configs, API keys, service connections" (rows_of Config b)
  ++ write_category "🔬 Research Reports" "Deep research output from sub-agents" (rows_of Research b)
  ++ write_category "🏗️ Project Setup" "Agent setup checklists, project scaffolding" (rows_of Project b)
  ++ write_category "📅 Session Logs" "Daily session notes and decisions" (rows_of Session b)
  ++ write_category "📁 Other" "Uncategorized memory files" (rows_of Other b).

(** The corpus-wide total that the header shows for a marker type; the
    script keeps none for tradeoff, fact and preference. *)
Definition total_of (m : marker) (t : totals) : option nat :=
  match m with
  | Decision => Some (TOTAL_DECISIONS t)
  | Gotcha => Some (TOTAL_GOTCHAS t)
  | Solution => Some (TOTAL_SOLUTIONS t)
  | Pattern => Some (TOTAL_PATTERNS t)
  | Todo => Some (TOTAL_TODOS t)
  | Tradeoff | Fact | Preference => None
  end.

(** The sum of the per-document counts of a marker type. *)
Definition sum_marker (m : marker) (docs : list doc) : nat :=
  list_sum (map (count_marker m) docs).

End IndexBuilder.


(* ===================================================================== *)
(** ** Reasoning about computations of the world monad *)
(* ===================================================================== *)

Module Effects.
Import World.

(** A computation that never raises. *)
Definition nothrow {A} (m : M A) : Prop :=
  forall w : world, exists (a : A) (w' : world), m w = (Val a, w').

(** Every value the computation returns satisfies [Q]. *)
Definition ensures {A} (m : M A) (Q : A -> Prop) : Prop :=
  forall w : world,
    match fst (m w) with
    | Val a => Q a
    | Throw _ => True
    end.

(** [q] is not one of the files [ps]. *)
Definition outside (ps : list path) (q : path) : Prop :=
  forall p, In p ps -> dir q <> dir p \/ base q <> base p.

(** A computation that leaves every file outside [ps] reading the same
    and never changes the write permissions. *)
Definition changes_only {A} (ps : list path) (m : M A) : Prop :=
  forall w : world,
    (forall q, outside ps q -> lookup_file q (snd (m w)) = lookup_file q w)
    /\ denied (snd (m w)) = denied w
    /\ denied_dirs (snd (m w)) = denied_dirs w.

(** The two memory files a checkpoint run over an agent may write. *)
Definition agent_files (HOME : string) (cfg : Config.config)
    (now : Checkpoint.clock) (agentId : string) : list path :=
  [ Checkpoint.activeContextFile_of HOME cfg agentId;
    Checkpoint.dailyFile_of HOME cfg agentId now ].

End Effects.

(* ===================================================================== *)
(** ** session-rotation-monitor.js: command line and environment *)
(* ===================================================================== *)

Module RotationArgs.

Definition digit_val (c : ascii) : option Z :=
  let n := nat_of_ascii c in
  if ((48 <=? n) && (n <=? 57))%nat then Some (Z.of_nat (n - 48)) else None.

(** The longest run of decimal digits at the start of [s], as a number;
    [None] when there is no digit. *)
Fixpoint digits_prefix (s : string) (acc : Z) (seen : bool) : option Z :=
  match s with
  | String c r =>
      match digit_val c with
      | Some d => digits_prefix r (10 * acc + d) true
      | None => if seen then Some acc else None
      end
  | EmptyString => if seen then Some acc else None
  end.

(** [parseInt(s, 10)]: leading white space is skipped, a sign is
    accepted, the digits that follow are read and the rest is ignored;
    without a digit the result is NaN. *)
Definition parseInt (s : string) : JS.num :=
  match JS.trimStart s with
  | String "-" r =>
      match digits_prefix r 0 false with
      | Some n => JS.Num (- n)
      | None => JS.NaN
      end
  | String "+" r =>
      match digits_prefix r 0 false with
      | Some n => JS.Num n
      | None => JS.NaN
      end
  | t =>
      match digits_prefix t 0 false with
      | Some n => JS.Num n
      | None => JS.NaN
      end
  end.

(** [parseInt(process.env.X, 10)]: an unset variable reads as the text
    [undefined]. *)
Definition parseInt_env (v : option string) : JS.num :=
  match v with
  | Some s => parseInt s
  | None => JS.NaN
  end.

(** Default rotation threshold: 150K tokens. *)
Definition DEFAULT_THRESHOLD (ROTATION_THRESHOLD : option string) : JS.num :=
  let n := parseInt_env ROTATION_THRESHOLD in
  if JS.truthy_num n then n else JS.Num 150000.

(** [argv.indexOf(x)] *)
Fixpoint indexOf (x : string) (argv : list string) : option nat :=
  match argv with
  | [] => None
  | a :: r => if String.eqb a x then Some O
              else option_map S (indexOf x r)
  end.

Definition DRY_RUN (argv : list string) : bool :=
  existsb (String.eqb "--dry-run") argv.

Definition VERBOSE (argv : list string) : bool :=
  existsb (String.eqb "--verbose") argv.

Definition THRESHOLD (argv : list string) (ROTATION_THRESHOLD : option string)
  : JS.num :=
  match indexOf "--threshold" argv with
  | Some thresholdIdx =>
      match nth_error argv (thresholdIdx + 1) with
      | Some a => if JS.truthy a then parseInt a
                  else DEFAULT_THRESHOLD ROTATION_THRESHOLD
      | None => DEFAULT_THRESHOLD ROTATION_THRESHOLD
      end
  | None => DEFAULT_THRESHOLD ROTATION_THRESHOLD
  end.

End RotationArgs.

(* ===================================================================== *)
(** ** hooks/session-summary: the agent of a session key *)
(* ===================================================================== *)

Module SessionKey.

(** [s.split(":")] *)
Fixpoint split_colon (s : string) : list string :=
  match s with
  | EmptyString => [EmptyString]
  | String c r =>
      if Ascii.eqb c ":" then EmptyString :: split_colon r
      else match split_colon r with
           | h :: t => String c h :: t
           | [] => [String c EmptyString]
           end
  end.

(** Inline: extract agent ID from a session key like
    "agent:desmond:slack:dm:...".  A missing key is [None]. *)
Definition resolveAgentIdFromSessionKey (sessionKey : option string) : string :=
  match sessionKey with
  | None => "main"
  | Some k =>
      if negb (JS.truthy k) then "main"
      else
        match split_colon k with
        | p0 :: p1 :: _ =>
            if String.eqb p0 "agent" && JS.truthy p1
            then JS.toLowerCase p1 else "main"
        | _ => "main"
        end
  end.

End SessionKey.

(* ===================================================================== *)
(** ** scripts/regenerate-all-indexes.sh: workspace discovery *)
(* ===================================================================== *)

Module Regenerate.

(** Python's [w.replace('~', home)]: every tilde is replaced. *)
Fixpoint replace_tildes (home s : string) : string :=
  match s with
  | EmptyString => EmptyString
  | String c r =>
      if Ascii.eqb c "~" then home +:+ replace_tildes home r
      else String c (replace_tildes home r)
  end.

(** The per-agent part of the inline Python program: the lines printed
    and the set [seen]. *)
Fixpoint agents_pass (home : string) (agents : list Config.agent)
    (seen : list string) : list string :=
  match agents with
  | [] => []
  | a :: r =>
      match Config.workspace a with
      | Some ws =>
          if JS.truthy ws then
            let w := replace_tildes home ws in
            if existsb (String.eqb w) seen then agents_pass home r seen
            else w :: agents_pass home r (w :: seen)
          else agents_pass home r seen
      | None => agents_pass home r seen
      end
  end.

(** The workspace paths printed for a configuration: the default
    workspace first, then the agents' own, each once. *)
Definition WORKSPACES (home : string) (cfg : Config.config) : list string :=
  match Config.defaults_workspace cfg with
  | Some dw =>
      if JS.truthy dw then
        let d := replace_tildes home dw in
        d :: agents_pass home (Config.agents_list cfg) [d]
      else agents_pass home (Config.agents_list cfg) []
  | None => agents_pass home (Config.agents_list cfg) []
  end.

End Regenerate.

(* ===================================================================== *)
(** ** hooks/session-summary: the reader of the closed session *)
(* ===================================================================== *)

Module SessionSummary.
Import World Checkpoint.
Local Open Scope list_scope.
Local Open Scope world_scope.

Section Reader.
Variable parse_line : string -> option entry.

(** The text the reader takes from a message: the content when it is a
    string, the text of the first part of type [text] when it is an
    array.  An empty string is falsy and is dropped by the tests that
    follow. *)
Definition first_text (c : content_json) : option string :=
  match c with
  | CString s => Some s
  | CParts ps =>
      match List.find (fun p => match ptype p with
                                | Some t => String.eqb t "text"
                                | None => false
                                end) ps with
      | Some p => ptext p
      | None => None
      end
  | COther => None
  end.

(** The body of the loop for one line: the text pushed, if any. *)
Definition summary_line (line : string) : option string :=
  match parse_line line with
  | None => None
  | Some e =>
      match etype e, emessage e with
      | Some t, Some msg =>
          if String.eqb t "message" then
            match role msg with
            | Some r =>
                if String.eqb r "user" || String.eqb r "assistant" then
                  match first_text (mcontent msg) with
                  | Some text =>
                      if JS.truthy text && negb (JS.startsWith "/" text)
                      then Some (r +:+ ": " +:+ JS.slice0 500 text)
                      else None
                  | None => None
                  end
                else None
            | None => None
            end
          else None
      | _, _ => None
      end
  end.

(** Read recent messages from session file. *)
Definition getSessionContent (sessionFilePath : path) (maxLines : nat)
  : M (option string) :=
  try_catch
    (let* content := readFile sessionFilePath in
     let recentLines := JS.lastn maxLines (JS.split_lines (JS.trim content)) in
     ret (Some (String.concat (String "010" (String "010" EmptyString))
                  (omap summary_line recentLines))))
    (fun _ => ret None).

End Reader.
End SessionSummary.


(* ===================================================================== *)
(** ** Concrete inputs used by the examples below *)
(* ===================================================================== *)

(** A gateway that lists one session at the threshold and accepts every
    reset. *)
Definition at_threshold_session : Rotation.session :=
  {| Rotation.key := Some "agent:main:main";
     Rotation.totalTokens := Some 150000;
     Rotation.sessionId := Some "0f3c9a7e-1111" |}.

Definition scenario_c_session : Rotation.session :=
  {| Rotation.key := Some "agent:main:main";
     Rotation.totalTokens := Some 160000;
     Rotation.sessionId := Some "0f3c9a7e-1111" |}.

Definition cron_session : Rotation.session :=
  {| Rotation.key := Some "agent:main:cron:nightly";
     Rotation.totalTokens := Some 900000;
     Rotation.sessionId := Some "77aa0001-2222" |}.

Definition listing (ss : list Rotation.session) (g : unit)
  : Rotation.list_reply * unit := (Rotation.ListOk ss, g).

Definition accept_reset (k : string) (g : unit) : Rotation.reset_reply * unit :=
  (Rotation.ResetOk (Some "a1b2c3d4e5f6"), g).

Fixpoint repeat_string (n : nat) (s : string) : string :=
  match n with
  | O => EmptyString
  | S k => s +:+ repeat_string k s
  end.

Definition mk_file (c : string) : World.file :=
  {| World.content := c; World.mtimeMs := 1767000000000 |}.

Definition mk_world (d : gmap string (gmap string World.file)) : World.world :=
  {| World.dirs := d; World.denied := ∅; World.denied_dirs := ∅;
     World.console := [] |}.

(** A bootstrap event for the workspace [/ws], with an empty sink. *)
Definition bootstrap_event : Hooks.event :=
  {| Hooks.ev_type := "agent"; Hooks.ev_action := "bootstrap";
     Hooks.ev_context :=
       Some {| Hooks.workspaceDir := Some "/ws";
               Hooks.bootstrapFiles := Some [] |} |}.

(** [n] memory documents of [size] bytes each. *)
Definition note_files (n size : nat) : list (string * World.file) :=
  map (fun i => ("note-" +:+ JS.string_of_nat i +:+ ".md",
                 mk_file (repeat_string size "x")))
      (seq 0 n).

(** A memory directory of exactly 50 KB (fifty documents of 1024 bytes,
    the snapshot among them) beside its index. *)
Definition memory_at_threshold : gmap string World.file :=
  list_to_map
    (("INDEX.md", mk_file "# Memory Index")
     :: ("ACTIVE_CONTEXT.md", mk_file (repeat_string 1024 "c"))
     :: note_files 49 1024).

Definition world_at_threshold : World.world :=
  mk_world (list_to_map [("/ws/memory", memory_at_threshold)]).

(** A memory directory of 60 KB whose snapshot file exists but is
    empty. *)
Definition memory_empty_snapshot : gmap string World.file :=
  list_to_map
    (("INDEX.md", mk_file "# Memory Index")
     :: ("ACTIVE_CONTEXT.md", mk_file EmptyString)
     :: note_files 60 1024).

Definition world_empty_snapshot : World.world :=
  mk_world (list_to_map [("/ws/memory", memory_empty_snapshot)]).

(** A small corpus: the index and one short note, far below the
    threshold. *)
Definition memory_small : gmap string World.file :=
  list_to_map
    [("INDEX.md", mk_file "# Memory Index"); ("notes.md", mk_file "hello")].

Definition world_small : World.world :=
  mk_world (list_to_map [("/ws/memory", memory_small)]).

(** A workspace whose memory directory has a large corpus but no
    index. *)
Definition world_no_index : World.world :=
  mk_world (list_to_map [("/ws/memory", list_to_map (note_files 60 1024))]).

(** A configuration with a default workspace and one agent that has no
    workspace of its own. *)
Definition cfg_defaults_only : Config.config :=
  {| Config.agents_list :=
       [ {| Config.id := "desmond"; Config.name := Some "Desmond";
            Config.workspace := None |} ];
     Config.defaults_workspace := Some "~/shared" |}.

(** Two documents of the same length; only the first carries a tradeoff
    marker. *)
Definition doc_with_tradeoff : IndexBuilder.doc :=
  {| IndexBuilder.fname := "notes.md";
     IndexBuilder.body := "[TRADEOFF] a or b";
     IndexBuilder.modified := "2026-02-11" |}.

Definition doc_without_tradeoff : IndexBuilder.doc :=
  {| IndexBuilder.fname := "notes.md";
     IndexBuilder.body := "(TRADEOFF) a or b";
     IndexBuilder.modified := "2026-02-11" |}.

(** Two plans, in the order of the glob: the first was modified last. *)
Definition plan_newer : IndexBuilder.doc :=
  {| IndexBuilder.fname := "plan-alpha.md";
     IndexBuilder.body :=
       String.concat Hooks.nl ["# Alpha"; "[DECISION] ship it"];
     IndexBuilder.modified := "2026-03-20" |}.

Definition plan_older : IndexBuilder.doc :=
  {| IndexBuilder.fname := "plan-beta.md";
     IndexBuilder.body :=
       String.concat Hooks.nl
         ["# Beta"; "[DECISION] keep it"; "[DECISION] test it"];
     IndexBuilder.modified := "2026-01-05" |}.

(** *** A small installation for the checkpoint script

    Transcript lines are written [U:text] (a user message) or [A:text]
    (an assistant message); any other line does not parse. *)

Definition msg_entry (r text : string) : Checkpoint.entry :=
  {| Checkpoint.etype := Some "message";
     Checkpoint.emessage :=
       Some {| Checkpoint.role := Some r;
               Checkpoint.mcontent := Checkpoint.CString text;
               Checkpoint.model := None |};
     Checkpoint.timestamp := None |}.

Definition toy_parse (line : string) : option Checkpoint.entry :=
  match line with
  | String "U" (String ":" text) => Some (msg_entry "user" text)
  | String "A" (String ":" text) => Some (msg_entry "assistant" text)
  | _ => None
  end.

Definition toy_time (ts : string) : string := "09:30".
Definition toy_paths (text : string) : list string := [].

(** Three usable messages, 1217 bytes. *)
Definition transcript_rich : string :=
  String.concat Hooks.nl
    [ "U:" +:+ repeat_string 400 "q";
      "A:" +:+ repeat_string 400 "r";
      "not json";
      "U:" +:+ repeat_string 400 "s" ].

(** Two usable messages, 1214 bytes. *)
Definition transcript_poor : string :=
  String.concat Hooks.nl
    [ "U:" +:+ repeat_string 600 "q";
      "A:" +:+ repeat_string 600 "r";
      "not json" ].

Definition sessions_of (agentId : string) : string :=
  "/home/u/.clawdbot/agents/" +:+ agentId +:+ "/sessions".

Definition world_rich : World.world :=
  mk_world
    (list_to_map
       [ (sessions_of "main", list_to_map [("s1.jsonl", mk_file transcript_rich)]);
         (sessions_of "scout", list_to_map [("s7.jsonl", mk_file transcript_rich)]) ]).

Definition world_poor : World.world :=
  mk_world
    (list_to_map
       [ (sessions_of "main", list_to_map [("s1.jsonl", mk_file transcript_poor)]) ]).

Definition cfg_two_agents : Config.config :=
  {| Config.agents_list :=
       [ {| Config.id := "main"; Config.name := None; Config.workspace := None |};
         {| Config.id := "scout"; Config.name := None; Config.workspace := None |} ];
     Config.defaults_workspace := None |}.

(** Ten minutes after the transcripts were last written. *)
Definition clock_0930 : Checkpoint.clock :=
  {| Checkpoint.now_ms := 1767000600000;
     Checkpoint.iso := "2025-12-29T09:30:00.000Z";
     Checkpoint.year := 2025; Checkpoint.month0 := 11; Checkpoint.day := 29;
     Checkpoint.hour := 9; Checkpoint.minute := 30 |}.

(** Twenty seconds later, in the same minute. *)
Definition clock_0930_later : Checkpoint.clock :=
  {| Checkpoint.now_ms := 1767000620000;
     Checkpoint.iso := "2025-12-29T09:30:20.000Z";
     Checkpoint.year := 2025; Checkpoint.month0 := 11; Checkpoint.day := 29;
     Checkpoint.hour := 9; Checkpoint.minute := 30 |}.

(** The same installation, with the two memory files of [main] not
    writable. *)
Definition world_rich_denied : World.world :=
  {| World.dirs := World.dirs world_rich;
     World.denied :=
       {[ ("/home/u/clawd/memory", "ACTIVE_CONTEXT.md");
          ("/home/u/clawd/memory", "2025-12-29.md") ]};
     World.denied_dirs := ∅;
     World.console := [] |}.

(** The script with the toy environment: no preview, not verbose, the
    stale window left at its default. *)
Definition toy_checkpoint :=
  Checkpoint.checkpointAgent toy_parse toy_time toy_paths "/home/u"
    "/home/u/.clawdbot" JS.NaN false false.

Definition toy_main :=
  Checkpoint.main toy_parse toy_time toy_paths "/home/u"
    "/home/u/.clawdbot" JS.NaN false false.

(** The transcript of [main], and the day log of [main] as the first
    run of the example leaves it. *)
Definition transcript_main : World.path :=
  {| World.dir := sessions_of "main"; World.base := "s1.jsonl" |}.


(** A transcript with a command line, which the summary reader skips. *)
Definition world_with_command : World.world :=
  mk_world
    (list_to_map
       [ (sessions_of "main",
          list_to_map
            [("s1.jsonl",
              mk_file (String.concat Hooks.nl
                         ["U:/new"; "U:deploy the index"; "A:done"]))]) ]).


(* ===================================================================== *)
(** * Properties *)
(* ===================================================================== *)

Local Open Scope list_scope.

(** ** Facts about the string primitives *)

Section JSFacts.

Lemma truthy_true_iff (s : string) : JS.truthy s = true <-> s <> EmptyString.
Proof.
  unfold JS.truthy. rewrite negb_true_iff.
  split; intros H.
  - intros ->. discriminate.
  - apply String.eqb_neq. exact H.
Qed.

Lemma num_lt_false_iff (n t : Z) : JS.lt (JS.Num n) (JS.Num t) = false <-> t <= n.
Proof. simpl. rewrite Z.ltb_ge. reflexivity. Qed.

Lemma append_cons (x : ascii) (a b : string) :
  String x a +:+ b = String x (a +:+ b).
Proof. reflexivity. Qed.

Lemma append_nil (b : string) : EmptyString +:+ b = b.
Proof. reflexivity. Qed.

Lemma append_assoc (a b c : string) : (a +:+ b) +:+ c = a +:+ (b +:+ c).
Proof.
  induction a as [|x a IH]; [reflexivity|].
  rewrite !append_cons. f_equal. exact IH.
Qed.

Lemma prefix_app (p r : string) : String.prefix p (p +:+ r) = true.
Proof.
  induction p as [|x p IH].
  - now destruct r.
  - rewrite append_cons. simpl.
    destruct (ascii_dec x x); [exact IH|congruence].
Qed.

Lemma prefix_app_same (a b c : string) :
  String.prefix (a +:+ b) (a +:+ c) = String.prefix b c.
Proof.
  induction a as [|x a IH]; [reflexivity|].
  rewrite !append_cons. simpl.
  destruct (ascii_dec x x); [exact IH|congruence].
Qed.

Lemma prefix_slice0 (n : nat) (s r : string) :
  String.prefix (JS.slice0 n s) (s +:+ r) = true.
Proof.
  unfold JS.slice0. revert s. induction n as [|n IH]; intros s.
  - destruct s; simpl; now destruct r.
  - destruct s as [|x s].
    + now destruct r.
    + rewrite append_cons. simpl.
      destruct (ascii_dec x x); [apply IH|congruence].
Qed.

Lemma includes_prefix (p s : string) :
  JS.startsWith p s = true -> JS.includes p s = true.
Proof. intros H. destruct s; cbn [JS.includes]; rewrite H; reflexivity. Qed.

Lemma includes_app_r (p s1 s2 : string) :
  JS.includes p s2 = true -> JS.includes p (s1 +:+ s2) = true.
Proof.
  intros H. induction s1 as [|x s1 IH]; [exact H|].
  rewrite append_cons. cbn [JS.includes]. rewrite IH. apply orb_true_r.
Qed.

(** A text with [p] somewhere inside includes [p]. *)
Lemma includes_infix (p s1 s2 : string) :
  JS.includes p (s1 +:+ p +:+ s2) = true.
Proof. apply includes_app_r, includes_prefix, prefix_app. Qed.

End JSFacts.

(** Small checks of the primitives against the behaviour of the
    originals. *)
Example trim_both_ends : JS.trim "  a b  " = "a b".
Proof. reflexivity. Qed.

Example split_keeps_empty_last :
  JS.split_lines (String.concat (String "010" EmptyString) ["a"; "b"; ""])
  = ["a"; "b"; ""].
Proof. reflexivity. Qed.

Example lastn_takes_tail : JS.lastn 2 [1; 2; 3] = [2; 3].
Proof. reflexivity. Qed.

Example lastn_short_list : JS.lastn 5 [1; 2; 3] = [1; 2; 3].
Proof. reflexivity. Qed.

Example pad2_examples : (JS.pad2 7, JS.pad2 12) = ("07", "12").
Proof. reflexivity. Qed.

Example round_div_half_up :
  (JS.round_div 1536 1024, JS.round_div 1535 1024, JS.round_div 2 4) = (2, 1, 1).
Proof. reflexivity. Qed.

Example cron_key_matches :
  existsb (fun p => Rotation.test p "agent:main:cron:nightly")
          Rotation.SKIP_PATTERNS = true.
Proof. reflexivity. Qed.

Example subagent_key_matches :
  existsb (fun p => Rotation.test p "agent:max:subagent:42")
          Rotation.SKIP_PATTERNS = true.
Proof. reflexivity. Qed.

Example cron_needs_both_colons :
  existsb (fun p => Rotation.test p "agent:cron:nightly")
          Rotation.SKIP_PATTERNS = false.
Proof. reflexivity. Qed.

Example pattern_is_anchored :
  existsb (fun p => Rotation.test p "my-agent:main:cron:nightly")
          Rotation.SKIP_PATTERNS = false.
Proof. reflexivity. Qed.

Example dated_file_is_session_log :
  IndexBuilder.categorize "2026-02-03-standup.md" = IndexBuilder.Session.
Proof. reflexivity. Qed.

Example first_case_wins :
  IndexBuilder.categorize "uqual-config.md" = IndexBuilder.Uqual.
Proof. reflexivity. Qed.

Example size_formats :
  (IndexBuilder.format_size 900, IndexBuilder.format_size 1024,
   IndexBuilder.format_size 3145728) = ("900B", "1KB", "3MB").
Proof. reflexivity. Qed.

(** ** The rotation monitor *)

Section RotationFacts.
Import Rotation.
Context {G : Type}.
Variable gw_list : G -> list_reply * G.
Variable gw_reset : string -> G -> reset_reply * G.

(** The gateway trace of the rotate loop: nothing in preview mode, one
    reset per candidate otherwise, whatever the gateway answers. *)
Lemma rotate_loop_calls (dry : bool) (cs : list session) :
  forall (g : G) (r : run),
    calls (fst (rotate_loop gw_reset dry cs g r)) =
    (calls r ++ if dry then [] else map (fun s => CallReset (key_str s)) cs)%list.
Proof.
  induction cs as [|s cs IH]; intros g r; simpl.
  - destruct dry; simpl; now rewrite app_nil_r.
  - destruct dry.
    + rewrite IH. reflexivity.
    + destruct (gw_reset (key_str s) g) as [reply g'].
      rewrite IH.
      destruct reply; simpl; now rewrite <- app_assoc.
Qed.

Lemma main_calls (dry vb : bool) (T : JS.num) (g g1 : G)
    (sessions : list session) :
  gw_list g = (ListOk sessions, g1) ->
  calls (fst (main gw_list gw_reset dry vb T g)) =
  CallList :: (if dry then []
               else map (fun s => CallReset (key_str s)) (candidates T sessions)).
Proof.
  intros Hl. unfold main. rewrite Hl.
  destruct (candidates T sessions) as [|c cs] eqn:Hc.
  - simpl. now destruct dry.
  - match goal with |- context [rotate_loop _ _ ?l ?g0 ?r0] =>
      pose proof (rotate_loop_calls dry l g0 r0) as Hcalls;
      destruct (rotate_loop gw_reset dry l g0 r0) as [r g2]
    end.
    simpl in Hcalls |- *. exact Hcalls.
Qed.

Lemma main_calls_throw (dry vb : bool) (T : JS.num) (g g1 : G) (msg : string) :
  gw_list g = (ListThrow msg, g1) ->
  calls (fst (main gw_list gw_reset dry vb T g)) = [CallList].
Proof. intros Hl. unfold main. now rewrite Hl. Qed.

(** What the filter callback accepts, for a numeric threshold. *)
Lemma is_candidate_spec (t : Z) (s : session) :
  is_candidate (JS.Num t) s = true <->
  exists (k : string) (n : Z),
    key s = Some k /\ k <> EmptyString /\
    totalTokens s = Some n /\ n <> 0 /\ t <= n /\
    Forall (fun p => test p k = false) SKIP_PATTERNS.
Proof.
  unfold is_candidate, tokens_num.
  destruct (totalTokens s) as [n|]; simpl.
  2:{ split; [discriminate|]. intros (k & n & _ & _ & Hn & _). discriminate. }
  destruct (Z.eqb_spec n 0) as [->|Hn0]; simpl.
  { split; [discriminate|].
    intros (k & n & _ & _ & Hn & Hnz & _). congruence. }
  destruct (Z.ltb_spec n t) as [Hlt|Hge]; simpl.
  { split; [discriminate|].
    intros (k & m & _ & _ & Hm & _ & Hle & _). inversion Hm; subst. lia. }
  destruct (key s) as [k|].
  2:{ split; [discriminate|]. intros (k & m & Hk & _). discriminate. }
  destruct (JS.truthy k) eqn:Htr; simpl.
  - rewrite negb_true_iff, orb_false_r.
    split.
    + intros Hno. exists k, n. apply truthy_true_iff in Htr.
      apply orb_false_elim in Hno as [H1 H2].
      repeat split; auto.
      unfold SKIP_PATTERNS. repeat constructor; assumption.
    + intros (k' & m & Hk & _ & _ & _ & _ & Hall). inversion Hk; subst k'.
      inversion Hall as [|? ? H1 Hall']; subst.
      inversion Hall' as [|? ? H2 _]; subst.
      simpl in H1, H2. now rewrite H1, H2.
  - split; [discriminate|].
    intros (k' & m & Hk & Hne & _). inversion Hk; subst k'.
    apply truthy_true_iff in Hne. congruence.
Qed.

(** A candidate always carries its key. *)
Lemma candidate_key (T : JS.num) (s : session) :
  is_candidate T s = true ->
  exists k, key s = Some k /\ key_str s = k /\
            existsb (fun p => test p k) SKIP_PATTERNS = false.
Proof.
  unfold is_candidate, key_str.
  destruct (_ || _); [discriminate|].
  destruct (key s) as [k|]; [|discriminate].
  destruct (negb (JS.truthy k)); [discriminate|].
  rewrite negb_true_iff. intros H. exists k. auto.
Qed.

Lemma reset_keys_map (ks : list string) :
  reset_keys (map CallReset ks) = ks.
Proof. induction ks as [|k ks IH]; simpl; [reflexivity|]. now rewrite IH. Qed.

Lemma candidates_keys (T : JS.num) (sessions : list session) :
  map key_str (candidates T sessions) = omap key (candidates T sessions).
Proof.
  unfold candidates.
  induction sessions as [|s ss IH]; simpl; [reflexivity|].
  destruct (is_candidate T s) eqn:Hc; [|exact IH].
  destruct (candidate_key T s Hc) as (k & Hk & Hs & _).
  simpl. rewrite Hk, Hs. simpl. now rewrite IH.
Qed.

(** C1 (as amended): outside preview mode the rotate commands sent to
    the gateway are, in order, exactly the keys of the listed sessions
    that pass the filter, whatever the gateway answers to each of them;
    a session passes the filter exactly when its token count is not zero
    and is at least the threshold (so a session exactly at the threshold
    is rotated too), its key is present and not empty, and its key
    matches none of the exclusion patterns.  In particular a list with a
    single session at 160,000 tokens, threshold 150,000 and no exclusion
    match yields exactly one rotate command, for that session's key. *)
Theorem rotation_issues_reset_for_candidates
    (vb : bool) (t : Z) (g g1 : G) (sessions : list session) :
  gw_list g = (ListOk sessions, g1) ->
  reset_keys (calls (fst (main gw_list gw_reset false vb (JS.Num t) g))) =
    omap key (List.filter (is_candidate (JS.Num t)) sessions)
  /\ (forall s : session,
        is_candidate (JS.Num t) s = true <->
        exists (k : string) (n : Z),
          key s = Some k /\ k <> EmptyString /\
          totalTokens s = Some n /\ n <> 0 /\ t <= n /\
          Forall (fun p => test p k = false) SKIP_PATTERNS)
  /\ (forall (k : string) (sid : option string),
        k <> EmptyString ->
        Forall (fun p => test p k = false) SKIP_PATTERNS ->
        t = 150000 ->
        sessions = [{| key := Some k; totalTokens := Some 160000;
                       sessionId := sid |}] ->
        calls (fst (main gw_list gw_reset false vb (JS.Num t) g)) =
          [CallList; CallReset k]).
Proof.
  intros Hl.
  pose proof (main_calls false vb (JS.Num t) g g1 sessions Hl) as Hc.
  split; [|split].
  - rewrite Hc. simpl.
    rewrite <- (map_map key_str CallReset), reset_keys_map.
    apply candidates_keys.
  - intros s. apply is_candidate_spec.
  - intros k sid Hk Hno -> ->.
    rewrite Hc. unfold candidates. simpl.
    assert (Hcand : is_candidate (JS.Num 150000)
                      {| key := Some k; totalTokens := Some 160000;
                         sessionId := sid |} = true).
    { apply is_candidate_spec. exists k, 160000. simpl.
      repeat split; auto; lia. }
    rewrite Hcand. reflexivity.
Qed.

(** C2: a session whose key matches an exclusion pattern is never the
    subject of a rotate command, whatever its token count, the threshold,
    the mode and the answers of the gateway. *)
Theorem excluded_session_never_rotated
    (dry vb : bool) (T : JS.num) (g g1 : G) (sessions : list session)
    (s : session) (k : string) :
  gw_list g = (ListOk sessions, g1) ->
  In s sessions ->
  key s = Some k ->
  existsb (fun p => test p k) SKIP_PATTERNS = true ->
  ~ In (CallReset k) (calls (fst (main gw_list gw_reset dry vb T g))).
Proof.
  intros Hl _ _ Hex Hin.
  rewrite (main_calls dry vb T g g1 sessions Hl) in Hin.
  destruct Hin as [Hin|Hin]; [discriminate|].
  destruct dry; [contradiction|].
  apply in_map_iff in Hin as (c & Hc & Hcin).
  unfold candidates in Hcin. apply filter_In in Hcin as [_ Hcand].
  destruct (candidate_key T c Hcand) as (k' & _ & Hs & Hno).
  inversion Hc; subst. congruence.
Qed.

End RotationFacts.

(** C1, counterexample: with threshold 150,000 a session at exactly
    150,000 tokens does not exceed the threshold, yet it is a candidate
    and a rotate command is issued for its key. *)
Lemma rotation_at_threshold_counterexample :
  Rotation.totalTokens at_threshold_session = Some 150000
  /\ ~ (150000 < 150000)
  /\ Rotation.is_candidate (JS.Num 150000) at_threshold_session = true
  /\ Rotation.calls
       (fst (Rotation.main (listing [at_threshold_session]) accept_reset false
               false (JS.Num 150000) tt)) =
     [Rotation.CallList; Rotation.CallReset "agent:main:main"].
Proof. repeat split; try reflexivity. lia. Qed.

Lemma rotation_issues_reset_for_candidates_witness :
  Rotation.calls
    (fst (Rotation.main (listing [scenario_c_session]) accept_reset false
            false (JS.Num 150000) tt)) =
  [Rotation.CallList; Rotation.CallReset "agent:main:main"].
Proof.
  destruct (rotation_issues_reset_for_candidates
              (listing [scenario_c_session]) accept_reset false 150000 tt tt
              [scenario_c_session] eq_refl) as (_ & _ & H).
  apply (H "agent:main:main" (Some "0f3c9a7e-1111")).
  - discriminate.
  - repeat constructor.
  - reflexivity.
  - reflexivity.
Defined.

Lemma excluded_session_never_rotated_witness :
  ~ In (Rotation.CallReset "agent:main:cron:nightly")
       (Rotation.calls
          (fst (Rotation.main (listing [scenario_c_session; cron_session])
                  accept_reset false false (JS.Num 150000) tt))).
Proof.
  apply (excluded_session_never_rotated
           (listing [scenario_c_session; cron_session]) accept_reset
           false false (JS.Num 150000) tt tt [scenario_c_session; cron_session]
           cron_session "agent:main:cron:nightly").
  - reflexivity.
  - simpl. right. left. reflexivity.
  - reflexivity.
  - reflexivity.
Defined.

(** ** Frame facts about the world monad *)

Section WorldFacts.
Import World.

Lemma same_fs_refl (w : world) : same_fs w w.
Proof. now repeat split. Qed.

Lemma same_fs_trans (w1 w2 w3 : world) :
  same_fs w1 w2 -> same_fs w2 w3 -> same_fs w1 w3.
Proof.
  intros (A1 & A2 & A3) (B1 & B2 & B3).
  repeat split; congruence.
Qed.

Lemma same_fs_lookup (w w' : world) (p : path) :
  same_fs w w' -> lookup_file p w' = lookup_file p w.
Proof. intros (H & _). unfold lookup_file. now rewrite H. Qed.

Lemma readonly_ret {A} (a : A) : readonly (ret a).
Proof. intros w. apply same_fs_refl. Qed.

Lemma readonly_bind {A B} (m : M A) (k : A -> M B) :
  readonly m -> (forall a, readonly (k a)) -> readonly (bind m k).
Proof.
  intros Hm Hk w. unfold bind.
  specialize (Hm w). destruct (m w) as [[a|e] w1]; simpl in *.
  - eapply same_fs_trans; [exact Hm|]. apply Hk.
  - exact Hm.
Qed.

Lemma readonly_try_catch {A} (m : M A) (h : string -> M A) :
  readonly m -> (forall e, readonly (h e)) -> readonly (try_catch m h).
Proof.
  intros Hm Hh w. unfold try_catch.
  specialize (Hm w). destruct (m w) as [[a|e] w1]; simpl in *.
  - exact Hm.
  - eapply same_fs_trans; [exact Hm|]. apply Hh.
Qed.

Lemma readonly_print (line : string) : readonly (print line).
Proof. intros w. now repeat split. Qed.

Lemma readonly_readFile (p : path) : readonly (readFile p).
Proof.
  intros w. unfold readFile. destruct (lookup_file p w); apply same_fs_refl.
Qed.

Lemma readonly_access (p : path) : readonly (access p).
Proof.
  intros w. unfold access. destruct (lookup_file p w); apply same_fs_refl.
Qed.

Lemma readonly_stat (p : path) : readonly (stat p).
Proof.
  intros w. unfold stat. destruct (lookup_file p w); apply same_fs_refl.
Qed.

Lemma readonly_readdir (d : string) : readonly (readdir d).
Proof.
  intros w. unfold readdir. destruct (dirs w !! d); apply same_fs_refl.
Qed.

Lemma readonly_run {A} (m : M A) (w w' : world) (r : outcome A) :
  readonly m -> m w = (r, w') -> same_fs w w'.
Proof. intros H E. specialize (H w). now rewrite E in H. Qed.

(** Reading depends on the files only. *)
Lemma readFile_same_fs (p : path) (w w' : world) :
  same_fs w w' -> fst (readFile p w') = fst (readFile p w).
Proof.
  intros H. unfold readFile. rewrite (same_fs_lookup w w' p H).
  now destruct (lookup_file p w).
Qed.

End WorldFacts.

Create HintDb readonly.
#[export] Hint Resolve readonly_ret readonly_print readonly_readFile
  readonly_access readonly_stat readonly_readdir : readonly.

(** Decompose a computation built from reading steps. *)
Ltac readonly_step :=
  match goal with
  | |- World.readonly (World.bind _ _) => apply readonly_bind; [|intros ?]
  | |- World.readonly (World.try_catch _ _) => apply readonly_try_catch; [|intros ?]
  | |- World.readonly (if ?b then _ else _) => destruct b
  | |- World.readonly (match ?x with _ => _ end) => destruct x
  | |- World.readonly _ => solve [auto with readonly]
  end.

Ltac solve_readonly := repeat readonly_step.

(** ** The disclosure planner (memory-index-inject) *)

Section InjectFacts.
Import World Hooks.

Lemma total_loop_pairs (memoryDir : string) (entries : gmap string file)
    (w : world) (l : list (string * file)) :
  dirs w !! memoryDir = Some entries ->
  (forall nf, In nf l -> entries !! fst nf = Some (snd nf)) ->
  forall acc : Z,
    total_loop memoryDir (map fst l) acc w =
    (Val (acc + foldr Z.add 0
                  (map (fun nf => size (snd nf))
                       (List.filter (fun nf => is_memory_doc (fst nf)) l))), w).
Proof.
  intros Hd. induction l as [|[n f] l IH]; intros Hin acc; simpl.
  - unfold ret. now rewrite Z.add_0_r.
  - destruct (is_memory_doc n) eqn:Hn; simpl.
    + unfold bind, stat, lookup_file. simpl. rewrite Hd. simpl.
      pose proof (Hin (n, f) (or_introl eq_refl)) as Hnf. simpl in Hnf.
      rewrite Hnf.
      rewrite IH by (intros nf H; apply Hin; now right).
      f_equal. f_equal. lia.
    + apply IH. intros nf H. apply Hin. now right.
Qed.

Lemma total_loop_aggregate (memoryDir : string) (entries : gmap string file)
    (w : world) :
  dirs w !! memoryDir = Some entries ->
  total_loop memoryDir (fst <$> map_to_list entries) 0 w =
  (Val (aggregate_size entries), w).
Proof.
  intros Hd.
  rewrite (total_loop_pairs memoryDir entries w (map_to_list entries) Hd).
  - reflexivity.
  - intros [n f] H. simpl. apply elem_of_map_to_list.
    apply list_elem_of_In. exact H.
Qed.

(** What the handler does once the corpus has reached the threshold and
    the index exists. *)
Lemma inject_at_or_above (ev : event) (ctx : context) (wd : string)
    (sink : list bootstrap_file) (w : world)
    (entries : gmap string file) (idx : file) :
  ev_type ev = "agent" -> ev_action ev = "bootstrap" ->
  ev_context ev = Some ctx ->
  workspaceDir ctx = Some wd -> wd <> EmptyString ->
  bootstrapFiles ctx = Some sink ->
  dirs w !! path_join wd "memory" = Some entries ->
  entries !! "INDEX.md" = Some idx ->
  MEMORY_THRESHOLD_BYTES <= aggregate_size entries ->
  exists w' : world,
    memoryIndexInject ev w =
      (Val (Some (sink ++ [index_unit (aggregate_size entries) (content idx)]
                  ++ snapshot_units
                       (content <$> entries !! "ACTIVE_CONTEXT.md"))), w')
    /\ same_fs w w'.
Proof.
  intros Ht Ha Hc Hwd Hne Hsink Hd Hidx Hge.
  unfold memoryIndexInject.
  rewrite Ht, Ha, Hc, Hwd, Hsink. simpl.
  apply truthy_true_iff in Hne. rewrite Hne. simpl.
  unfold bind at 1. unfold try_catch at 1. unfold bind at 1.
  unfold access, lookup_file. simpl. rewrite Hd. simpl. rewrite Hidx. simpl.
  unfold bind at 1. unfold try_catch at 1. unfold bind at 1.
  unfold readdir. rewrite Hd.
  unfold bind at 1. rewrite (total_loop_aggregate _ entries w Hd). simpl.
  destruct (Z.ltb_spec (aggregate_size entries) MEMORY_THRESHOLD_BYTES) as [Hlt|_];
    [lia|].
  unfold bind at 1. unfold try_catch at 1. unfold bind at 1.
  unfold readFile at 1. unfold lookup_file. simpl. rewrite Hd. simpl.
  rewrite Hidx. simpl.
  unfold bind at 1. unfold try_catch at 1. unfold bind at 1.
  unfold readFile, lookup_file. simpl. rewrite Hd. simpl.
  destruct (entries !! "ACTIVE_CONTEXT.md") as [ac|]; simpl.
  - eexists. split; [reflexivity|]. now repeat split.
  - eexists. split; [reflexivity|]. now repeat split.
Qed.

End InjectFacts.

Section InjectClaims.
Import World Hooks.
Variables (ev : event) (ctx : context) (wd : string)
          (sink : list bootstrap_file) (w : world)
          (entries : gmap string file) (idx : file).
Hypothesis Htype : ev_type ev = "agent".
Hypothesis Haction : ev_action ev = "bootstrap".
Hypothesis Hctx : ev_context ev = Some ctx.
Hypothesis Hwd : workspaceDir ctx = Some wd.
Hypothesis Hwd_ne : wd <> EmptyString.
Hypothesis Hsink : bootstrapFiles ctx = Some sink.
Hypothesis Hdir : dirs w !! path_join wd "memory" = Some entries.
Hypothesis Hindex : entries !! "INDEX.md" = Some idx.

(** C5: when the memory documents of the workspace (the index left out)
    add up to exactly the threshold and INDEX.md exists, the handler
    injects the index: the sink grows by the MEMORY_INDEX.md unit, which
    carries the instruction followed by the index content. *)
Theorem index_injected_at_exact_threshold :
  aggregate_size entries = MEMORY_THRESHOLD_BYTES ->
  exists (w' : world) (rest : list bootstrap_file),
    memoryIndexInject ev w =
    (Val (Some (sink ++
                {| bf_name := "MEMORY_INDEX.md";
                   bf_content :=
                     String.concat nl
                       [instruction MEMORY_THRESHOLD_BYTES; "---"; "";
                        content idx] |} :: rest)), w').
Proof.
  intros Heq.
  destruct (inject_at_or_above ev ctx wd sink w entries idx) as (w' & Hrun & _);
    auto; [lia|].
  rewrite Heq in Hrun.
  exists w', (snapshot_units (content <$> entries !! "ACTIVE_CONTEXT.md")).
  exact Hrun.
Qed.

(** C6 (as amended): at or above the threshold, with the index present,
    the handler appends to the sink first the MEMORY_INDEX.md unit (the
    usage instruction, then the index content) and then, exactly when
    ACTIVE_CONTEXT.md exists and is not empty, a second unit with the
    snapshot content; nothing else is appended and no file changes. *)
Theorem inject_appends_index_then_snapshot :
  MEMORY_THRESHOLD_BYTES <= aggregate_size entries ->
  exists w' : world,
    memoryIndexInject ev w =
    (Val (Some (sink ++
                [{| bf_name := "MEMORY_INDEX.md";
                    bf_content :=
                      String.concat nl
                        [instruction (aggregate_size entries); "---"; "";
                         content idx] |}] ++
                match entries !! "ACTIVE_CONTEXT.md" with
                | Some snapshot =>
                    if JS.truthy (content snapshot)
                    then [{| bf_name := "ACTIVE_CONTEXT.md";
                             bf_content := content snapshot |}]
                    else []
                | None => []
                end)), w')
    /\ dirs w' = dirs w.
Proof.
  intros Hge.
  destruct (inject_at_or_above ev ctx wd sink w entries idx)
    as (w' & Hrun & Hfs & _); auto.
  exists w'. split; [|exact Hfs].
  rewrite Hrun. unfold snapshot_units, index_unit.
  now destruct (entries !! "ACTIVE_CONTEXT.md").
Qed.

End InjectClaims.

(** The handler never writes: whatever the event, the files are the
    same afterwards. *)
Lemma memoryIndexInject_readonly (ev : Hooks.event) :
  World.readonly (Hooks.memoryIndexInject ev).
Proof.
  unfold Hooks.memoryIndexInject.
  assert (Hloop : forall d fs t, World.readonly (Hooks.total_loop d fs t)).
  { intros d fs. induction fs as [|f fs IH]; intros t; simpl.
    - apply readonly_ret.
    - destruct (Hooks.is_memory_doc f); [|apply IH].
      apply readonly_bind; [apply readonly_stat|]. intros a. apply IH. }
  solve_readonly; try apply Hloop.
Qed.

Lemma index_injected_at_exact_threshold_witness :
  exists (w' : World.world) (rest : list Hooks.bootstrap_file),
    Hooks.memoryIndexInject bootstrap_event world_at_threshold =
    (World.Val
       (Some ([] ++
              {| Hooks.bf_name := "MEMORY_INDEX.md";
                 Hooks.bf_content :=
                   String.concat Hooks.nl
                     [Hooks.instruction Hooks.MEMORY_THRESHOLD_BYTES; "---"; "";
                      "# Memory Index"] |} :: rest)), w').
Proof.
  apply (index_injected_at_exact_threshold bootstrap_event
           {| Hooks.workspaceDir := Some "/ws";
              Hooks.bootstrapFiles := Some [] |}
           "/ws" [] world_at_threshold memory_at_threshold
           (mk_file "# Memory Index")).
  - reflexivity.
  - reflexivity.
  - reflexivity.
  - reflexivity.
  - discriminate.
  - reflexivity.
  - reflexivity.
  - reflexivity.
  - vm_compute. reflexivity.
Defined.

Lemma inject_appends_index_then_snapshot_witness :
  exists w' : World.world,
    Hooks.memoryIndexInject bootstrap_event world_at_threshold =
    (World.Val
       (Some ([] ++
              [{| Hooks.bf_name := "MEMORY_INDEX.md";
                  Hooks.bf_content :=
                    String.concat Hooks.nl
                      [Hooks.instruction
                         (Hooks.aggregate_size memory_at_threshold);
                       "---"; ""; "# Memory Index"] |}] ++
              match memory_at_threshold !! "ACTIVE_CONTEXT.md" with
              | Some snapshot =>
                  if JS.truthy (World.content snapshot)
                  then [{| Hooks.bf_name := "ACTIVE_CONTEXT.md";
                           Hooks.bf_content := World.content snapshot |}]
                  else []
              | None => []
              end)), w')
    /\ World.dirs w' = World.dirs world_at_threshold.
Proof.
  apply (inject_appends_index_then_snapshot bootstrap_event
           {| Hooks.workspaceDir := Some "/ws";
              Hooks.bootstrapFiles := Some [] |}
           "/ws" [] world_at_threshold memory_at_threshold
           (mk_file "# Memory Index")).
  - reflexivity.
  - reflexivity.
  - reflexivity.
  - reflexivity.
  - discriminate.
  - reflexivity.
  - reflexivity.
  - reflexivity.
  - vm_compute. discriminate.
Defined.

(** C6, counterexample: the corpus is above the threshold, the index
    exists and the snapshot file exists (it is empty), yet the sink
    receives the index unit only. *)
Lemma empty_snapshot_counterexample :
  World.lookup_file
    {| World.dir := "/ws/memory"; World.base := "ACTIVE_CONTEXT.md" |}
    world_empty_snapshot = Some (mk_file EmptyString)
  /\ Hooks.MEMORY_THRESHOLD_BYTES <= Hooks.aggregate_size memory_empty_snapshot
  /\ exists w' : World.world,
       Hooks.memoryIndexInject bootstrap_event world_empty_snapshot =
       (World.Val
          (Some [Hooks.index_unit
                   (Hooks.aggregate_size memory_empty_snapshot)
                   "# Memory Index"]), w').
Proof.
  assert (Hsnap : memory_empty_snapshot !! "ACTIVE_CONTEXT.md"
                  = Some (mk_file EmptyString)).
  { unfold memory_empty_snapshot. rewrite !list_to_map_cons.
    rewrite lookup_insert_ne by discriminate. apply lookup_insert_eq. }
  assert (Hge : Hooks.MEMORY_THRESHOLD_BYTES
                <= Hooks.aggregate_size memory_empty_snapshot).
  { vm_compute. discriminate. }
  split; [|split; [exact Hge|]].
  - unfold World.lookup_file, world_empty_snapshot, mk_world, World.dirs,
      World.dir, World.base.
    rewrite list_to_map_cons, lookup_insert_eq. exact Hsnap.
  - destruct (inject_at_or_above bootstrap_event
                {| Hooks.workspaceDir := Some "/ws";
                   Hooks.bootstrapFiles := Some [] |}
                "/ws" [] world_empty_snapshot memory_empty_snapshot
                (mk_file "# Memory Index")) as (w' & Hrun & _).
    + reflexivity.
    + reflexivity.
    + reflexivity.
    + reflexivity.
    + discriminate.
    + reflexivity.
    + apply lookup_insert_eq.
    + apply lookup_insert_eq.
    + exact Hge.
    + exists w'. rewrite Hrun, Hsnap. reflexivity.
Qed.

(** ** Workspace resolution *)

Section ResolverFacts.
Variable HOME : string.

(** An agent without any workspace entry: no configured agent that
    matches the identifier carries a workspace. *)
Lemma found_workspace_none (cfg : Config.config) (agentId : string) :
  (forall a, In a (Config.agents_list cfg) ->
             Config.matches agentId a = true -> Config.workspace a = None) ->
  Config.found_workspace cfg agentId = None.
Proof.
  intros H. unfold Config.found_workspace.
  destruct (find (Config.matches agentId) (Config.agents_list cfg)) as [a|] eqn:Hf;
    [|reflexivity].
  apply find_some in Hf as [Hin Hm].
  now rewrite (H a Hin Hm).
Qed.

(** C10 (as amended): when the agent entry found for an identifier (by
    id or lower-cased name) carries no workspace, the checkpoint script
    resolves every identifier other than "main" to <home>/clawd-<id>;
    the hooks' resolver first puts the identifier in canonical form
    (empty means "main", trimmed, lower-cased) and resolves every
    canonical identifier other than "main" to <home>/clawd-<canonical
    id>.  In both the default workspace plays no part. *)
Theorem default_workspace_only_for_main
    (cfg : Config.config) (agentId : string) :
  (agentId <> "main" ->
   Config.found_workspace cfg agentId = None ->
   Checkpoint.resolveWorkspace HOME cfg agentId =
   World.path_join HOME ("clawd-" +:+ agentId))
  /\
  (Hooks.canonical_id agentId <> "main" ->
   Config.found_workspace cfg (Hooks.canonical_id agentId) = None ->
   Hooks.resolveAgentWorkspaceDir HOME cfg agentId =
   World.path_join HOME ("clawd-" +:+ Hooks.canonical_id agentId)).
Proof.
  split; intros Hne Hnone.
  - unfold Checkpoint.resolveWorkspace. rewrite Hnone.
    apply String.eqb_neq in Hne. rewrite Hne. reflexivity.
  - unfold Hooks.resolveAgentWorkspaceDir. rewrite Hnone.
    apply String.eqb_neq in Hne. rewrite Hne. reflexivity.
Qed.

End ResolverFacts.

Lemma default_workspace_only_for_main_witness :
  Checkpoint.resolveWorkspace "/home/u" cfg_defaults_only "desmond"
    = "/home/u/clawd-desmond"
  /\ Hooks.resolveAgentWorkspaceDir "/home/u" cfg_defaults_only "desmond"
    = "/home/u/clawd-desmond".
Proof.
  destruct (default_workspace_only_for_main "/home/u" cfg_defaults_only
              "desmond") as [H1 H2].
  split.
  - apply H1; [discriminate|reflexivity].
  - apply H2; [discriminate|reflexivity].
Defined.

(** C10, counterexample: "Main" is not the identifier "main" and no
    configured agent matches it, yet the hooks' resolver answers with
    the configured default workspace, not with <home>/clawd-Main. *)
Lemma hook_resolver_counterexample :
  "Main" <> "main"
  /\ (forall a, In a (Config.agents_list cfg_defaults_only) ->
                Config.matches "Main" a = false)
  /\ Hooks.resolveAgentWorkspaceDir "/home/u" cfg_defaults_only "Main"
     = "/home/u/shared"
  /\ Hooks.resolveAgentWorkspaceDir "/home/u" cfg_defaults_only "Main"
     <> World.path_join "/home/u" ("clawd-" +:+ "Main").
Proof.
  split; [discriminate|]. split; [|split].
  - intros a [<-|[]]. reflexivity.
  - reflexivity.
  - discriminate.
Qed.

(** ** The index builder *)

Section IndexFacts.
Import IndexBuilder.
Local Open Scope nat_scope.

(** The loop adds each processed document's counts to the running
    totals. *)
Lemma scan_totals (corpus : list doc) :
  forall b : build,
    let t := acc (fold_left step corpus b) in
    let docs := List.filter processed corpus in
    TOTAL_DECISIONS t = TOTAL_DECISIONS (acc b) + sum_marker Decision docs
    /\ TOTAL_GOTCHAS t = TOTAL_GOTCHAS (acc b) + sum_marker Gotcha docs
    /\ TOTAL_SOLUTIONS t = TOTAL_SOLUTIONS (acc b) + sum_marker Solution docs
    /\ TOTAL_PATTERNS t = TOTAL_PATTERNS (acc b) + sum_marker Pattern docs
    /\ TOTAL_TODOS t = TOTAL_TODOS (acc b) + sum_marker Todo docs.
Proof.
  induction corpus as [|d ds IH]; intros b; simpl.
  - unfold sum_marker. simpl. repeat split; lia.
  - specialize (IH (step b d)). simpl in IH.
    destruct IH as (H1 & H2 & H3 & H4 & H5).
    rewrite H1, H2, H3, H4, H5. clear H1 H2 H3 H4 H5.
    unfold step. destruct (processed d); simpl.
    + unfold sum_marker. simpl. repeat split; lia.
    + repeat split; reflexivity.
Qed.

(** C7 (as amended): the corpus-wide totals of the rendered index are
    kept for five marker types (decision, gotcha, solution, pattern,
    todo); each equals the sum, over the documents processed (the index
    itself left out), of the document's count for that marker, and the
    third line of the rendered index prints exactly these sums. *)
Theorem marker_totals_are_sums (GENERATED : string) (corpus : list doc) :
  let docs := List.filter processed corpus in
  let t := acc (scan corpus) in
  total_of Decision t = Some (sum_marker Decision docs)
  /\ total_of Gotcha t = Some (sum_marker Gotcha docs)
  /\ total_of Solution t = Some (sum_marker Solution docs)
  /\ total_of Pattern t = Some (sum_marker Pattern docs)
  /\ total_of Todo t = Some (sum_marker Todo docs)
  /\ nth_error (generate GENERATED corpus) 2 =
     Some ("> **Observations**: " +:+
           JS.string_of_nat (sum_marker Decision docs) +:+ "🟤 decisions | " +:+
           JS.string_of_nat (sum_marker Gotcha docs) +:+ "🔴 gotchas | " +:+
           JS.string_of_nat (sum_marker Solution docs) +:+ "🟡 solutions | " +:+
           JS.string_of_nat (sum_marker Pattern docs) +:+ "🔵 patterns | " +:+
           JS.string_of_nat (sum_marker Todo docs) +:+ "⚪ todos").
Proof.
  intros docs t.
  destruct (scan_totals corpus {| acc := totals0; rows := [] |})
    as (H1 & H2 & H3 & H4 & H5).
  fold (scan corpus) in H1, H2, H3, H4, H5. fold t docs in H1, H2, H3, H4, H5.
  simpl in H1, H2, H3, H4, H5.
  repeat split; simpl; try congruence.
  unfold generate, header, observations_line. fold t. simpl.
  now rewrite H1, H2, H3, H4, H5.
Qed.

End IndexFacts.

(** C7, counterexample: two one-document corpora whose tradeoff counts
    differ (1 and 0) render the same header, and no total is kept for
    the tradeoff marker: the header's corpus-wide totals do not give the
    sum of the per-document tradeoff counts. *)
Lemma tradeoff_total_counterexample :
  IndexBuilder.sum_marker IndexBuilder.Tradeoff
    (List.filter IndexBuilder.processed [doc_with_tradeoff]) = 1%nat
  /\ IndexBuilder.sum_marker IndexBuilder.Tradeoff
       (List.filter IndexBuilder.processed [doc_without_tradeoff]) = 0%nat
  /\ IndexBuilder.header "2026-02-11 09:00 UTC"
       (IndexBuilder.acc (IndexBuilder.scan [doc_with_tradeoff])) =
     IndexBuilder.header "2026-02-11 09:00 UTC"
       (IndexBuilder.acc (IndexBuilder.scan [doc_without_tradeoff]))
  /\ IndexBuilder.total_of IndexBuilder.Tradeoff
       (IndexBuilder.acc (IndexBuilder.scan [doc_with_tradeoff])) = None.
Proof. vm_compute. repeat split; reflexivity. Qed.

(** C8, the failing input evaluated: of two plans, the one modified on
    2026-01-05 is listed before the one modified on 2026-03-20, because
    the sort key starts at the observations column. *)
Lemma category_rows_follow_observations_column :
  IndexBuilder.write_category "Plans" EmptyString
    (IndexBuilder.rows_of IndexBuilder.Plan
       (IndexBuilder.scan [plan_newer; plan_older])) =
  [ ""; "### Plans"; "";
    "| File | Title | Size | Tokens | Observations | Modified |";
    "|------|-------|------|--------|-------------|----------|";
    "| plan-beta.md | Beta | 44B | ~11 | 2🟤  | 2026-01-05 |";
    "| plan-alpha.md | Alpha | 26B | ~6 | 1🟤  | 2026-03-20 |" ]
  /\ IndexBuilder.sort_key
       "| plan-beta.md | Beta | 44B | ~11 | 2🟤  | 2026-01-05 |"
     = " 2🟤  | 2026-01-05 |".
Proof. vm_compute. split; reflexivity. Qed.

(** ** The checkpoint script *)

Lemma pair_of_fst {A B} (x : A * B) (a : A) : fst x = a -> x = (a, snd x).
Proof. intros <-. now destruct x. Qed.


Section CheckpointFacts.
Import World Checkpoint.
Variable parse_line : string -> option entry.
Variable fmt_time : string -> string.
Variable match_paths : string -> list string.
Variables HOME CLAWDBOT_HOME : string.
Variable SESSION_STALE_HOURS : JS.num.
Variables DRY_RUN VERBOSE : bool.

Lemma bind_run {A B} (m : M A) (k : A -> M B) (w : world) :
  bind m k w = match m w with
               | (Val a, w') => k a w'
               | (Throw e, w') => (Throw e, w')
               end.
Proof. reflexivity. Qed.

Lemma log_run (line : string) (w : world) :
  exists w', log line w = (Val tt, w') /\ same_fs w w'.
Proof. eexists. split; [reflexivity|]. now repeat split. Qed.

Lemma verbose_run (line : string) (w : world) :
  exists w', verbose VERBOSE line w = (Val tt, w') /\ same_fs w w'.
Proof.
  unfold verbose. destruct VERBOSE.
  - apply log_run.
  - exists w. split; [reflexivity|apply same_fs_refl].
Qed.

Lemma readonly_verbose (line : string) : readonly (verbose VERBOSE line).
Proof.
  intros w. destruct (verbose_run line w) as (w' & E & H). now rewrite E.
Qed.

Lemma readonly_log (line : string) : readonly (log line).
Proof. apply readonly_print. Qed.

Lemma readonly_newest_loop (d : string) (fs : list string) :
  forall newest mt, readonly (newest_loop d fs newest mt).
Proof.
  induction fs as [|f fs IH]; intros newest mt; simpl.
  - apply readonly_ret.
  - apply readonly_bind.
    + solve_readonly.
    + intros [x|]; [|apply IH]. destruct (mt <? mtimeMs x); apply IH.
Qed.

Lemma readonly_findActiveSession (agentId : string) (now : clock) :
  readonly (findActiveSession CLAWDBOT_HOME SESSION_STALE_HOURS VERBOSE
              agentId now).
Proof.
  unfold findActiveSession.
  apply readonly_bind; [solve_readonly|].
  intros [es|]; [|apply readonly_ret].
  destruct (List.filter is_session_file es); [apply readonly_ret|].
  apply readonly_bind; [apply readonly_newest_loop|].
  intros [n|]; [|apply readonly_ret].
  destruct (_ <? _).
  - apply readonly_bind; [apply readonly_verbose|]. intros _. apply readonly_ret.
  - destruct (_ <? _); [|apply readonly_ret].
    apply readonly_bind; [apply readonly_verbose|]. intros _. apply readonly_ret.
Qed.

Lemma readonly_readLastLines (p : path) (n : nat) :
  readonly (readLastLines p n).
Proof. unfold readLastLines. solve_readonly. Qed.

Lemma same_fs_files (w w' : world) : same_fs w w' -> same_files w w'.
Proof.
  intros (H1 & H2 & H3). repeat split; auto.
  intros p. unfold lookup_file. now rewrite H1.
Qed.

Lemma same_files_refl (w : world) : same_files w w.
Proof. now repeat split. Qed.

Lemma same_files_trans (w1 w2 w3 : world) :
  same_files w1 w2 -> same_files w2 w3 -> same_files w1 w3.
Proof.
  intros (A1 & A2 & A3) (B1 & B2 & B3).
  split; [intros p; now rewrite B1, A1|split; congruence].
Qed.

(** Creating a directory changes no file. *)
Lemma mkdir_run (d : string) (w : world) :
  (d ∈ denied_dirs w /\ mkdir d w = (Throw "EACCES", w))
  \/ (exists w', mkdir d w = (Val tt, w') /\ same_files w w'
                 /\ is_Some (dirs w' !! d)).
Proof.
  unfold mkdir. destruct (decide (d ∈ denied_dirs w)) as [Hd|Hd].
  - left. auto.
  - right. destruct (dirs w !! d) as [es|] eqn:E.
    + exists w. split; [reflexivity|]. split; [apply same_files_refl|].
      rewrite E. eauto.
    + eexists. split; [reflexivity|]. split.
      * repeat split; try reflexivity.
        intros p. unfold lookup_file, set_dirs. simpl.
        destruct (decide (d = dir p)) as [->|Hne].
        -- rewrite lookup_insert_eq, E. simpl. apply lookup_empty.
        -- now rewrite lookup_insert_ne.
      * simpl. rewrite lookup_insert_eq. eauto.
Qed.

(** Writing a file: it fails and changes nothing, or it succeeds and
    changes that one file. *)
Lemma writeFile_run (p : path) (text : string) (now : Z) (w : world) :
  (exists e, writeFile p text now w = (Throw e, w)
             /\ (((dir p, base p) ∈ denied w) \/ (dirs w !! dir p = None)))
  \/ (exists w', writeFile p text now w = (Val tt, w')
        /\ ((dir p, base p) ∉ denied w)
        /\ lookup_file p w' = Some {| content := text; mtimeMs := now |}
        /\ (forall q, base q <> base p -> lookup_file q w' = lookup_file q w)
        /\ denied w' = denied w /\ denied_dirs w' = denied_dirs w
        /\ (forall d, is_Some (dirs w !! d) -> is_Some (dirs w' !! d))).
Proof.
  unfold writeFile. destruct (decide ((dir p, base p) ∈ denied w)) as [Hd|Hd].
  - left. eauto.
  - destruct (dirs w !! dir p) as [es|] eqn:E.
    + right. eexists. split; [reflexivity|]. split; [exact Hd|].
      repeat split; try reflexivity.
      * unfold lookup_file, set_dirs. simpl.
        rewrite lookup_insert_eq. simpl. apply lookup_insert_eq.
      * intros q Hq. unfold lookup_file, set_dirs. simpl.
        destruct (decide (dir p = dir q)) as [Heq|Hne].
        -- rewrite Heq, lookup_insert_eq. simpl.
           rewrite lookup_insert_ne by congruence.
           rewrite <- Heq, E. reflexivity.
        -- now rewrite lookup_insert_ne.
      * intros d Hs. simpl.
        destruct (decide (dir p = d)) as [<-|Hne].
        -- rewrite lookup_insert_eq. eauto.
        -- now rewrite lookup_insert_ne.
    + left. eauto.
Qed.

(** The snapshot block never raises and touches at most the snapshot
    file. *)
Lemma writeSnapshot_run (agentId : string) (p : path) (text : string)
    (now : clock) (w : world) :
  exists w', writeSnapshot VERBOSE agentId p text now w = (Val tt, w')
    /\ (forall q, base q <> base p -> lookup_file q w' = lookup_file q w)
    /\ denied w' = denied w /\ denied_dirs w' = denied_dirs w
    /\ (forall d, is_Some (dirs w !! d) -> is_Some (dirs w' !! d)).
Proof.
  unfold writeSnapshot, try_catch. rewrite bind_run.
  destruct (writeFile_run p text (now_ms now) w)
    as [(e & E & _)|(w1 & E & _ & _ & Hq & Hd & Hdd & Hdir)]; rewrite E.
  - destruct (log_run (agentId +:+ ": failed to write ACTIVE_CONTEXT.md: " +:+ e) w)
      as (w' & El & (F1 & F2 & F3)).
    rewrite El. exists w'. split; [reflexivity|].
    repeat split; auto.
    + intros q _. unfold lookup_file. now rewrite F1.
    + intros d. now rewrite F1.
  - destruct (verbose_run (agentId +:+ ": wrote ACTIVE_CONTEXT.md (" +:+
                           JS.string_of_nat (String.length text) +:+ " chars)") w1)
      as (w' & Ev & (F1 & F2 & F3)).
    rewrite Ev. exists w'. split; [reflexivity|].
    split; [|split; [congruence|split; [congruence|]]].
    + intros q Hne. rewrite <- (Hq q Hne). unfold lookup_file. now rewrite F1.
    + intros d Hs. rewrite F1. auto.
Qed.

(** The daily-log block never raises; what it leaves in the daily file
    is decided by the duplicate test and the write permission. *)
Lemma appendDaily_run (agentId : string) (dailyFile : path)
    (dailyEntry : string) (now : clock) (w : world) :
  is_Some (dirs w !! dir dailyFile) ->
  exists w', appendDaily VERBOSE agentId dailyFile dailyEntry now w = (Val tt, w')
    /\ lookup_file dailyFile w' =
       (if JS.includes (checkpoint_needle now)
             (daily_existing agentId dailyFile now w)
        then lookup_file dailyFile w
        else if decide ((dir dailyFile, base dailyFile) ∈ denied w)
             then lookup_file dailyFile w
             else Some {| content :=
                            daily_existing agentId dailyFile now w +:+ dailyEntry;
                          mtimeMs := now_ms now |})
    /\ denied w' = denied w
    /\ is_Some (dirs w' !! dir dailyFile).
Proof.
  intros Hdir. unfold appendDaily.
  unfold try_catch at 1. rewrite bind_run. unfold try_catch at 1.
  assert (Hex : readFile dailyFile w =
                match lookup_file dailyFile w with
                | Some f => (Val (content f), w)
                | None => (Throw "ENOENT", w)
                end) by reflexivity.
  rewrite Hex. unfold daily_existing.
  set (header := "# " +:+ agentId +:+ " — " +:+ dateStr now +:+
                 String "010" (String "010" EmptyString)).
  assert (Hfin : forall existing,
    existing = match lookup_file dailyFile w with
               | Some f => content f | None => header end ->
    exists w',
      match
        (if negb (JS.includes (checkpoint_needle now) existing)
         then bind (writeFile dailyFile (existing +:+ dailyEntry) (now_ms now))
                (fun _ => verbose VERBOSE
                            (agentId +:+ ": appended to " +:+ dateStr now +:+ ".md"))
         else verbose VERBOSE
                (agentId +:+ ": skipped daily append (recent checkpoint exists)")) w
      with
      | (Val a, w'0) => (Val a, w'0)
      | (Throw e, w'0) =>
          log (agentId +:+ ": failed to append daily log: " +:+ e) w'0
      end = (Val tt, w')
      /\ lookup_file dailyFile w' =
         (if JS.includes (checkpoint_needle now) existing
          then lookup_file dailyFile w
          else if decide ((dir dailyFile, base dailyFile) ∈ denied w)
               then lookup_file dailyFile w
               else Some {| content := existing +:+ dailyEntry;
                            mtimeMs := now_ms now |})
      /\ denied w' = denied w
      /\ is_Some (dirs w' !! dir dailyFile)).
  { intros existing _.
    destruct (JS.includes (checkpoint_needle now) existing); simpl.
    - destruct (verbose_run
                  (agentId +:+ ": skipped daily append (recent checkpoint exists)") w)
        as (w' & Ev & (F1 & F2 & F3)).
      rewrite Ev. exists w'. split; [reflexivity|].
      split; [unfold lookup_file; now rewrite F1|].
      split; [exact F2|now rewrite F1].
    - rewrite bind_run.
      destruct (writeFile_run dailyFile (existing +:+ dailyEntry) (now_ms now) w)
        as [(e & E & Hwhy)|(w1 & E & Hnd & Hnew & _ & Hd & _ & Hdirs)]; rewrite E.
      + destruct (log_run (agentId +:+ ": failed to append daily log: " +:+ e) w)
          as (w' & El & (F1 & F2 & F3)).
        rewrite El. exists w'. split; [reflexivity|].
        split; [|split; [exact F2|now rewrite F1]].
        destruct Hwhy as [Hden|Hnone].
        * destruct (decide _) as [_|Hn]; [|contradiction].
          unfold lookup_file. now rewrite F1.
        * rewrite Hnone in Hdir. destruct Hdir as [? Hx]. discriminate.
      + destruct (verbose_run
                    (agentId +:+ ": appended to " +:+ dateStr now +:+ ".md") w1)
          as (w' & Ev & (F1 & F2 & F3)).
        rewrite Ev. exists w'. split; [reflexivity|].
        split; [|split; [congruence|rewrite F1; auto]].
        destruct (decide _) as [Hy|_]; [contradiction|].
        rewrite <- Hnew. unfold lookup_file. now rewrite F1. }
  destruct (lookup_file dailyFile w) as [f|] eqn:Hl.
  - apply (Hfin (content f)). reflexivity.
  - apply (Hfin header). reflexivity.
Qed.

Local Abbreviation checkpoint :=
  (checkpointAgent parse_line fmt_time match_paths HOME CLAWDBOT_HOME
     SESSION_STALE_HOURS DRY_RUN VERBOSE).
Local Abbreviation find_session :=
  (findActiveSession CLAWDBOT_HOME SESSION_STALE_HOURS VERBOSE).

(** The ways a run over one agent can end: without having changed any
    file, or (outside preview mode, answering [true]) with the snapshot
    block followed by the daily-log block, run from a world in which
    every file still read the same. *)
Lemma checkpointAgent_cases (cfg : Config.config) (agentId : string)
    (now : clock) (w w' : world) (r : outcome bool) :
  checkpoint cfg agentId now w = (r, w') ->
  (same_files w w' /\ (r = Val true -> DRY_RUN = true))
  \/ (r = Val true /\ DRY_RUN = false /\
      exists (w0 wS : world) (text : string) (msgs : list message),
        same_files w w0
        /\ is_Some (dirs w0 !! memoryDir_of HOME cfg agentId)
        /\ writeSnapshot VERBOSE agentId (activeContextFile_of HOME cfg agentId)
             text now w0 = (Val tt, wS)
        /\ appendDaily VERBOSE agentId (dailyFile_of HOME cfg agentId now)
             (buildDailyEntry agentId msgs now) now wS = (Val tt, w')).
Proof.
  intros H. unfold checkpointAgent in H. rewrite bind_run in H.
  destruct (find_session agentId now w) as [[[s|]|e] w1] eqn:Hf;
    pose proof (same_fs_files _ _
                  (readonly_run _ _ _ _ (readonly_findActiveSession agentId now) Hf))
      as F1.
  - (* a session was found *)
    rewrite bind_run in H.
    match type of H with context [verbose _ ?l w1] =>
      destruct (verbose_run l w1) as (w2 & Ev & F2); rewrite Ev in H; clear Ev end.
    apply same_fs_files in F2.
    rewrite bind_run in H.
    destruct (readLastLines (spath s) MAX_LINES w2) as [[lines|e] w3] eqn:Hr;
      pose proof (same_fs_files _ _
                    (readonly_run _ _ _ _
                       (readonly_readLastLines (spath s) MAX_LINES) Hr)) as F3.
    2:{ inversion H; subst. left. split; [|discriminate].
        eauto using same_files_trans. }
    destruct (length (extractMessages parse_line lines) <? 3)%nat.
    { rewrite bind_run in H.
      match type of H with context [verbose _ ?l w3] =>
        destruct (verbose_run l w3) as (w4 & Ev & F4); rewrite Ev in H; clear Ev end.
      apply same_fs_files in F4.
      inversion H; subst. left. split; [|discriminate].
      eauto using same_files_trans. }
    rewrite bind_run in H. unfold try_catch at 1 in H. rewrite bind_run in H.
    destruct (mkdir_run (memoryDir_of HOME cfg agentId) w3)
      as [(_ & Em)|(w4 & Em & F4 & Hs)]; rewrite Em in H.
    { match type of H with context [bind (log ?l) _ w3] =>
        rewrite bind_run in H;
        destruct (log_run l w3) as (w5 & El & F5); rewrite El in H; clear El end.
      apply same_fs_files in F5.
      cbv beta iota in H. unfold ret in H. cbn [negb] in H.
      inversion H; subst. left. split; [|discriminate].
      eauto using same_files_trans. }
    unfold ret at 1 in H. cbn [negb] in H. cbv beta iota in H.
    destruct DRY_RUN eqn:Hdry.
    { rewrite bind_run in H.
      match type of H with context [log ?l w4] =>
        destruct (log_run l w4) as (w5 & El & F5); rewrite El in H; clear El end.
      rewrite bind_run in H.
      match type of H with context [log ?l w5] =>
        destruct (log_run l w5) as (w6 & El & F6); rewrite El in H; clear El end.
      apply same_fs_files in F5, F6.
      inversion H; subst. left. split; [|reflexivity].
      eauto 6 using same_files_trans. }
    rewrite bind_run in H.
    match type of H with context [writeSnapshot _ _ ?p ?t _ w4] =>
      destruct (writeSnapshot_run agentId p t now w4)
        as (wS & Es & _ & _ & _ & Hkeep) end.
    rewrite Es in H. rewrite bind_run in H.
    match type of H with context [appendDaily _ _ ?p ?e _ wS] =>
      destruct (appendDaily_run agentId p e now wS (Hkeep _ Hs))
        as (w6 & Ea & _) end.
    rewrite Ea in H. inversion H; subst.
    right. split; [reflexivity|]. split; [reflexivity|].
    eexists w4, wS, _, _. split; [eauto using same_files_trans|].
    split; [exact Hs|]. split; [exact Es|exact Ea].
  - (* no active session *)
    rewrite bind_run in H.
    match type of H with context [verbose _ ?l w1] =>
      destruct (verbose_run l w1) as (w2 & Ev & F2); rewrite Ev in H; clear Ev end.
    apply same_fs_files in F2.
    inversion H; subst. left. split; [|discriminate].
    eauto using same_files_trans.
  - inversion H; subst. left. split; [exact F1|discriminate].
Qed.

(** C3: when the transcript of the active session yields fewer than 3
    usable messages, the run over the agent answers [false] (the agent
    is skipped) and the file system is left exactly as it was: neither
    the snapshot nor the day log nor any other file or directory is
    written. *)
Theorem too_few_messages_writes_nothing (cfg : Config.config)
    (agentId : string) (now : clock) (w w1 : world) (s : session) (f : file) :
  find_session agentId now w = (Val (Some s), w1) ->
  lookup_file (spath s) w = Some f ->
  (length (extractMessages parse_line
             (JS.lastn MAX_LINES (JS.split_lines (JS.trim (content f))))) < 3)%nat ->
  exists w' : world,
    checkpoint cfg agentId now w = (Val false, w') /\ dirs w' = dirs w.
Proof.
  intros Hf Hl Hfew.
  pose proof (readonly_run _ _ _ _ (readonly_findActiveSession agentId now) Hf)
    as F1.
  unfold checkpointAgent. rewrite bind_run, Hf. rewrite bind_run.
  match goal with |- context [verbose _ ?l w1] =>
    destruct (verbose_run l w1) as (w2 & Ev & F2); rewrite Ev; clear Ev end.
  pose proof (same_fs_trans _ _ _ F1 F2) as F12.
  rewrite bind_run. unfold readLastLines. rewrite bind_run. unfold readFile.
  rewrite (same_fs_lookup _ _ (spath s) F12), Hl. unfold ret at 1.
  apply Nat.ltb_lt in Hfew. rewrite Hfew.
  rewrite bind_run.
  match goal with |- context [verbose _ ?l w2] =>
    destruct (verbose_run l w2) as (w3 & Ev & F3); rewrite Ev; clear Ev end.
  exists w3. split; [reflexivity|].
  destruct (same_fs_trans _ _ _ F12 F3) as (Hd & _). exact Hd.
Qed.

Lemma dailyEntry_has_needle (agentId : string) (msgs : list message)
    (c1 c2 : clock) :
  same_minute c1 c2 ->
  JS.includes (checkpoint_needle c2) (buildDailyEntry agentId msgs c1) = true.
Proof.
  intros (_ & _ & _ & Hh & Hm).
  assert (Ht : timeStr c2 = timeStr c1) by (unfold timeStr; now rewrite Hh, Hm).
  unfold checkpoint_needle, buildDailyEntry. rewrite Ht.
  cbn [app String.concat].
  change ("### Checkpoint " +:+ timeStr c1 +:+ " (auto)")
    with ("### " +:+ ("Checkpoint " +:+ timeStr c1 +:+ " (auto)")).
  rewrite append_assoc. apply includes_app_r, includes_prefix.
  unfold JS.startsWith. rewrite !append_assoc.
  rewrite prefix_app_same. apply prefix_slice0.
Qed.

Lemma daily_base_not_snapshot (now : clock) :
  dateStr now +:+ ".md" <> "ACTIVE_CONTEXT.md".
Proof.
  intros E.
  assert (H : JS.includes "-" (dateStr now +:+ ".md") = true).
  { unfold dateStr. rewrite !append_assoc. apply includes_infix. }
  rewrite E in H. vm_compute in H. discriminate.
Qed.

Lemma same_minute_dateStr (c1 c2 : clock) :
  same_minute c1 c2 -> dateStr c2 = dateStr c1.
Proof. intros (Hy & Hm & Hd & _). unfold dateStr. now rewrite Hy, Hm, Hd. Qed.

(** After a run that checkpointed, a second run in the same minute
    leaves the day-log file as it is. *)
Lemma daily_log_settled (cfg : Config.config) (agentId : string)
    (c1 c2 : clock) (w w1 : world) :
  same_minute c1 c2 ->
  checkpoint cfg agentId c1 w = (Val true, w1) ->
  lookup_file (dailyFile_of HOME cfg agentId c2)
    (snd (checkpoint cfg agentId c2 w1)) =
  lookup_file (dailyFile_of HOME cfg agentId c1) w1.
Proof.
  intros Hsame H1.
  assert (HD : dailyFile_of HOME cfg agentId c2 = dailyFile_of HOME cfg agentId c1).
  { unfold dailyFile_of. now rewrite (same_minute_dateStr c1 c2 Hsame). }
  rewrite HD. set (D := dailyFile_of HOME cfg agentId c1) in *.
  destruct (checkpoint cfg agentId c2 w1) as [r2 w2] eqn:H2. simpl.
  apply checkpointAgent_cases in H2.
  destruct H2 as [((Hfiles & _) & _)|(_ & Hdry & w0' & wS' & t2 & m2 & F0' & Hs' & Es' & Ea')].
  { apply Hfiles. }
  apply checkpointAgent_cases in H1.
  destruct H1 as [(_ & Hd)|(_ & _ & w0 & wS & t1 & m1 & _ & Hs & Es & Ea)].
  { specialize (Hd eq_refl). congruence. }
  assert (Hbase : base D <> base (activeContextFile_of HOME cfg agentId)).
  { simpl. apply daily_base_not_snapshot. }
  (* the first run *)
  destruct (writeSnapshot_run agentId (activeContextFile_of HOME cfg agentId)
              t1 c1 w0) as (wS0 & Es0 & _ & _ & _ & Hkeep).
  rewrite Es in Es0. inversion Es0; subst wS0. clear Es0.
  destruct (appendDaily_run agentId D (buildDailyEntry agentId m1 c1) c1 wS
              (Hkeep _ Hs)) as (w1' & Ea1 & Hl1 & Hden1 & _).
  fold D in Ea. rewrite Ea in Ea1. inversion Ea1; subst w1'. clear Ea1.
  (* the second run *)
  destruct (writeSnapshot_run agentId (activeContextFile_of HOME cfg agentId)
              t2 c2 w0') as (wS0 & Es0 & Hq' & HdS' & _ & Hkeep').
  rewrite Es' in Es0. inversion Es0; subst wS0. clear Es0.
  rewrite HD in Ea'. fold D in Ea'.
  destruct (appendDaily_run agentId D (buildDailyEntry agentId m2 c2) c2 wS'
              (Hkeep' _ Hs')) as (w2' & Ea2 & Hl2 & _ & _).
  rewrite Ea' in Ea2. inversion Ea2; subst w2'. clear Ea2.
  destruct F0' as (Hlk0 & Hden0 & _).
  assert (HlS' : lookup_file D wS' = lookup_file D w1).
  { rewrite (Hq' D Hbase). apply Hlk0. }
  assert (HdenS' : denied wS' = denied wS) by congruence.
  assert (Hex2 : daily_existing agentId D c2 wS' = daily_existing agentId D c1 w1).
  { unfold daily_existing. rewrite HlS'.
    now rewrite (same_minute_dateStr c1 c2 Hsame). }
  assert (Hneedle : checkpoint_needle c2 = checkpoint_needle c1).
  { destruct Hsame as (_ & _ & _ & Hh & Hm).
    unfold checkpoint_needle, timeStr. now rewrite Hh, Hm. }
  rewrite Hl2, Hex2, HlS', HdenS', Hneedle.
  destruct (JS.includes (checkpoint_needle c1) (daily_existing agentId D c1 wS))
    eqn:Hinc.
  - (* the first run found an entry for the bucket *)
    assert (Hsame_ex : daily_existing agentId D c1 w1
                       = daily_existing agentId D c1 wS).
    { unfold daily_existing. now rewrite Hl1. }
    now rewrite Hsame_ex, Hinc.
  - destruct (decide ((dir D, base D) ∈ denied wS)) as [Hden|Hnd].
    + (* the first run could not write *)
      assert (Hsame_ex : daily_existing agentId D c1 w1
                         = daily_existing agentId D c1 wS).
      { unfold daily_existing. now rewrite Hl1. }
      now rewrite Hsame_ex, Hinc.
    + (* the first run appended its entry *)
      assert (Hnow : daily_existing agentId D c1 w1
                     = daily_existing agentId D c1 wS
                       +:+ buildDailyEntry agentId m1 c1).
      { unfold daily_existing at 1. now rewrite Hl1. }
      rewrite Hnow, <- Hneedle.
      rewrite (includes_app_r _ _ _ (dailyEntry_has_needle agentId m1 c1 c2 Hsame)).
      reflexivity.
Qed.

(** What one run does to the day-log file: nothing, or (answering
    [true]) one entry appended to what was there. *)
Lemma run_daily_effect (cfg : Config.config) (agentId : string)
    (now : clock) (w w' : world) (r : outcome bool) :
  checkpoint cfg agentId now w = (r, w') ->
  lookup_file (dailyFile_of HOME cfg agentId now) w'
    = lookup_file (dailyFile_of HOME cfg agentId now) w
  \/ (r = Val true /\ exists msgs : list message,
        lookup_file (dailyFile_of HOME cfg agentId now) w' =
        Some {| content :=
                  daily_existing agentId (dailyFile_of HOME cfg agentId now) now w
                  +:+ buildDailyEntry agentId msgs now;
                mtimeMs := now_ms now |}).
Proof.
  intros H. set (D := dailyFile_of HOME cfg agentId now).
  apply checkpointAgent_cases in H.
  destruct H as [((Hfiles & _) & _)|(-> & _ & w0 & wS & t & m & F0 & Hs & Es & Ea)].
  { left. apply Hfiles. }
  assert (Hbase : base D <> base (activeContextFile_of HOME cfg agentId)).
  { simpl. apply daily_base_not_snapshot. }
  destruct (writeSnapshot_run agentId (activeContextFile_of HOME cfg agentId)
              t now w0) as (wS0 & Es0 & Hq & _ & _ & Hkeep).
  rewrite Es in Es0. inversion Es0; subst wS0. clear Es0.
  destruct (appendDaily_run agentId D (buildDailyEntry agentId m now) now wS
              (Hkeep _ Hs)) as (w1' & Ea1 & Hl & _ & _).
  fold D in Ea. rewrite Ea in Ea1. inversion Ea1; subst w1'. clear Ea1.
  destruct F0 as (Hlk0 & _ & _).
  assert (HlS : lookup_file D wS = lookup_file D w).
  { rewrite (Hq D Hbase). apply Hlk0. }
  assert (Hex : daily_existing agentId D now wS = daily_existing agentId D now w).
  { unfold daily_existing. now rewrite HlS. }
  rewrite Hex, HlS in Hl.
  destruct (JS.includes _ _); [left; exact Hl|].
  destruct (decide _); [left; exact Hl|].
  right. split; [reflexivity|]. exists m. exact Hl.
Qed.

(** C4: two runs over the same agent, the second on the files the first
    left, both within the same minute of the same day, use the same
    day-log file; if the first run checkpointed (answered [true]), the
    second run leaves the day-log file exactly as the first left it (its
    append is a no-op, while the snapshot may be written again); and
    whatever the first run did, the two runs together add at most one
    entry to the day log. *)
Theorem second_run_keeps_daily_log (cfg : Config.config) (agentId : string)
    (c1 c2 : clock) (w : world) :
  same_minute c1 c2 ->
  let D := dailyFile_of HOME cfg agentId c1 in
  let w1 := snd (checkpoint cfg agentId c1 w) in
  let w2 := snd (checkpoint cfg agentId c2 w1) in
  dailyFile_of HOME cfg agentId c2 = D
  /\ (fst (checkpoint cfg agentId c1 w) = Val true ->
      lookup_file D w2 = lookup_file D w1)
  /\ (lookup_file D w2 = lookup_file D w
      \/ exists (msgs : list message) (c : clock),
           (c = c1 \/ c = c2)
           /\ lookup_file D w2 =
              Some {| content := daily_existing agentId D c1 w
                                 +:+ buildDailyEntry agentId msgs c;
                      mtimeMs := now_ms c |}).
Proof.
  intros Hsame D w1 w2.
  assert (HD : dailyFile_of HOME cfg agentId c2 = D).
  { unfold D, dailyFile_of. now rewrite (same_minute_dateStr c1 c2 Hsame). }
  assert (Hnoop : fst (checkpoint cfg agentId c1 w) = Val true ->
                  lookup_file D w2 = lookup_file D w1).
  { intros Hr.
    pose proof (daily_log_settled cfg agentId c1 c2 w w1 Hsame
                  (pair_of_fst _ _ Hr)) as Hx.
    rewrite HD in Hx. exact Hx. }
  split; [exact HD|]. split; [exact Hnoop|].
  destruct (checkpoint cfg agentId c1 w) as [r1 w1'] eqn:H1.
  destruct (checkpoint cfg agentId c2 w1) as [r2 w2'] eqn:H2.
  simpl in w1. subst w1. unfold w2 in *. clear w2. simpl in *.
  apply run_daily_effect in H1. fold D in H1.
  apply run_daily_effect in H2. rewrite HD in H2.
  destruct H1 as [E1|(-> & m1 & E1)].
  - destruct H2 as [E2|(_ & m2 & E2)].
    + left. congruence.
    + right. exists m2, c2. split; [now right|].
      rewrite E2. f_equal. f_equal.
      unfold daily_existing. rewrite E1.
      now rewrite (same_minute_dateStr c1 c2 Hsame).
  - right. exists m1, c1. split; [now left|].
    rewrite (Hnoop eq_refl). exact E1.
Qed.

Lemma writeFile_denied (p : path) (text : string) (now : Z) (w : world) :
  (dir p, base p) ∈ denied w -> writeFile p text now w = (Throw "EACCES", w).
Proof. intros H. unfold writeFile. now destruct (decide _). Qed.

Lemma writeSnapshot_denied (agentId : string) (p : path) (text : string)
    (now : clock) (w : world) :
  (dir p, base p) ∈ denied w ->
  exists w', writeSnapshot VERBOSE agentId p text now w = (Val tt, w')
             /\ same_fs w w'.
Proof.
  intros H. unfold writeSnapshot, try_catch.
  rewrite bind_run, (writeFile_denied p text (now_ms now) w H).
  apply log_run.
Qed.

Lemma appendDaily_denied (agentId : string) (p : path) (entry : string)
    (now : clock) (w : world) :
  (dir p, base p) ∈ denied w ->
  exists w', appendDaily VERBOSE agentId p entry now w = (Val tt, w')
             /\ same_fs w w'.
Proof.
  intros H. unfold appendDaily.
  unfold try_catch at 1. rewrite bind_run. unfold try_catch at 1.
  assert (Hfin : forall existing,
    exists w',
      match
        (if negb (JS.includes (checkpoint_needle now) existing)
         then bind (writeFile p (existing +:+ entry) (now_ms now))
                (fun _ => verbose VERBOSE
                            (agentId +:+ ": appended to " +:+ dateStr now +:+ ".md"))
         else verbose VERBOSE
                (agentId +:+ ": skipped daily append (recent checkpoint exists)")) w
      with
      | (Val a, w'0) => (Val a, w'0)
      | (Throw e, w'0) =>
          log (agentId +:+ ": failed to append daily log: " +:+ e) w'0
      end = (Val tt, w') /\ same_fs w w').
  { intros existing. destruct (JS.includes _ _); simpl.
    - destruct (verbose_run
                  (agentId +:+ ": skipped daily append (recent checkpoint exists)") w)
        as (w' & Ev & F).
      rewrite Ev. exists w'. split; [reflexivity|exact F].
    - rewrite bind_run, (writeFile_denied p _ (now_ms now) w H). apply log_run. }
  unfold readFile. destruct (lookup_file p w) as [f|].
  - apply Hfin.
  - apply Hfin.
Qed.

(** Outside preview mode, an agent with an active session, at least 3
    usable messages and a memory directory that can be created is
    answered [true] even when neither memory file can be written; no
    file has changed. *)
Lemma checkpoint_true_despite_write_failures (cfg : Config.config)
    (agentId : string) (now : clock) (w w1 : world) (s : session) (f : file) :
  DRY_RUN = false ->
  find_session agentId now w = (Val (Some s), w1) ->
  lookup_file (spath s) w = Some f ->
  (3 <= length (extractMessages parse_line
                  (JS.lastn MAX_LINES (JS.split_lines (JS.trim (content f))))))%nat ->
  memoryDir_of HOME cfg agentId ∉ denied_dirs w ->
  (memoryDir_of HOME cfg agentId, "ACTIVE_CONTEXT.md") ∈ denied w ->
  (memoryDir_of HOME cfg agentId, dateStr now +:+ ".md") ∈ denied w ->
  exists w' : world,
    checkpoint cfg agentId now w = (Val true, w') /\ same_files w w'.
Proof.
  intros Hdry Hf Hl Hmany Hmk Hsnap Hdaily.
  pose proof (readonly_run _ _ _ _ (readonly_findActiveSession agentId now) Hf)
    as F1.
  unfold checkpointAgent. rewrite bind_run, Hf. rewrite bind_run.
  match goal with |- context [verbose _ ?l w1] =>
    destruct (verbose_run l w1) as (w2 & Ev & F2); rewrite Ev; clear Ev end.
  pose proof (same_fs_trans _ _ _ F1 F2) as F12.
  rewrite bind_run. unfold readLastLines. rewrite bind_run. unfold readFile.
  rewrite (same_fs_lookup _ _ (spath s) F12), Hl. unfold ret at 1.
  apply Nat.ltb_ge in Hmany. rewrite Hmany.
  rewrite bind_run. unfold try_catch at 1. rewrite bind_run.
  destruct F12 as (D12 & N12 & M12).
  destruct (mkdir_run (memoryDir_of HOME cfg agentId) w2)
    as [(Hbad & _)|(w3 & Em & F3 & _)].
  { rewrite M12 in Hbad. contradiction. }
  rewrite Em. unfold ret at 1. cbn [negb]. cbv beta iota. rewrite Hdry.
  destruct F3 as (L3 & N3 & M3).
  rewrite bind_run.
  destruct (writeSnapshot_denied agentId (activeContextFile_of HOME cfg agentId)
              (buildActiveContext fmt_time match_paths agentId
                 (extractMessages parse_line
                    (JS.lastn MAX_LINES (JS.split_lines (JS.trim (content f)))))
                 (spath s) now) now w3) as (w4 & E4 & (D4 & N4 & M4)).
  { simpl. rewrite N3, N12. exact Hsnap. }
  rewrite E4. rewrite bind_run.
  destruct (appendDaily_denied agentId (dailyFile_of HOME cfg agentId now)
              (buildDailyEntry agentId
                 (extractMessages parse_line
                    (JS.lastn MAX_LINES (JS.split_lines (JS.trim (content f)))))
                 now) now w4) as (w5 & E5 & (D5 & N5 & M5)).
  { simpl. rewrite N4, N3, N12. exact Hdaily. }
  rewrite E5. exists w5. split; [reflexivity|].
  split; [|split; congruence].
  intros p. unfold lookup_file at 1. rewrite D5, D4.
  fold (lookup_file p w3). rewrite L3.
  unfold lookup_file. now rewrite D12.
Qed.

(** The loop over the agents always ends with a count: no failure of one
    agent unwinds past it. *)
Lemma agents_loop_total (cfg : Config.config) (now : clock)
    (agents : list string) :
  forall (n : nat) (w : world),
    exists (m : nat) (w' : world),
      agents_loop parse_line fmt_time match_paths HOME CLAWDBOT_HOME
        SESSION_STALE_HOURS DRY_RUN VERBOSE cfg agents now n w = (Val m, w')
      /\ (n <= m <= n + length agents)%nat.
Proof.
  induction agents as [|a rest IH]; intros n w.
  - exists n, w. split; [reflexivity|simpl; lia].
  - cbn [agents_loop]. rewrite bind_run. unfold try_catch.
    destruct (checkpoint cfg a now w) as [[b|e] w1].
    + destruct (IH (if b then S n else n) w1) as (m & w' & E & Hb).
      exists m, w'. split; [exact E|]. destruct b; simpl; lia.
    + rewrite bind_run.
      destruct (log_run (a +:+ ": error: " +:+ e) w1) as (w2 & El & _).
      rewrite El. unfold ret at 1.
      destruct (IH n w2) as (m & w' & E & Hb).
      exists m, w'. split; [exact E|simpl; lia].
Qed.

End CheckpointFacts.

Lemma too_few_messages_writes_nothing_witness :
  exists w' : World.world,
    toy_checkpoint cfg_two_agents "main" clock_0930 world_poor
      = (World.Val false, w')
    /\ World.dirs w' = World.dirs world_poor.
Proof.
  apply (too_few_messages_writes_nothing toy_parse toy_time toy_paths
           "/home/u" "/home/u/.clawdbot" JS.NaN false false
           cfg_two_agents "main" clock_0930 world_poor world_poor
           {| Checkpoint.spath :=
                {| World.dir := sessions_of "main"; World.base := "s1.jsonl" |};
              Checkpoint.s_mtimeMs := 1767000000000;
              Checkpoint.s_size := 1214 |}
           (mk_file transcript_poor)).
  - vm_compute. reflexivity.
  - vm_compute. reflexivity.
  - apply Nat.ltb_lt. vm_compute. reflexivity.
Defined.

Lemma second_run_keeps_daily_log_witness :
  World.lookup_file
    (Checkpoint.dailyFile_of "/home/u" cfg_two_agents "main" clock_0930)
    (snd (toy_checkpoint cfg_two_agents "main" clock_0930_later
            (snd (toy_checkpoint cfg_two_agents "main" clock_0930 world_rich))))
  = World.lookup_file
      (Checkpoint.dailyFile_of "/home/u" cfg_two_agents "main" clock_0930)
      (snd (toy_checkpoint cfg_two_agents "main" clock_0930 world_rich)).
Proof.
  destruct (second_run_keeps_daily_log toy_parse toy_time toy_paths
              "/home/u" "/home/u/.clawdbot" JS.NaN false false
              cfg_two_agents "main" clock_0930 clock_0930_later world_rich)
    as (_ & Hnoop & _).
  - repeat split; reflexivity.
  - apply Hnoop. vm_compute. reflexivity.
Defined.

(** The first run of the example does append one entry, which the
    second run finds. *)
Example first_run_appends_entry :
  World.content <$>
    World.lookup_file
      (Checkpoint.dailyFile_of "/home/u" cfg_two_agents "main" clock_0930)
      (snd (toy_checkpoint cfg_two_agents "main" clock_0930 world_rich))
  = Some (String.concat Hooks.nl
            [ "# main — 2025-12-29"; "";
              "### Checkpoint 09:30 (auto)"; "";
              "- 3 messages (2 user, 1 assistant)";
              "- Last request: " +:+ repeat_string 200 "s";
              "- Last output: " +:+ repeat_string 200 "r";
              "" ]).
Proof. vm_compute. reflexivity. Qed.

(** C9, the failing input evaluated: neither memory file of [main] can
    be written; both failures are caught and logged and the next agent
    is processed, but [main] is still counted in the tally, which
    reports 2 of 2 although nothing was persisted for [main]. *)
Lemma write_failures_still_counted :
  fst (toy_main (World.Val cfg_two_agents) clock_0930 world_rich_denied)
  = World.Val {| Checkpoint.checkpointed := 2; Checkpoint.total := 2;
                 Checkpoint.exit_code := 0 |}
  /\ World.console
       (snd (toy_main (World.Val cfg_two_agents) clock_0930 world_rich_denied))
     = [ "Starting checkpoint run";
         "main: failed to write ACTIVE_CONTEXT.md: EACCES";
         "main: failed to append daily log: EACCES";
         "Done. Checkpointed 2/2 agents." ]
  /\ World.lookup_file
       (Checkpoint.activeContextFile_of "/home/u" cfg_two_agents "main")
       (snd (toy_main (World.Val cfg_two_agents) clock_0930 world_rich_denied))
     = None
  /\ World.lookup_file
       (Checkpoint.dailyFile_of "/home/u" cfg_two_agents "main" clock_0930)
       (snd (toy_main (World.Val cfg_two_agents) clock_0930 world_rich_denied))
     = None.
Proof. vm_compute. repeat split; reflexivity. Qed.

(* ===================================================================== *)
(** * Further properties of the code *)
(* ===================================================================== *)

(** ** The rotation monitor: preview mode, exit codes, the tally *)

Section RotationMore.
Import Rotation.
Context {G : Type}.
Variable gw_list : G -> list_reply * G.
Variable gw_reset : string -> G -> reset_reply * G.

Lemma rotate_loop_dry (cs : list session) :
  forall (g : G) (r : run),
    snd (rotate_loop gw_reset true cs g r) = g
    /\ rotated (fst (rotate_loop gw_reset true cs g r))
       = (rotated r + length cs)%nat.
Proof.
  induction cs as [|s cs IH]; intros g r; simpl.
  - split; [reflexivity|lia].
  - destruct (IH g {| calls := calls r;
                      logs := logs r ++
                        ["  [DRY RUN] Would rotate: " +:+ key_str s +:+ " (" +:+
                         tokens_str s +:+ " tokens)"];
                      rotated := S (rotated r);
                      exit_code := exit_code r |}) as [H1 H2].
    split; [exact H1|]. rewrite H2. simpl. lia.
Qed.

Lemma rotate_loop_exit (dry : bool) (cs : list session) :
  forall (g : G) (r : run),
    exit_code (fst (rotate_loop gw_reset dry cs g r)) = exit_code r.
Proof.
  induction cs as [|s cs IH]; intros g r; simpl; [reflexivity|].
  destruct dry.
  - now rewrite IH.
  - destruct (gw_reset (key_str s) g) as [reply g'].
    rewrite IH. now destruct reply.
Qed.

Lemma rotate_loop_rotated (dry : bool) (cs : list session) :
  forall (g : G) (r : run),
    (rotated r <= rotated (fst (rotate_loop gw_reset dry cs g r))
     <= rotated r + length cs)%nat.
Proof.
  induction cs as [|s cs IH]; intros g r; simpl; [lia|].
  destruct dry.
  - match goal with |- context [rotate_loop _ _ cs g ?r0] =>
      specialize (IH g r0) end.
    simpl in IH. lia.
  - destruct (gw_reset (key_str s) g) as [reply g'].
    match goal with |- context [rotate_loop _ _ cs g' ?r0] =>
      specialize (IH g' r0) end.
    destruct reply; simpl in IH; lia.
Qed.

Lemma rotate_loop_all_accepted (cs : list session) :
  (forall k g, exists newId g', gw_reset k g = (ResetOk newId, g')) ->
  forall (g : G) (r : run),
    rotated (fst (rotate_loop gw_reset false cs g r))
    = (rotated r + length cs)%nat.
Proof.
  intros Hok. induction cs as [|s cs IH]; intros g r; simpl; [lia|].
  destruct (Hok (key_str s) g) as (newId & g' & E). rewrite E.
  rewrite IH. simpl. lia.
Qed.

(** X1: in preview mode no rotate command is sent: the gateway is asked
    for the session list only and is left in the state the listing put
    it in, while every candidate is reported as rotated. *)
Theorem preview_mode_sends_no_reset (vb : bool) (T : JS.num) (g g1 : G)
    (sessions : list session) :
  gw_list g = (ListOk sessions, g1) ->
  calls (fst (main gw_list gw_reset true vb T g)) = [CallList]
  /\ snd (main gw_list gw_reset true vb T g) = g1
  /\ rotated (fst (main gw_list gw_reset true vb T g))
     = length (candidates T sessions).
Proof.
  intros Hl.
  split; [apply (main_calls gw_list gw_reset true vb T g g1 sessions Hl)|].
  unfold main. rewrite Hl.
  destruct (candidates T sessions) as [|c cs] eqn:Hc; [now split|].
  match goal with |- context [rotate_loop _ _ ?l ?g0 ?r0] =>
    destruct (rotate_loop_dry l g0 r0) as [H1 H2];
    destruct (rotate_loop gw_reset true l g0 r0) as [r g2]
  end.
  simpl in *. split; [exact H1|exact H2].
Qed.

(** X2: the exit code is 1 exactly when the session list cannot be
    obtained, in which case no rotate command is sent; once the list is
    obtained the exit code is 0, whatever the individual rotations
    answer. *)
Theorem exit_code_reflects_listing_only (dry vb : bool) (T : JS.num) (g : G) :
  match fst (gw_list g) with
  | ListThrow _ =>
      exit_code (fst (main gw_list gw_reset dry vb T g)) = 1
      /\ calls (fst (main gw_list gw_reset dry vb T g)) = [CallList]
      /\ rotated (fst (main gw_list gw_reset dry vb T g)) = 0%nat
  | ListOk _ => exit_code (fst (main gw_list gw_reset dry vb T g)) = 0
  end.
Proof.
  unfold main. destruct (gw_list g) as [[sessions|msg] g1]; simpl.
  - destruct (candidates T sessions) as [|c cs]; [reflexivity|].
    match goal with |- context [rotate_loop _ _ ?l ?g0 ?r0] =>
      pose proof (rotate_loop_exit dry l g0 r0) as He;
      destruct (rotate_loop gw_reset dry l g0 r0) as [r g2]
    end.
    simpl in *. exact He.
  - repeat split.
Qed.

(** X3: the number reported as rotated never exceeds the number of
    candidates, and outside preview mode it equals it when the gateway
    accepts every reset. *)
Theorem rotated_count_bounds (dry vb : bool) (T : JS.num) (g g1 : G)
    (sessions : list session) :
  gw_list g = (ListOk sessions, g1) ->
  (rotated (fst (main gw_list gw_reset dry vb T g))
   <= length (candidates T sessions))%nat
  /\ ((forall k g0, exists newId g', gw_reset k g0 = (ResetOk newId, g')) ->
      rotated (fst (main gw_list gw_reset false vb T g))
      = length (candidates T sessions)).
Proof.
  intros Hl. unfold main. rewrite Hl.
  destruct (candidates T sessions) as [|c cs] eqn:Hc.
  - split; [simpl; lia|reflexivity].
  - split.
    + match goal with |- context [rotate_loop _ _ ?l ?g0 ?r0] =>
        pose proof (rotate_loop_rotated dry l g0 r0) as Hb;
        destruct (rotate_loop gw_reset dry l g0 r0) as [r g2]
      end.
      simpl in *. lia.
    + intros Hok.
      match goal with |- context [rotate_loop _ _ ?l ?g0 ?r0] =>
        pose proof (rotate_loop_all_accepted l Hok g0 r0) as Hb;
        destruct (rotate_loop gw_reset false l g0 r0) as [r g2]
      end.
      simpl in *. exact Hb.
Qed.

End RotationMore.

Section RotationArgsFacts.
Import Rotation RotationArgs.

(** X4: the default threshold is always a non-zero number: an unset,
    non-numeric or zero ROTATION_THRESHOLD falls back to 150000, and any
    other value is taken as parsed. *)
Theorem default_threshold_never_nan_or_zero (env : option string) :
  (exists n : Z, DEFAULT_THRESHOLD env = JS.Num n /\ n <> 0)
  /\ (JS.truthy_num (parseInt_env env) = false ->
      DEFAULT_THRESHOLD env = JS.Num 150000)
  /\ (JS.truthy_num (parseInt_env env) = true ->
      DEFAULT_THRESHOLD env = parseInt_env env).
Proof.
  unfold DEFAULT_THRESHOLD.
  destruct (parseInt_env env) as [n|] eqn:E; simpl.
  - destruct (Z.eqb_spec n 0) as [->|Hn]; simpl.
    + split; [exists 150000; split; [reflexivity|lia]|].
      split; [reflexivity|discriminate].
    + split; [exists n; split; [reflexivity|exact Hn]|].
      split; [discriminate|reflexivity].
  - split; [exists 150000; split; [reflexivity|lia]|].
    split; [reflexivity|discriminate].
Qed.

(** What the filter accepts when the threshold is NaN. *)
Lemma is_candidate_nan (s : session) :
  is_candidate JS.NaN s = true <->
  exists (k : string) (n : Z),
    key s = Some k /\ k <> EmptyString /\
    totalTokens s = Some n /\ n <> 0 /\
    Forall (fun p => test p k = false) SKIP_PATTERNS.
Proof.
  unfold is_candidate, tokens_num.
  destruct (totalTokens s) as [n|]; simpl.
  2:{ split; [discriminate|]. intros (k & n & _ & _ & Hn & _). discriminate. }
  destruct (Z.eqb_spec n 0) as [->|Hn0]; simpl.
  { split; [discriminate|].
    intros (k & n & _ & _ & Hn & Hnz & _). congruence. }
  destruct (key s) as [k|].
  2:{ split; [discriminate|]. intros (k & m & Hk & _). discriminate. }
  destruct (JS.truthy k) eqn:Htr; simpl.
  - rewrite negb_true_iff, orb_false_r.
    split.
    + intros Hno. exists k, n. apply truthy_true_iff in Htr.
      apply orb_false_elim in Hno as [H1 H2].
      repeat split; auto.
      unfold SKIP_PATTERNS. repeat constructor; assumption.
    + intros (k' & m & Hk & _ & _ & _ & Hall). inversion Hk; subst k'.
      inversion Hall as [|? ? H1 Hall']; subst.
      inversion Hall' as [|? ? H2 _]; subst.
      simpl in H1, H2. now rewrite H1, H2.
  - split; [discriminate|].
    intros (k' & m & Hk & Hne & _). inversion Hk; subst k'.
    apply truthy_true_iff in Hne. congruence.
Qed.

(** X5: a [--threshold] argument without leading digits gives the
    threshold NaN, under which the token count no longer matters beyond
    being non-zero: every session with a key that no exclusion pattern
    matches becomes a candidate. *)
Theorem non_numeric_threshold_disables_the_limit (argv : list string)
    (env : option string) (idx : nat) (a : string) :
  indexOf "--threshold" argv = Some idx ->
  nth_error argv (idx + 1) = Some a ->
  a <> EmptyString ->
  parseInt a = JS.NaN ->
  THRESHOLD argv env = JS.NaN
  /\ forall s : session,
       is_candidate (THRESHOLD argv env) s = true <->
       exists (k : string) (n : Z),
         key s = Some k /\ k <> EmptyString /\
         totalTokens s = Some n /\ n <> 0 /\
         Forall (fun p => test p k = false) SKIP_PATTERNS.
Proof.
  intros Hi Hn Ha Hp.
  assert (HT : THRESHOLD argv env = JS.NaN).
  { unfold THRESHOLD. rewrite Hi, Hn.
    apply truthy_true_iff in Ha. now rewrite Ha. }
  split; [exact HT|]. intros s. rewrite HT. apply is_candidate_nan.
Qed.

End RotationArgsFacts.

Example parseInt_examples :
  (RotationArgs.parseInt "150000", RotationArgs.parseInt "  42px",
   RotationArgs.parseInt "-7", RotationArgs.parseInt "abc",
   RotationArgs.parseInt "", RotationArgs.parseInt "12.9")
  = (JS.Num 150000, JS.Num 42, JS.Num (-7), JS.NaN, JS.NaN, JS.Num 12).
Proof. reflexivity. Qed.

Example threshold_from_argv :
  (RotationArgs.THRESHOLD ["node"; "monitor.js"; "--threshold"; "90000"] None,
   RotationArgs.THRESHOLD ["node"; "monitor.js"; "--dry-run"] (Some "120000"),
   RotationArgs.THRESHOLD ["node"; "monitor.js"; "--threshold"] (Some "0"))
  = (JS.Num 90000, JS.Num 120000, JS.Num 150000).
Proof. reflexivity. Qed.

Lemma preview_mode_sends_no_reset_witness :
  Rotation.calls
    (fst (Rotation.main (listing [scenario_c_session; cron_session])
            accept_reset true false (JS.Num 150000) tt)) = [Rotation.CallList]
  /\ snd (Rotation.main (listing [scenario_c_session; cron_session])
            accept_reset true false (JS.Num 150000) tt) = tt
  /\ Rotation.rotated
       (fst (Rotation.main (listing [scenario_c_session; cron_session])
               accept_reset true false (JS.Num 150000) tt))
     = length (Rotation.candidates (JS.Num 150000)
                 [scenario_c_session; cron_session]).
Proof.
  apply (preview_mode_sends_no_reset
           (listing [scenario_c_session; cron_session]) accept_reset
           false (JS.Num 150000) tt tt [scenario_c_session; cron_session]).
  reflexivity.
Defined.

Lemma rotated_count_bounds_witness :
  (Rotation.rotated
     (fst (Rotation.main (listing [scenario_c_session; cron_session])
             accept_reset false false (JS.Num 150000) tt))
   <= length (Rotation.candidates (JS.Num 150000)
                [scenario_c_session; cron_session]))%nat
  /\ Rotation.rotated
       (fst (Rotation.main (listing [scenario_c_session; cron_session])
               accept_reset false false (JS.Num 150000) tt))
     = length (Rotation.candidates (JS.Num 150000)
                 [scenario_c_session; cron_session]).
Proof.
  destruct (rotated_count_bounds
              (listing [scenario_c_session; cron_session]) accept_reset
              false false (JS.Num 150000) tt tt
              [scenario_c_session; cron_session] eq_refl) as [H1 H2].
  split; [exact H1|]. apply H2.
  intros k g0. exists (Some "a1b2c3d4e5f6"), g0. reflexivity.
Defined.

Lemma default_threshold_never_nan_or_zero_witness :
  RotationArgs.DEFAULT_THRESHOLD (Some "0") = JS.Num 150000
  /\ RotationArgs.DEFAULT_THRESHOLD (Some "120000") = JS.Num 120000.
Proof.
  destruct (default_threshold_never_nan_or_zero (Some "0")) as (_ & H0 & _).
  destruct (default_threshold_never_nan_or_zero (Some "120000")) as (_ & _ & H1).
  split; [apply H0; reflexivity|apply H1; reflexivity].
Defined.

Lemma non_numeric_threshold_disables_the_limit_witness :
  RotationArgs.THRESHOLD ["node"; "monitor.js"; "--threshold"; "abc"] None
  = JS.NaN.
Proof.
  apply (non_numeric_threshold_disables_the_limit
           ["node"; "monitor.js"; "--threshold"; "abc"] None 2 "abc").
  - reflexivity.
  - reflexivity.
  - discriminate.
  - reflexivity.
Defined.

(** ** Composition rules for the world monad *)

Section EffectRules.
Import World Effects.

Lemma nothrow_ret {A} (a : A) : nothrow (ret a).
Proof. intros w. now exists a, w. Qed.

Lemma nothrow_bind {A B} (m : M A) (k : A -> M B) :
  nothrow m -> (forall a, nothrow (k a)) -> nothrow (bind m k).
Proof.
  intros Hm Hk w. unfold bind.
  destruct (Hm w) as (a & w1 & E). rewrite E. apply Hk.
Qed.

(** A [try] whose handler never raises never raises. *)
Lemma nothrow_try_catch {A} (m : M A) (h : string -> M A) :
  (forall e, nothrow (h e)) -> nothrow (try_catch m h).
Proof.
  intros Hh w. unfold try_catch.
  destruct (m w) as [[a|e] w1]; [now exists a, w1|apply Hh].
Qed.

Lemma nothrow_print (line : string) : nothrow (print line).
Proof. intros w. eexists tt, _. reflexivity. Qed.

Lemma ensures_ret {A} (a : A) (Q : A -> Prop) : Q a -> ensures (ret a) Q.
Proof. intros H w. exact H. Qed.

Lemma ensures_bind {A B} (m : M A) (k : A -> M B) (Q : B -> Prop) :
  (forall a, ensures (k a) Q) -> ensures (bind m k) Q.
Proof.
  intros Hk w. unfold bind.
  destruct (m w) as [[a|e] w1]; [apply Hk|exact I].
Qed.

Lemma ensures_try_catch {A} (m : M A) (h : string -> M A) (Q : A -> Prop) :
  ensures m Q -> (forall e, ensures (h e) Q) -> ensures (try_catch m h) Q.
Proof.
  intros Hm Hh w. unfold try_catch. specialize (Hm w).
  destruct (m w) as [[a|e] w1]; [exact Hm|apply Hh].
Qed.

Lemma changes_only_ret {A} (ps : list path) (a : A) : changes_only ps (ret a).
Proof. intros w. now repeat split. Qed.

Lemma changes_only_bind {A B} (ps : list path) (m : M A) (k : A -> M B) :
  changes_only ps m -> (forall a, changes_only ps (k a)) ->
  changes_only ps (bind m k).
Proof.
  intros Hm Hk w. unfold bind. specialize (Hm w).
  destruct (m w) as [[a|e] w1]; simpl in *; [|exact Hm].
  destruct Hm as (H1 & H2 & H3). destruct (Hk a w1) as (K1 & K2 & K3).
  split; [|split; congruence].
  intros q Hq. rewrite (K1 q Hq). apply (H1 q Hq).
Qed.

Lemma changes_only_try_catch {A} (ps : list path) (m : M A)
    (h : string -> M A) :
  changes_only ps m -> (forall e, changes_only ps (h e)) ->
  changes_only ps (try_catch m h).
Proof.
  intros Hm Hh w. unfold try_catch. specialize (Hm w).
  destruct (m w) as [[a|e] w1]; simpl in *; [exact Hm|].
  destruct Hm as (H1 & H2 & H3). destruct (Hh e w1) as (K1 & K2 & K3).
  split; [|split; congruence].
  intros q Hq. rewrite (K1 q Hq). apply (H1 q Hq).
Qed.

(** Reading changes nothing. *)
Lemma changes_only_readonly {A} (ps : list path) (m : M A) :
  readonly m -> changes_only ps m.
Proof.
  intros H w. destruct (H w) as (H1 & H2 & H3).
  split; [|split; assumption].
  intros q _. unfold lookup_file. now rewrite H1.
Qed.

(** Creating a directory changes no file. *)
Lemma changes_only_mkdir (ps : list path) (d : string) :
  changes_only ps (mkdir d).
Proof.
  intros w. destruct (mkdir_run d w) as [(_ & E)|(w' & E & (H1 & H2 & H3) & _)];
    rewrite E; simpl.
  - now repeat split.
  - split; [|split; assumption]. intros q _. apply H1.
Qed.

(** Writing a file changes that file only. *)
Lemma changes_only_writeFile (ps : list path) (p : path) (text : string)
    (now : Z) :
  In p ps -> changes_only ps (writeFile p text now).
Proof.
  intros Hin w. unfold writeFile.
  destruct (decide ((dir p, base p) ∈ denied w)); [now repeat split|].
  destruct (dirs w !! dir p) as [es|] eqn:E; [|now repeat split].
  simpl. split; [|now split].
  intros q Hq. unfold lookup_file, set_dirs. simpl.
  destruct (decide (dir p = dir q)) as [Heq|Hne].
  - rewrite Heq, lookup_insert_eq. simpl.
    destruct (Hq p Hin) as [Hd|Hb]; [congruence|].
    rewrite lookup_insert_ne by congruence.
    rewrite <- Heq, E. reflexivity.
  - now rewrite lookup_insert_ne.
Qed.

(** A larger set of files may be named. *)
Lemma changes_only_weaken {A} (ps ps' : list path) (m : M A) :
  (forall p, In p ps -> In p ps') -> changes_only ps m -> changes_only ps' m.
Proof.
  intros Hsub Hm w. destruct (Hm w) as (H1 & H2 & H3).
  split; [|split; assumption].
  intros q Hq. apply H1. intros p Hp. apply Hq, Hsub, Hp.
Qed.

End EffectRules.

#[export] Hint Resolve readonly_verbose readonly_log
  readonly_findActiveSession readonly_readLastLines : readonly.

(** Decompose a computation into its steps, for each of the three
    judgements. *)
Ltac effect_step :=
  match goal with
  | |- Effects.changes_only _ (World.bind _ _) =>
      apply changes_only_bind; [|intros ?]
  | |- Effects.changes_only _ (World.try_catch _ _) =>
      apply changes_only_try_catch; [|intros ?]
  | |- Effects.changes_only _ (World.ret _) => apply changes_only_ret
  | |- Effects.changes_only _ (World.mkdir _) => apply changes_only_mkdir
  | |- Effects.changes_only _ (World.writeFile _ _ _) =>
      apply changes_only_writeFile; simpl; tauto
  | |- Effects.changes_only _ (if ?b then _ else _) => destruct b
  | |- Effects.changes_only _ (match ?x with _ => _ end) => destruct x
  | |- Effects.changes_only _ _ =>
      apply changes_only_readonly; solve [auto with readonly]
  | |- Effects.nothrow (World.bind _ _) => apply nothrow_bind; [|intros ?]
  | |- Effects.nothrow (World.try_catch _ _) =>
      apply nothrow_try_catch; intros ?
  | |- Effects.nothrow (World.ret _) => apply nothrow_ret
  | |- Effects.nothrow (World.print _) => apply nothrow_print
  | |- Effects.nothrow (if ?b then _ else _) => destruct b
  | |- Effects.nothrow (match ?x with _ => _ end) => destruct x
  end.

Ltac solve_effect := repeat effect_step.

(** ** The checkpoint script: what a run may touch, and what it reports *)

Section WriteBlocks.
Import World Checkpoint Effects.
Variable VERBOSE : bool.

Lemma writeSnapshot_changes (agentId : string) (p : path) (text : string)
    (now : clock) :
  changes_only [p] (writeSnapshot VERBOSE agentId p text now).
Proof. unfold writeSnapshot. solve_effect. Qed.

Lemma appendDaily_changes (agentId : string) (p : path) (e : string)
    (now : clock) :
  changes_only [p] (appendDaily VERBOSE agentId p e now).
Proof. unfold appendDaily. solve_effect. Qed.

End WriteBlocks.

Section CheckpointMore.
Import World Checkpoint Effects.
Variable parse_line : string -> option entry.
Variable fmt_time : string -> string.
Variable match_paths : string -> list string.
Variables HOME CLAWDBOT_HOME : string.
Variable SESSION_STALE_HOURS : JS.num.
Variables DRY_RUN VERBOSE : bool.

Local Abbreviation checkpoint :=
  (checkpointAgent parse_line fmt_time match_paths HOME CLAWDBOT_HOME
     SESSION_STALE_HOURS DRY_RUN VERBOSE).
Local Abbreviation checkpoint_preview :=
  (checkpointAgent parse_line fmt_time match_paths HOME CLAWDBOT_HOME
     SESSION_STALE_HOURS true VERBOSE).
Local Abbreviation find_session :=
  (findActiveSession CLAWDBOT_HOME SESSION_STALE_HOURS VERBOSE).

Lemma checkpointAgent_changes (cfg : Config.config) (agentId : string)
    (now : clock) :
  changes_only (agent_files HOME cfg now agentId) (checkpoint cfg agentId now).
Proof.
  unfold checkpointAgent, agent_files. solve_effect.
  - eapply changes_only_weaken; [|apply writeSnapshot_changes].
    simpl. tauto.
  - eapply changes_only_weaken; [|apply appendDaily_changes].
    simpl. tauto.
Qed.

(** X6: a run over an agent can change two files only, the agent's
    ACTIVE_CONTEXT.md and today's day log in the agent's memory
    directory: every other file reads the same afterwards, whatever the
    outcome of the run, and the write permissions are untouched. *)
Theorem checkpoint_touches_two_files_only (cfg : Config.config)
    (agentId : string) (now : clock) (w : world) (q : path) :
  q <> activeContextFile_of HOME cfg agentId ->
  q <> dailyFile_of HOME cfg agentId now ->
  lookup_file q (snd (checkpoint cfg agentId now w)) = lookup_file q w
  /\ denied (snd (checkpoint cfg agentId now w)) = denied w
  /\ denied_dirs (snd (checkpoint cfg agentId now w)) = denied_dirs w.
Proof.
  intros Hs Hd.
  destruct (checkpointAgent_changes cfg agentId now w) as (H1 & H2 & H3).
  split; [|split; assumption].
  apply H1. intros p [<-|[<-|[]]].
  - destruct q as [qd qb]. simpl.
    destruct (String.eqb_spec qd (memoryDir_of HOME cfg agentId)) as [->|Hne];
      [|now left].
    right. intros ->. apply Hs. reflexivity.
  - destruct q as [qd qb]. simpl.
    destruct (String.eqb_spec qd (memoryDir_of HOME cfg agentId)) as [->|Hne];
      [|now left].
    right. intros ->. apply Hd. reflexivity.
Qed.

(** X7: in preview mode a run over an agent writes no file at all: every
    file reads the same afterwards (the memory directory may have been
    created, empty). *)
Theorem preview_run_writes_no_file (cfg : Config.config) (agentId : string)
    (now : clock) (w : world) :
  same_files w (snd (checkpoint_preview cfg agentId now w)).
Proof.
  assert (H : changes_only [] (checkpoint_preview cfg agentId now)).
  { unfold checkpointAgent. solve_effect. }
  destruct (H w) as (H1 & H2 & H3).
  split; [|split; assumption].
  intros p. apply H1. intros q [].
Qed.

Lemma agents_loop_changes (cfg : Config.config) (now : clock)
    (agents : list string) :
  forall n : nat,
    changes_only (flat_map (agent_files HOME cfg now) agents)
      (agents_loop parse_line fmt_time match_paths HOME CLAWDBOT_HOME
         SESSION_STALE_HOURS DRY_RUN VERBOSE cfg agents now n).
Proof.
  induction agents as [|a rest IH]; intros n.
  - apply changes_only_ret.
  - cbn [agents_loop flat_map]. apply changes_only_bind.
    + apply changes_only_try_catch.
      * eapply changes_only_weaken;
          [|apply checkpointAgent_changes].
        intros p Hp. apply in_or_app. now left.
      * intros e. solve_effect.
    + intros b. eapply changes_only_weaken; [|apply IH].
      intros p Hp. apply in_or_app. now right.
Qed.

Lemma outside_of_ne (ps : list path) (q : path) :
  (forall p, In p ps -> q <> p) -> outside ps q.
Proof.
  intros H p Hp. specialize (H p Hp).
  destruct q as [qd qb], p as [pd pb]. simpl.
  destruct (String.eqb_spec qd pd) as [->|Hne]; [|now left].
  right. intros ->. now apply H.
Qed.

Lemma main_changes (cfg : Config.config) (now : clock) :
  changes_only
    (flat_map (agent_files HOME cfg now) (map Config.id (Config.agents_list cfg)))
    (main parse_line fmt_time match_paths HOME CLAWDBOT_HOME
       SESSION_STALE_HOURS DRY_RUN VERBOSE (Val cfg) now).
Proof.
  unfold main. apply changes_only_bind; [solve_effect|]. intros _.
  destruct (map Config.id (Config.agents_list cfg)) as [|a rest] eqn:E.
  - solve_effect.
  - apply changes_only_bind; [apply agents_loop_changes|].
    intros n. solve_effect.
Qed.

(** X8: a batch always ends with a report.  When the configuration
    cannot be loaded the exit code is 1, nothing is counted and the file
    system is untouched.  Otherwise the exit code is 0 whatever happened
    to the individual agents, the success count is at most the number
    of configured agents, and the only files that can have changed are
    the ACTIVE_CONTEXT.md and today's day log of the configured
    agents. *)
Theorem batch_always_reports (loaded : outcome Config.config) (now : clock)
    (w : world) :
  exists (rep : report) (w' : world),
    main parse_line fmt_time match_paths HOME CLAWDBOT_HOME
      SESSION_STALE_HOURS DRY_RUN VERBOSE loaded now w = (Val rep, w')
    /\ match loaded with
       | Throw _ =>
           exit_code rep = 1 /\ checkpointed rep = 0%nat /\ dirs w' = dirs w
       | Val cfg =>
           exit_code rep = 0
           /\ (checkpointed rep <= total rep)%nat
           /\ total rep = length (Config.agents_list cfg)
           /\ forall q : path,
                (forall a, In a (Config.agents_list cfg) ->
                   q <> activeContextFile_of HOME cfg (Config.id a)
                   /\ q <> dailyFile_of HOME cfg (Config.id a) now) ->
                lookup_file q w' = lookup_file q w
       end.
Proof.
  destruct loaded as [cfg|msg].
  - pose proof (main_changes cfg now w) as (Hframe & _ & _).
    assert (Hout : forall q : path,
      (forall a, In a (Config.agents_list cfg) ->
         q <> activeContextFile_of HOME cfg (Config.id a)
         /\ q <> dailyFile_of HOME cfg (Config.id a) now) ->
      outside (flat_map (agent_files HOME cfg now)
                 (map Config.id (Config.agents_list cfg))) q).
    { intros q Hq. apply outside_of_ne. intros p Hp.
      apply in_flat_map in Hp as (i & Hi & Hp).
      apply in_map_iff in Hi as (a & <- & Ha).
      destruct (Hq a Ha) as [H1 H2].
      destruct Hp as [<-|[<-|[]]]; assumption. }
    revert Hframe. unfold main. rewrite bind_run.
    destruct (log_run ("Starting checkpoint run" +:+
                       (if DRY_RUN then " [DRY RUN]" else "")) w)
      as (w0 & E0 & F0).
    rewrite E0.
    destruct (map Config.id (Config.agents_list cfg)) as [|a rest] eqn:Eag.
    + rewrite bind_run.
      destruct (log_run "No agents found in config" w0) as (w1 & E1 & F1).
      rewrite E1. intros Hframe.
      exists {| checkpointed := 0; total := 0; exit_code := 0 |}, w1.
      split; [reflexivity|]. simpl.
      split; [reflexivity|]. split; [lia|].
      split; [|intros q Hq; apply (Hframe q (Hout q Hq))].
      destruct (Config.agents_list cfg); [reflexivity|discriminate].
    + rewrite bind_run.
      destruct (agents_loop_total parse_line fmt_time match_paths HOME
                  CLAWDBOT_HOME SESSION_STALE_HOURS DRY_RUN VERBOSE
                  cfg now (a :: rest) 0%nat w0) as (n & w1 & E1 & Hn).
      rewrite E1. rewrite bind_run.
      match goal with |- context [log ?l w1] =>
        destruct (log_run l w1) as (w2 & E2 & F2); rewrite E2 end.
      intros Hframe.
      assert (Hl : length (a :: rest) = length (Config.agents_list cfg))
        by (rewrite <- Eag; apply length_map).
      eexists _, w2. split; [reflexivity|]. cbn [exit_code checkpointed total].
      split; [reflexivity|]. split; [lia|].
      split; [exact Hl|intros q Hq; apply (Hframe q (Hout q Hq))].
  - unfold main. rewrite bind_run.
    destruct (log_run ("Starting checkpoint run" +:+
                       (if DRY_RUN then " [DRY RUN]" else "")) w)
      as (w0 & E0 & F0).
    rewrite E0. rewrite bind_run.
    destruct (log_run ("Failed to load config: " +:+ msg) w0)
      as (w1 & E1 & F1).
    rewrite E1.
    exists {| checkpointed := 0; total := 0; exit_code := 1 |}, w1.
    split; [reflexivity|]. simpl. repeat split.
    destruct F0 as (A & _), F1 as (B & _). congruence.
Qed.

End CheckpointMore.

(** ** The transcript reader and the message filter *)

Section ReaderFacts.
Import World Checkpoint.

Lemma slice0_length (n : nat) (s : string) :
  String.length (JS.slice0 n s) = Nat.min n (String.length s).
Proof.
  unfold JS.slice0. revert s. induction n as [|n IH]; intros [|c s]; simpl;
    try reflexivity.
  now rewrite IH.
Qed.

Lemma slice0_short (n : nat) (s : string) :
  (String.length s <= n)%nat -> JS.slice0 n s = s.
Proof.
  unfold JS.slice0. revert s. induction n as [|n IH]; intros [|c s] H; simpl in *;
    try reflexivity; try lia.
  f_equal. apply IH. lia.
Qed.

Lemma slice0_first (n : nat) (p s : string) :
  String.length p = 1%nat -> (0 < n)%nat ->
  JS.startsWith p (JS.slice0 n s) = JS.startsWith p s.
Proof.
  intros Hp Hn. destruct p as [|a [|b p]]; simpl in Hp; try lia.
  destruct n as [|n]; [lia|].
  unfold JS.startsWith, JS.slice0. destruct s as [|c s]; simpl; [reflexivity|].
  destruct (ascii_dec a c); [|reflexivity].
  now destruct (String.substring 0 n s), s.
Qed.

Lemma split_lines_nonempty (s : string) : JS.split_lines s <> [].
Proof.
  induction s as [|c s IH]; simpl; [discriminate|].
  destruct (Ascii.eqb c "010"); [discriminate|].
  destruct (JS.split_lines s); [contradiction|discriminate].
Qed.

Lemma lastn_length {A} (n : nat) (xs : list A) :
  length (JS.lastn n xs) = Nat.min n (length xs).
Proof. unfold JS.lastn. rewrite length_skipn. lia. Qed.

Lemma lastn_suffix {A} (n : nat) (xs : list A) :
  exists earlier, xs = earlier ++ JS.lastn n xs.
Proof.
  exists (firstn (length xs - n) xs). unfold JS.lastn.
  symmetry. apply firstn_skipn.
Qed.

Variable parse_line : string -> option entry.

Lemma extract_line_usable (line : string) (m : message) :
  extract_line parse_line line = Some m ->
  (m_role m = "user" \/ m_role m = "assistant")
  /\ (5 <= String.length (m_text m) <= 1000)%nat
  /\ JS.startsWith "/" (m_text m) = false
  /\ m_text m <> "HEARTBEAT_OK" /\ m_text m <> "NO_REPLY".
Proof.
  unfold extract_line.
  destruct (parse_line line) as [e|]; [|discriminate].
  destruct (etype e) as [t|]; [|discriminate].
  destruct (emessage e) as [msg|]; [|discriminate].
  destruct (negb (String.eqb t "message")); [discriminate|].
  destruct (role msg) as [r|]; [|discriminate].
  destruct (String.eqb_spec r "user") as [Hu|Hu];
    destruct (String.eqb_spec r "assistant") as [Ha|Ha]; simpl;
    try discriminate.
  all: set (text := message_text (mcontent msg)).
  all: destruct (negb (JS.truthy text)); simpl; [discriminate|].
  all: destruct (Nat.ltb_spec (String.length text) 5) as [|Hlen];
    [discriminate|].
  all: destruct (String.eqb_spec text "HEARTBEAT_OK") as [|Hh];
    [discriminate|]; simpl.
  all: destruct (String.eqb_spec text "NO_REPLY") as [|Hn]; [discriminate|].
  all: destruct (JS.startsWith "/" text) eqn:Hs; [discriminate|].
  all: intros E; inversion E; subst m; clear E; simpl.
  all: split; [auto|].
  all: split; [rewrite slice0_length; lia|].
  all: split; [rewrite slice0_first by (simpl; lia); exact Hs|].
  all: assert (Hcut : forall lit : string,
         (String.length lit < 1000)%nat -> text <> lit ->
         JS.slice0 1000 text <> lit).
  all: try (intros lit Hlit Hne Heq;
            destruct (Nat.le_gt_cases (String.length text) 1000) as [Hle|Hgt];
            [rewrite (slice0_short 1000 text Hle) in Heq; contradiction
            |pose proof (slice0_length 1000 text) as Hl;
             rewrite Heq in Hl; lia]).
  all: split; apply Hcut; solve [simpl; lia | assumption].
Qed.

(** X9: every message kept by the filter is a user or assistant turn
    whose text has between 5 and 1000 characters, does not start with a
    slash and is neither of the two control tokens; and no more messages
    are kept than lines were read. *)
Theorem extracted_messages_are_usable (lines : list string) :
  Forall (fun m =>
            (m_role m = "user" \/ m_role m = "assistant")
            /\ (5 <= String.length (m_text m) <= 1000)%nat
            /\ JS.startsWith "/" (m_text m) = false
            /\ m_text m <> "HEARTBEAT_OK" /\ m_text m <> "NO_REPLY")
         (extractMessages parse_line lines)
  /\ (length (extractMessages parse_line lines) <= length lines)%nat.
Proof.
  unfold extractMessages. induction lines as [|l ls [IH1 IH2]]; simpl.
  - split; [constructor|lia].
  - destruct (extract_line parse_line l) as [m|] eqn:E; simpl.
    + split; [|apply le_n_S; exact IH2]. constructor; [|exact IH1].
      apply (extract_line_usable l m E).
    + split; [exact IH1|apply le_S; exact IH2].
Qed.

(** X10: reading the tail of a transcript never changes the world; a
    missing file raises, and for an existing file and a positive count
    the result is the end of the file's lines (after trimming), at least
    one line and at most the count asked for. *)
Theorem read_last_lines_is_bounded_tail (p : path) (maxLines : nat) (w : world) :
  (0 < maxLines)%nat ->
  match lookup_file p w with
  | Some f =>
      exists lines earlier : list string,
        readLastLines p maxLines w = (Val lines, w)
        /\ JS.split_lines (JS.trim (content f)) = earlier ++ lines
        /\ (1 <= length lines <= maxLines)%nat
  | None => readLastLines p maxLines w = (Throw "ENOENT", w)
  end.
Proof.
  intros Hpos. unfold readLastLines, bind, readFile.
  destruct (lookup_file p w) as [f|]; [|reflexivity].
  destruct (lastn_suffix maxLines (JS.split_lines (JS.trim (content f))))
    as (earlier & He).
  eexists _, earlier. split; [reflexivity|]. split; [exact He|].
  rewrite lastn_length.
  pose proof (split_lines_nonempty (JS.trim (content f))) as Hne.
  destruct (JS.split_lines (JS.trim (content f))); [contradiction|].
  simpl. lia.
Qed.

End ReaderFacts.

(** ** Choosing the active session *)

Section ActiveSession.
Import World Checkpoint.
Variable CLAWDBOT_HOME : string.
Variable SESSION_STALE_HOURS : JS.num.
Variable VERBOSE : bool.

Lemma newest_loop_spec (d : string) (entries : gmap string file) (w : world)
    (fs : list string) :
  dirs w !! d = Some entries ->
  (forall name, In name fs -> is_Some (entries !! name)) ->
  forall (newest : option session) (mt : Z),
    (forall n, newest = Some n -> s_mtimeMs n = mt) ->
    exists r : option session,
      newest_loop d fs newest mt w = (Val r, w)
      /\ match r with
         | None =>
             newest = None
             /\ forall name f, In name fs -> entries !! name = Some f ->
                               mtimeMs f <= mt
         | Some n =>
             mt <= s_mtimeMs n
             /\ (forall name f, In name fs -> entries !! name = Some f ->
                                mtimeMs f <= s_mtimeMs n)
             /\ (newest = Some n
                 \/ exists name f,
                      In name fs /\ spath n = {| dir := d; base := name |}
                      /\ entries !! name = Some f
                      /\ s_mtimeMs n = mtimeMs f /\ s_size n = size f)
         end.
Proof.
  intros Hd. induction fs as [|f0 rest IH]; intros Hin newest mt Hpre.
  - exists newest. split; [reflexivity|].
    destruct newest as [n|].
    + rewrite (Hpre n eq_refl). split; [lia|]. split; [intros ? ? []|now left].
    + split; [reflexivity|intros ? ? []].
  - destruct (Hin f0 (or_introl eq_refl)) as [x Hx].
    assert (Hstat : try_catch (bind (stat {| dir := d; base := f0 |})
                                 (fun x => ret (Some x)))
                      (fun _ => ret None) w = (Val (Some x), w)).
    { unfold try_catch, bind, stat, lookup_file. simpl. rewrite Hd. simpl.
      now rewrite Hx. }
    cbn [newest_loop]. rewrite bind_run, Hstat.
    assert (Hin' : forall name, In name rest -> is_Some (entries !! name))
      by (intros name H; apply Hin; now right).
    destruct (Z.ltb_spec mt (mtimeMs x)) as [Hlt|Hge].
    + destruct (IH Hin'
                  (Some {| spath := {| dir := d; base := f0 |};
                           s_mtimeMs := mtimeMs x; s_size := size x |})
                  (mtimeMs x)) as (r & Er & Hr).
      { intros n E. inversion E. reflexivity. }
      exists r. split; [exact Er|].
      destruct r as [n|].
      * destruct Hr as (H1 & H2 & H3).
        split; [lia|]. split.
        -- intros name f [<-|Hn] Hf.
           ++ rewrite Hx in Hf. inversion Hf; subst. exact H1.
           ++ apply (H2 name f Hn Hf).
        -- right. destruct H3 as [E|(name & f & Hn & Hrest)].
           ++ inversion E; subst n. exists f0, x. simpl. auto.
           ++ exists name, f. split; [now right|exact Hrest].
      * destruct Hr as [E _]. discriminate.
    + destruct (IH Hin' newest mt Hpre) as (r & Er & Hr).
      exists r. split; [exact Er|].
      destruct r as [n|].
      * destruct Hr as (H1 & H2 & H3).
        split; [exact H1|]. split.
        -- intros name f [<-|Hn] Hf.
           ++ rewrite Hx in Hf. inversion Hf; subst. lia.
           ++ apply (H2 name f Hn Hf).
        -- destruct H3 as [E|(name & f & Hn & Hrest)]; [now left|].
           right. exists name, f. split; [now right|exact Hrest].
      * destruct Hr as [E H2]. split; [exact E|].
        intros name f [<-|Hn] Hf.
        -- rewrite Hx in Hf. inversion Hf; subst. exact Hge.
        -- apply (H2 name f Hn Hf).
Qed.

(** X11: looking for the active session never raises and never writes.
    Without a sessions directory there is none.  A session that is
    returned is a session file of the agent's sessions directory (a
    name ending in .jsonl, without .deleted or .lock), no session file
    of the directory was modified later, it was modified within the
    stale window, and it has at least 1024 bytes. *)
Theorem active_session_is_newest_fresh_and_large (agentId : string)
    (now : clock) (w : world) :
  let sessionsDir :=
    path_join (path_join (path_join CLAWDBOT_HOME "agents") agentId)
              "sessions" in
  exists (found : option session) (w' : world),
    findActiveSession CLAWDBOT_HOME SESSION_STALE_HOURS VERBOSE agentId now w
      = (Val found, w')
    /\ same_fs w w'
    /\ (dirs w !! sessionsDir = None -> found = None)
    /\ forall s : session, found = Some s ->
         exists (entries : gmap string file) (f : file),
           dirs w !! sessionsDir = Some entries
           /\ dir (spath s) = sessionsDir
           /\ entries !! base (spath s) = Some f
           /\ is_session_file (base (spath s)) = true
           /\ s_mtimeMs s = mtimeMs f /\ s_size s = size f
           /\ now_ms now - mtimeMs f <= STALENESS_THRESHOLD_MS SESSION_STALE_HOURS
           /\ MIN_SESSION_BYTES <= size f
           /\ forall (name : string) (g : file),
                entries !! name = Some g -> is_session_file name = true ->
                mtimeMs g <= mtimeMs f.
Proof.
  intros sessionsDir. unfold findActiveSession. fold sessionsDir.
  rewrite bind_run. unfold try_catch at 1. rewrite bind_run. unfold readdir.
  destruct (dirs w !! sessionsDir) as [entries|] eqn:Hd.
  2:{ exists None, w. split; [reflexivity|]. split; [apply same_fs_refl|].
      split; [reflexivity|discriminate]. }
  unfold ret at 1.
  set (names := List.filter is_session_file (fst <$> map_to_list entries)).
  assert (Hnames : forall name, In name names ->
                     is_session_file name = true /\ is_Some (entries !! name)).
  { intros name H. apply filter_In in H as [H1 H2]. split; [exact H2|].
    apply in_map_iff in H1 as ([n f] & <- & Hnf).
    exists f. apply elem_of_map_to_list, list_elem_of_In. exact Hnf. }
  assert (Hall : forall name g, entries !! name = Some g ->
                   is_session_file name = true -> In name names).
  { intros name g Hg Hs. apply filter_In. split; [|exact Hs].
    apply in_map_iff. exists (name, g). split; [reflexivity|].
    apply list_elem_of_In, elem_of_map_to_list. exact Hg. }
  destruct names as [|n0 ns] eqn:En.
  { exists None, w. split; [reflexivity|]. split; [apply same_fs_refl|].
    split; [discriminate|discriminate]. }
  rewrite <- En in *. clear En n0 ns.
  rewrite bind_run.
  destruct (newest_loop_spec sessionsDir entries w names Hd
              (fun name H => proj2 (Hnames name H)) None 0)
    as (r & Er & Hr); [discriminate|].
  rewrite Er.
  destruct r as [n|].
  2:{ exists None, w. split; [reflexivity|]. split; [apply same_fs_refl|].
      split; [discriminate|discriminate]. }
  destruct Hr as (_ & Hmax & [E|(name & f & Hin & Hp & Hf & Hm & Hs)]);
    [discriminate|].
  destruct (Z.ltb_spec (STALENESS_THRESHOLD_MS SESSION_STALE_HOURS)
              (now_ms now - s_mtimeMs n)) as [Hstale|Hfresh].
  { rewrite bind_run.
    match goal with |- context [verbose _ ?l w] =>
      destruct (verbose_run VERBOSE l w) as (w1 & Ev & F1); rewrite Ev end.
    exists None, w1. split; [reflexivity|]. split; [exact F1|].
    split; [discriminate|discriminate]. }
  destruct (Z.ltb_spec (s_size n) MIN_SESSION_BYTES) as [Hsmall|Hbig].
  { rewrite bind_run.
    match goal with |- context [verbose _ ?l w] =>
      destruct (verbose_run VERBOSE l w) as (w1 & Ev & F1); rewrite Ev end.
    exists None, w1. split; [reflexivity|]. split; [exact F1|].
    split; [discriminate|discriminate]. }
  exists (Some n), w. split; [reflexivity|]. split; [apply same_fs_refl|].
  split; [discriminate|].
  intros s Es. inversion Es; subst s. clear Es.
  exists entries, f. rewrite Hp. simpl.
  split; [reflexivity|]. split; [reflexivity|]. split; [exact Hf|].
  split; [apply (Hnames name Hin)|].
  split; [exact Hm|]. split; [exact Hs|].
  split; [rewrite <- Hm; exact Hfresh|].
  split; [rewrite <- Hs; exact Hbig|].
  intros name' g Hg Hsf. rewrite <- Hm.
  apply (Hmax name' g (Hall name' g Hg Hsf) Hg).
Qed.

End ActiveSession.

(** ** What a successful run persists *)

Section Persisted.
Import World Checkpoint Effects.
Variable parse_line : string -> option entry.
Variable fmt_time : string -> string.
Variable match_paths : string -> list string.
Variables HOME CLAWDBOT_HOME : string.
Variable SESSION_STALE_HOURS : JS.num.
Variable VERBOSE : bool.

Local Abbreviation checkpoint_dry dry :=
  (checkpointAgent parse_line fmt_time match_paths HOME CLAWDBOT_HOME
     SESSION_STALE_HOURS dry VERBOSE).





End Persisted.

(** ** Agent identifiers and the two workspace resolvers *)

Section IdentifierFacts.
Import SessionKey.

Lemma lower_ascii_idem (c : ascii) :
  JS.lower_ascii (JS.lower_ascii c) = JS.lower_ascii c.
Proof. destruct c as [[] [] [] [] [] [] [] []]; vm_compute; reflexivity. Qed.

Lemma toLowerCase_idem (s : string) :
  JS.toLowerCase (JS.toLowerCase s) = JS.toLowerCase s.
Proof.
  induction s as [|c s IH]; simpl; [reflexivity|].
  now rewrite lower_ascii_idem, IH.
Qed.

Lemma toLowerCase_nonempty (s : string) :
  s <> EmptyString -> JS.toLowerCase s <> EmptyString.
Proof. destruct s; [contradiction|discriminate]. Qed.

Lemma split_colon_head (a r : string) :
  JS.includes ":" a = false ->
  split_colon (a +:+ String ":" r) = a :: split_colon r.
Proof.
  induction a as [|c a IH]; intros H.
  - reflexivity.
  - rewrite append_cons. cbn [JS.includes] in H.
    apply orb_false_elim in H as [Hc Ha].
    cbn [split_colon].
    destruct (Ascii.eqb_spec c ":") as [->|Hne].
    + unfold JS.startsWith in Hc. simpl in Hc. now destruct a.
    + rewrite (IH Ha). reflexivity.
Qed.

(** X14: the agent read off a session key is never empty and is always
    in lower case; it is "main" for a missing or empty key; and for a key
    agent:<id>:<rest> with a non-empty <id> it is <id> in lower case. *)
Theorem session_key_agent_is_lowercase (sessionKey : option string) :
  resolveAgentIdFromSessionKey sessionKey <> EmptyString
  /\ JS.toLowerCase (resolveAgentIdFromSessionKey sessionKey)
     = resolveAgentIdFromSessionKey sessionKey
  /\ (sessionKey = None \/ sessionKey = Some EmptyString ->
      resolveAgentIdFromSessionKey sessionKey = "main")
  /\ (forall id rest : string,
        id <> EmptyString -> JS.includes ":" id = false ->
        sessionKey = Some ("agent:" +:+ id +:+ String ":" rest) ->
        resolveAgentIdFromSessionKey sessionKey = JS.toLowerCase id).
Proof.
  split; [|split; [|split]].
  - unfold resolveAgentIdFromSessionKey.
    destruct sessionKey as [k|]; [|discriminate].
    destruct (negb (JS.truthy k)); [discriminate|].
    destruct (split_colon k) as [|p0 [|p1 ps]]; try discriminate.
    destruct (String.eqb p0 "agent"); simpl; [|discriminate].
    destruct (JS.truthy p1) eqn:Ht; [|discriminate].
    apply toLowerCase_nonempty, truthy_true_iff, Ht.
  - unfold resolveAgentIdFromSessionKey.
    destruct sessionKey as [k|]; [|reflexivity].
    destruct (negb (JS.truthy k)); [reflexivity|].
    destruct (split_colon k) as [|p0 [|p1 ps]]; try reflexivity.
    destruct (String.eqb p0 "agent" && JS.truthy p1); [|reflexivity].
    apply toLowerCase_idem.
  - intros [->| ->]; reflexivity.
  - intros id rest Hid Hc ->. unfold resolveAgentIdFromSessionKey.
    change ("agent:" +:+ id +:+ String ":" rest)
      with ("agent" +:+ String ":" (id +:+ String ":" rest)).
    rewrite split_colon_head by reflexivity.
    rewrite (split_colon_head id rest Hc).
    apply truthy_true_iff in Hid. rewrite Hid. reflexivity.
Qed.

Variable HOME : string.

(** X15: on an identifier that is already in canonical form (not empty,
    trimmed, lower case) the resolver of the hooks and the resolver of
    the checkpoint script give the same workspace, for every
    configuration: what the checkpoint script writes is where the hooks
    look. *)
Theorem resolvers_agree_on_canonical_ids (cfg : Config.config)
    (agentId : string) :
  Hooks.canonical_id agentId = agentId ->
  Hooks.resolveAgentWorkspaceDir HOME cfg agentId
  = Checkpoint.resolveWorkspace HOME cfg agentId.
Proof.
  intros Hc. unfold Hooks.resolveAgentWorkspaceDir, Checkpoint.resolveWorkspace.
  rewrite Hc.
  destruct (Config.found_workspace cfg agentId); [reflexivity|].
  destruct (String.eqb agentId "main"); simpl; [|reflexivity].
  now destruct (JS.truthy_opt (Config.defaults_workspace cfg)).
Qed.

End IdentifierFacts.

Lemma session_key_agent_is_lowercase_witness :
  SessionKey.resolveAgentIdFromSessionKey
    (Some "agent:Desmond:slack:dm:U123") = "desmond".
Proof.
  destruct (session_key_agent_is_lowercase
              (Some "agent:Desmond:slack:dm:U123")) as (_ & _ & _ & H).
  apply (H "Desmond" "slack:dm:U123").
  - discriminate.
  - reflexivity.
  - reflexivity.
Defined.

Lemma resolvers_agree_on_canonical_ids_witness :
  Hooks.resolveAgentWorkspaceDir "/home/u" cfg_defaults_only "desmond"
  = Checkpoint.resolveWorkspace "/home/u" cfg_defaults_only "desmond".
Proof.
  apply (resolvers_agree_on_canonical_ids "/home/u" cfg_defaults_only "desmond").
  reflexivity.
Defined.

(** ** The disclosure planner: when it leaves the bootstrap list alone *)

Section InjectMore.
Import World Hooks Effects.

Lemma memoryIndexInject_nothrow (ev : event) : nothrow (memoryIndexInject ev).
Proof. unfold memoryIndexInject. solve_effect. Qed.

(** What the handler may return: the list as it came, or the list with
    the index unit and at most the snapshot unit appended. *)
Lemma memoryIndexInject_ensures (ev : event) :
  ensures (memoryIndexInject ev)
    (fun o =>
       o = ev_context ev ≫= bootstrapFiles
       \/ exists (sink : list bootstrap_file) (total : Z)
                 (indexContent : string) (snapshot : option string),
            ev_context ev ≫= bootstrapFiles = Some sink
            /\ o = Some (sink ++ index_unit total indexContent
                               :: snapshot_units snapshot)).
Proof.
  unfold memoryIndexInject.
  repeat match goal with
  | |- ensures (ret _) _ => apply ensures_ret
  | |- ensures (bind _ _) _ => apply ensures_bind; intros ?
  | |- ensures (if ?b then _ else _) _ => destruct b
  | |- ensures (match ?x with _ => _ end) _ => destruct x eqn:?
  end; try (left; reflexivity).
  right. do 4 eexists. simpl.
  match goal with H : bootstrapFiles _ = Some _ |- _ => rewrite H end.
  split; reflexivity.
Qed.

Lemma snapshot_units_length (s : option string) :
  (length (snapshot_units s) <= 1)%nat.
Proof.
  destruct s as [c|]; simpl; [|lia]. destruct (JS.truthy c); simpl; lia.
Qed.

(** X16: whatever the event and whatever the state of the disk, the
    handler returns without raising and leaves every file as it was; the
    bootstrap list is either returned as it came or extended at its end
    by one or two units, the first of them named MEMORY_INDEX.md: no
    unit is removed, reordered or rewritten. *)
Theorem disclosure_hook_is_safe (ev : event) (w : world) :
  exists (o : option (list bootstrap_file)) (w' : world),
    memoryIndexInject ev w = (Val o, w')
    /\ same_fs w w'
    /\ (o = ev_context ev ≫= bootstrapFiles
        \/ exists (sink extra : list bootstrap_file) (u : bootstrap_file),
             ev_context ev ≫= bootstrapFiles = Some sink
             /\ o = Some (sink ++ u :: extra)
             /\ bf_name u = "MEMORY_INDEX.md"
             /\ (length extra <= 1)%nat).
Proof.
  destruct (memoryIndexInject_nothrow ev w) as (o & w' & E).
  exists o, w'. split; [exact E|]. split.
  - pose proof (memoryIndexInject_readonly ev w) as H. now rewrite E in H.
  - pose proof (memoryIndexInject_ensures ev w) as H. rewrite E in H.
    simpl in H. destruct H as [H|(sink & t & ic & sn & Hs & Ho)].
    + now left.
    + right. exists sink, (snapshot_units sn), (index_unit t ic).
      repeat split; [exact Hs|exact Ho|apply snapshot_units_length].
Qed.

(** X17: a corpus below the threshold is left alone.  For a bootstrap
    event whose memory directory holds an index but whose documents add
    up to less than the threshold, the handler returns the bootstrap
    list unchanged and touches no file. *)
Theorem small_corpus_is_left_alone (ev : event) (ctx : context)
    (wd : string) (sink : list bootstrap_file) (w : world)
    (entries : gmap string file) (idx : file) :
  ev_type ev = "agent" -> ev_action ev = "bootstrap" ->
  ev_context ev = Some ctx ->
  workspaceDir ctx = Some wd -> wd <> EmptyString ->
  bootstrapFiles ctx = Some sink ->
  dirs w !! path_join wd "memory" = Some entries ->
  entries !! "INDEX.md" = Some idx ->
  aggregate_size entries < MEMORY_THRESHOLD_BYTES ->
  exists w' : world,
    memoryIndexInject ev w = (Val (Some sink), w') /\ same_fs w w'.
Proof.
  intros Ht Ha Hc Hwd Hne Hsink Hd Hidx Hlt.
  unfold memoryIndexInject.
  rewrite Ht, Ha, Hc, Hwd, Hsink. simpl.
  apply truthy_true_iff in Hne. rewrite Hne. simpl.
  unfold bind at 1. unfold try_catch at 1. unfold bind at 1.
  unfold access, lookup_file. simpl. rewrite Hd. simpl. rewrite Hidx. simpl.
  unfold bind at 1. unfold try_catch at 1. unfold bind at 1.
  unfold readdir. rewrite Hd.
  unfold bind at 1. rewrite (total_loop_aggregate _ entries w Hd). simpl.
  destruct (Z.ltb_spec (aggregate_size entries) MEMORY_THRESHOLD_BYTES) as [_|Hge];
    [|lia].
  unfold bind, print, ret. simpl. rewrite Hsink.
  eexists. split; [reflexivity|]. now repeat split.
Qed.

(** X18: without an index nothing is injected, however large the
    corpus.  If the file memory/INDEX.md of the event's workspace does
    not exist, the handler returns the bootstrap list as it came. *)
Theorem no_index_no_injection (ev : event) (w : world) :
  (forall ctx wd,
      ev_context ev = Some ctx -> workspaceDir ctx = Some wd ->
      lookup_file {| dir := path_join wd "memory"; base := "INDEX.md" |} w
      = None) ->
  fst (memoryIndexInject ev w) = Val (ev_context ev ≫= bootstrapFiles).
Proof.
  intros Hno. unfold memoryIndexInject.
  destruct (negb (ev_type ev =? "agent")%string
            || negb (ev_action ev =? "bootstrap")%string); [reflexivity|].
  destruct (ev_context ev) as [ctx|] eqn:Hc; [|reflexivity].
  destruct (workspaceDir ctx) as [wd|] eqn:Hwd; [|reflexivity].
  destruct (bootstrapFiles ctx) as [sink|] eqn:Hs; [|reflexivity].
  destruct (negb (JS.truthy wd)); [reflexivity|].
  specialize (Hno ctx wd eq_refl Hwd).
  unfold bind at 1. unfold try_catch at 1. unfold bind at 1.
  unfold access. rewrite Hno. simpl. rewrite Hs. reflexivity.
Qed.

End InjectMore.

Lemma small_corpus_is_left_alone_witness :
  exists w' : World.world,
    Hooks.memoryIndexInject bootstrap_event world_small = (World.Val (Some []), w')
    /\ World.same_fs world_small w'.
Proof.
  apply (small_corpus_is_left_alone bootstrap_event
           {| Hooks.workspaceDir := Some "/ws";
              Hooks.bootstrapFiles := Some [] |}
           "/ws" [] world_small memory_small (mk_file "# Memory Index")).
  - reflexivity.
  - reflexivity.
  - reflexivity.
  - reflexivity.
  - discriminate.
  - reflexivity.
  - reflexivity.
  - reflexivity.
  - vm_compute. reflexivity.
Defined.

Lemma no_index_no_injection_witness :
  fst (Hooks.memoryIndexInject bootstrap_event world_no_index) = World.Val (Some []).
Proof.
  apply (no_index_no_injection bootstrap_event world_no_index).
  intros ctx wd Hc Hwd. injection Hc as <-. injection Hwd as <-.
  vm_compute. reflexivity.
Defined.

(** ** The index builder: what the rendered index lists, and in which order *)

Section IndexMore.
Import IndexBuilder.
Local Open Scope nat_scope.

(** The observation text of a document does not depend on the running
    totals. *)
Lemma observations_text (d : doc) (t : totals) :
  snd (count_observations d t) = snd (count_observations d totals0).
Proof. reflexivity. Qed.

Lemma scan_rows (corpus : list doc) :
  forall b : build,
    rows (fold_left step corpus b) =
    rows b ++ map (fun d => (categorize (fname d),
                             row d (snd (count_observations d totals0))))
                  (List.filter processed corpus).
Proof.
  induction corpus as [|d ds IH]; intros b; cbn [fold_left List.filter map].
  - now rewrite app_nil_r.
  - rewrite IH. unfold step at 1. destruct (processed d).
    + unfold count_observations at 1. cbn [rows map]. rewrite <- app_assoc.
      reflexivity.
    + reflexivity.
Qed.

Lemma scan_files_size (corpus : list doc) :
  forall b : build,
    TOTAL_FILES (acc (fold_left step corpus b)) =
      TOTAL_FILES (acc b) + length (List.filter processed corpus)
    /\ TOTAL_SIZE (acc (fold_left step corpus b)) =
       (TOTAL_SIZE (acc b) +
        fold_right N.add 0%N
          (map (fun d => fsize_of (body d)) (List.filter processed corpus)))%N.
Proof.
  induction corpus as [|d ds IH]; intros b; cbn [fold_left List.filter].
  - cbn. split; [lia|]. now rewrite N.add_0_r.
  - destruct (IH (step b d)) as [H1 H2]. rewrite H1, H2. clear IH H1 H2.
    unfold step. destruct (processed d).
    + unfold count_observations. cbn [acc TOTAL_FILES TOTAL_SIZE length map fold_right].
      split; lia.
    + split; reflexivity.
Qed.

(** X19: the header of the rendered index counts exactly the documents
    processed (names ending in .md, not hidden, INDEX.md left out) and
    adds up exactly their byte sizes; its second line prints these two
    numbers, and there is one table row per processed document. *)
Theorem index_header_counts_files_and_bytes (GENERATED : string)
    (corpus : list doc) :
  let docs := List.filter processed corpus in
  let bytes := fold_right N.add 0%N (map (fun d => fsize_of (body d)) docs) in
  TOTAL_FILES (acc (scan corpus)) = length docs
  /\ TOTAL_SIZE (acc (scan corpus)) = bytes
  /\ length (rows (scan corpus)) = length docs
  /\ nth_error (generate GENERATED corpus) 1 =
     Some ("> **Generated**: " +:+ GENERATED +:+ " | **Files**: " +:+
           JS.string_of_nat (length docs) +:+ " | **Size**: " +:+
           format_size bytes +:+ " | **~Tokens**: " +:+
           string_of_N (estimate_tokens bytes)).
Proof.
  intros docs bytes.
  destruct (scan_files_size corpus {| acc := totals0; rows := [] |}) as [H1 H2].
  fold (scan corpus) in H1, H2. fold docs in H1. fold docs bytes in H2.
  cbn [acc totals0 TOTAL_FILES TOTAL_SIZE] in H1, H2.
  rewrite N.add_0_l in H2. rewrite Nat.add_0_l in H1.
  split; [exact H1|]. split; [exact H2|]. split.
  - unfold scan. rewrite scan_rows. cbn [rows app]. now rewrite length_map.
  - unfold generate, header. cbn [app nth_error]. now rewrite H1, H2.
Qed.

Lemma line_ge_total (a b : string) : line_ge a b = false -> line_ge b a = true.
Proof.
  unfold line_ge.
  rewrite (String.compare_antisym (sort_key a) (sort_key b)).
  rewrite (String.compare_antisym a b).
  destruct (String.compare (sort_key b) (sort_key a)); simpl; try congruence.
  destruct (String.compare b a); simpl; congruence.
Qed.

Lemma insert_desc_perm (x : string) (l : list string) :
  Permutation (insert_desc x l) (x :: l).
Proof.
  induction l as [|y r IH]; cbn [insert_desc]; [reflexivity|].
  destruct (line_ge x y); [reflexivity|].
  rewrite IH. apply perm_swap.
Qed.

Lemma sort_rows_perm (l : list string) : Permutation (sort_rows l) l.
Proof.
  induction l as [|x l IH]; cbn [sort_rows fold_right]; [reflexivity|].
  fold (sort_rows l). rewrite insert_desc_perm. now constructor.
Qed.

Lemma insert_desc_sorted (x : string) (l : list string) :
  Sorted (fun a b => line_ge a b = true) l ->
  Sorted (fun a b => line_ge a b = true) (insert_desc x l).
Proof.
  induction l as [|y r IH]; intros Hs; cbn [insert_desc].
  - repeat constructor.
  - destruct (line_ge x y) eqn:E.
    + constructor; [exact Hs|]. constructor. exact E.
    + apply Sorted_inv in Hs as [Hr Hhd]. constructor; [apply IH, Hr|].
      destruct r as [|z r']; cbn [insert_desc].
      * constructor. apply line_ge_total, E.
      * destruct (line_ge x z); constructor.
        -- apply line_ge_total, E.
        -- now apply HdRel_inv in Hhd.
Qed.

(** X20: within a section the rows come out in descending order of the
    text that starts at the sixth bar-separated field, the whole line
    deciding between equal keys; sorting neither drops nor repeats a
    row. *)
Theorem section_rows_are_sorted_descending (file : list string) :
  Sorted (fun a b => line_ge a b = true) (sort_rows file)
  /\ Permutation (sort_rows file) file.
Proof.
  split; [|apply sort_rows_perm].
  induction file as [|x l IH]; cbn [sort_rows fold_right]; [constructor|].
  apply insert_desc_sorted, IH.
Qed.

Lemma category_eqb_eq (a b : category) : category_eqb a b = true <-> a = b.
Proof. destruct a, b; simpl; split; congruence. Qed.

Lemma in_write_category (label desc x : string) (file : list string) :
  In x file -> In x (write_category label desc file).
Proof.
  intros H. unfold write_category. destruct file as [|y r]; [contradiction|].
  rewrite !in_app_iff. do 4 right.
  apply (Permutation_in x (Permutation_sym (sort_rows_perm (y :: r)))), H.
Qed.

(** X21: every processed document is listed: its row (name, title,
    size, estimated tokens, observation counts, modification date) is a
    line of the rendered index. *)
Theorem every_processed_document_is_listed (GENERATED : string)
    (corpus : list doc) (d : doc) :
  In d corpus -> processed d = true ->
  In (row d (snd (count_observations d totals0))) (generate GENERATED corpus).
Proof.
  intros Hin Hp.
  assert (Hrow : In (row d (snd (count_observations d totals0)))
                    (rows_of (categorize (fname d)) (scan corpus))).
  { unfold rows_of, scan. rewrite scan_rows. cbn [rows app].
    apply in_map_iff.
    exists (categorize (fname d), row d (snd (count_observations d totals0))).
    split; [reflexivity|]. apply filter_In. split.
    - apply in_map_iff. exists d. split; [reflexivity|].
      apply filter_In. now split.
    - cbn [fst]. now apply category_eqb_eq. }
  unfold generate. rewrite !in_app_iff.
  destruct (categorize (fname d));
    [ do 1 right; left | do 2 right; left | do 5 right; left
    | do 7 right; left | do 4 right; left | do 3 right; left
    | do 6 right; left | do 8 right ];
    apply in_write_category, Hrow.
Qed.

Lemma filter_complement_perm {A} (f : A -> bool) (l : list A) :
  Permutation (List.filter f l ++ List.filter (fun x => negb (f x)) l) l.
Proof.
  induction l as [|x l IH]; cbn [List.filter]; [reflexivity|].
  destruct (f x); cbn [negb app].
  - now constructor.
  - rewrite <- Permutation_middle. now constructor.
Qed.

Lemma filter_other_category (c c' : category) (l : list (category * string)) :
  c' <> c ->
  List.filter (fun r => category_eqb (fst r) c')
    (List.filter (fun r => negb (category_eqb (fst r) c)) l)
  = List.filter (fun r => category_eqb (fst r) c') l.
Proof.
  intros Hne. induction l as [|[k x] l IH]; cbn [List.filter fst]; [reflexivity|].
  destruct (category_eqb k c) eqn:E1; cbn [negb List.filter fst].
  - apply category_eqb_eq in E1. subst k.
    destruct (category_eqb c c') eqn:E2.
    + apply category_eqb_eq in E2. congruence.
    + exact IH.
  - now rewrite IH.
Qed.

Lemma sections_partition (cs : list category) :
  List.NoDup cs ->
  forall l : list (category * string),
    (forall r, In r l -> In (fst r) cs) ->
    Permutation
      (flat_map (fun c => map snd (List.filter (fun r => category_eqb (fst r) c) l))
                cs)
      (map snd l).
Proof.
  induction 1 as [|c cs Hc Hnd IH]; intros l Hall.
  - destruct l as [|r l]; [reflexivity|]. destruct (Hall r (or_introl eq_refl)).
  - cbn [flat_map].
    rewrite <- (Permutation_map snd
                  (filter_complement_perm (fun r => category_eqb (fst r) c) l)).
    rewrite map_app. apply Permutation_app_head.
    rewrite <- (IH (List.filter (fun r => negb (category_eqb (fst r) c)) l)).
    + rewrite !flat_map_concat_map.
      erewrite map_ext_in; [reflexivity|].
      intros c' Hc'. cbn beta. rewrite filter_other_category; [reflexivity|].
      intros ->. contradiction.
    + intros r Hr. apply filter_In in Hr as [Hr Hk].
      destruct (Hall r Hr) as [Heq|Hin]; [|exact Hin].
      subst c. destruct r as [k x]. cbn [fst] in Hk.
      assert (category_eqb k k = true) by now apply category_eqb_eq.
      rewrite H in Hk. discriminate.
Qed.

(** X22: the eight sections partition the rows: taken together, in the
    order in which they are written, the sorted rows of the sections are
    exactly the rows of the processed documents, each once; no document
    is listed in two sections and none is lost between them. *)
Theorem sections_list_each_document_once (corpus : list doc) :
  Permutation
    (flat_map (fun c => sort_rows (rows_of c (scan corpus)))
       [Core; Uqual; Plan; Config; Research; Project; Session; Other])
    (map (fun d => row d (snd (count_observations d totals0)))
         (List.filter processed corpus)).
Proof.
  assert (Hrows : map snd (rows (scan corpus))
                  = map (fun d => row d (snd (count_observations d totals0)))
                        (List.filter processed corpus)).
  { unfold scan. rewrite scan_rows. cbn [rows app]. rewrite map_map.
    reflexivity. }
  rewrite <- Hrows.
  rewrite <- (sections_partition
                [Core; Uqual; Plan; Config; Research; Project; Session; Other]).
  - unfold rows_of. cbn [flat_map].
    repeat (apply Permutation_app; [apply sort_rows_perm|]). reflexivity.
  - repeat constructor; cbn; intuition discriminate.
  - intros [k x] _. cbn. destruct k; tauto.
Qed.

End IndexMore.

Lemma every_processed_document_is_listed_witness :
  In (IndexBuilder.row plan_newer
        (snd (IndexBuilder.count_observations plan_newer IndexBuilder.totals0)))
     (IndexBuilder.generate "2026-03-21 09:00 UTC" [plan_newer; plan_older]).
Proof.
  apply (every_processed_document_is_listed "2026-03-21 09:00 UTC"
           [plan_newer; plan_older] plan_newer).
  - left. reflexivity.
  - reflexivity.
Defined.

(** ** The sort key of a table row *)

Section SortKey.
Import IndexBuilder.
Local Open Scope nat_scope.

Lemma no_bar_cons (c : ascii) (s : string) :
  JS.includes "|" (String c s) = false ->
  Ascii.eqb c "|" = false /\ JS.includes "|" s = false.
Proof.
  cbn [JS.includes]. intros H. apply orb_false_elim in H as [H1 H2].
  split; [|exact H2].
  destruct (Ascii.eqb_spec c "|") as [->|Hne]; [|reflexivity].
  unfold JS.startsWith in H1. simpl in H1. now destruct s.
Qed.

Lemma no_bar_intro (c : ascii) (s : string) :
  Ascii.eqb c "|" = false -> JS.includes "|" s = false ->
  JS.includes "|" (String c s) = false.
Proof.
  intros Hc Hs. cbn [JS.includes]. rewrite Hs, orb_false_r.
  unfold JS.startsWith. cbn [String.prefix].
  destruct (ascii_dec "|" c) as [<-|_]; [discriminate Hc|reflexivity].
Qed.

Lemma no_bar_app (a b : string) :
  JS.includes "|" a = false -> JS.includes "|" b = false ->
  JS.includes "|" (a +:+ b) = false.
Proof.
  induction a as [|c a IH]; intros Ha Hb; [exact Hb|].
  rewrite append_cons. apply no_bar_cons in Ha as [Hc Ha].
  apply no_bar_intro; [exact Hc|]. now apply IH.
Qed.

Lemma no_bar_uint (u : Decimal.uint) :
  JS.includes "|" (NilEmpty.string_of_uint u) = false.
Proof.
  induction u; cbn [NilEmpty.string_of_uint];
    first [apply no_bar_intro; [reflexivity|assumption] | reflexivity].
Qed.

Lemma no_bar_decimal (z : Z) : JS.includes "|" (JS.string_of_Z z) = false.
Proof.
  unfold JS.string_of_Z, NilZero.string_of_int.
  destruct (Z.to_int z) as [u|u]; unfold NilZero.string_of_uint.
  - destruct u; try apply no_bar_uint. reflexivity.
  - apply no_bar_intro; [reflexivity|].
    destruct u; try apply no_bar_uint. reflexivity.
Qed.

Lemma no_bar_format_size (bytes : N) :
  JS.includes "|" (format_size bytes) = false.
Proof.
  unfold format_size, string_of_N.
  destruct (1048576 <=? bytes)%N; [|destruct (1024 <=? bytes)%N];
    (apply no_bar_app; [apply no_bar_decimal|reflexivity]).
Qed.

(** Text without a bar is skipped when looking for the next separator. *)
Lemma after_seps_skip (n : nat) (a r : string) :
  JS.includes "|" a = false ->
  after_seps (S n) (a +:+ r) = after_seps (S n) r.
Proof.
  induction a as [|c a IH]; intros Ha; [reflexivity|].
  rewrite append_cons. apply no_bar_cons in Ha as [Hc Ha].
  cbn [after_seps]. rewrite Hc. apply IH, Ha.
Qed.

Lemma after_seps_bar (n : nat) (r : string) :
  after_seps (S n) (String "|" r) = after_seps n r.
Proof. reflexivity. Qed.

(** Skipping one cell and the separator that ends it. *)
Lemma after_seps_cell (n : nat) (a r : string) :
  JS.includes "|" a = false ->
  after_seps (S n) (a +:+ String " " (String "|" r)) = after_seps n r.
Proof.
  intros Ha. rewrite after_seps_skip by exact Ha. reflexivity.
Qed.

(** X23: the key by which a section is ordered.  For a row whose file
    name and title contain no bar, the sort key is the text of the
    observations cell followed by the modification date: the rows of a
    section are ordered by their observation text first, and by date
    only among rows with the same observation text. *)
Theorem sort_key_starts_at_observations (d : doc) (obs : string) :
  JS.includes "|" (fname d) = false ->
  JS.includes "|" (get_title d) = false ->
  sort_key (row d obs) = " " +:+ obs +:+ " | " +:+ modified d +:+ " |".
Proof.
  intros Hf Ht. unfold sort_key, row.
  change ("| " +:+ fname d +:+ " | " +:+ get_title d +:+ " | " +:+
          format_size (fsize_of (body d)) +:+ " | ~" +:+
          string_of_N (estimate_tokens (fsize_of (body d))) +:+ " | " +:+
          obs +:+ " | " +:+ modified d +:+ " |")
    with (String "|" (String " "
      (fname d +:+ String " " (String "|"
      (String " "
      (get_title d +:+ String " " (String "|"
      (String " "
      (format_size (fsize_of (body d)) +:+ String " " (String "|"
      (String " " (String "~"
      (string_of_N (estimate_tokens (fsize_of (body d))) +:+ String " " (String "|"
      (" " +:+ obs +:+ " | " +:+ modified d +:+ " |"))))))))))))))).
  rewrite after_seps_bar.
  change (String " " (fname d +:+ ?r)) with ((String " " (fname d)) +:+ r).
  rewrite (after_seps_cell 3 (String " " (fname d)))
    by (apply no_bar_intro; [reflexivity|exact Hf]).
  change (String " " (get_title d +:+ ?r)) with ((String " " (get_title d)) +:+ r).
  rewrite (after_seps_cell 2 (String " " (get_title d)))
    by (apply no_bar_intro; [reflexivity|exact Ht]).
  change (String " " (format_size ?x +:+ ?r))
    with ((String " " (format_size x)) +:+ r).
  rewrite (after_seps_cell 1 (String " " (format_size (fsize_of (body d)))))
    by (apply no_bar_intro; [reflexivity|apply no_bar_format_size]).
  change (String " " (String "~" (string_of_N ?x +:+ ?r)))
    with ((String " " (String "~" (string_of_N x))) +:+ r).
  rewrite (after_seps_cell 0
             (String " " (String "~"
                (string_of_N (estimate_tokens (fsize_of (body d)))))))
    by (do 2 (apply no_bar_intro; [reflexivity|]); apply no_bar_decimal).
  reflexivity.
Qed.

End SortKey.

Lemma sort_key_starts_at_observations_witness :
  IndexBuilder.sort_key
    (IndexBuilder.row plan_newer
       (snd (IndexBuilder.count_observations plan_newer IndexBuilder.totals0)))
  = " " +:+ snd (IndexBuilder.count_observations plan_newer IndexBuilder.totals0)
    +:+ " | " +:+ IndexBuilder.modified plan_newer +:+ " |".
Proof.
  apply (sort_key_starts_at_observations plan_newer).
  - reflexivity.
  - reflexivity.
Defined.

(** ** Workspace discovery of the regeneration script *)

Section RegenerateFacts.
Import Regenerate.
Variable home : string.

Lemma seen_spec (w : string) (seen : list string) :
  existsb (String.eqb w) seen = true <-> In w seen.
Proof.
  rewrite existsb_exists. split.
  - intros (x & Hin & E). apply String.eqb_eq in E. now subst.
  - intros H. exists w. split; [exact H|apply String.eqb_refl].
Qed.

(** A path is printed for an agent when the agent has a non-empty
    workspace, expanded, that was not printed before. *)
Lemma agents_pass_spec (agents : list Config.agent) :
  forall seen : list string,
    List.NoDup (agents_pass home agents seen)
    /\ forall p : string,
         In p (agents_pass home agents seen) <->
         ~ In p seen
         /\ exists (a : Config.agent) (ws : string),
              In a agents /\ Config.workspace a = Some ws
              /\ ws <> EmptyString /\ p = replace_tildes home ws.
Proof.
  induction agents as [|a r IH]; intros seen; cbn [agents_pass].
  - split; [constructor|]. intros p. split; [contradiction|].
    intros (_ & a & ws & [] & _).
  - assert (Hskip :
      (Config.workspace a = None \/ Config.workspace a = Some EmptyString
       \/ exists ws, Config.workspace a = Some ws
                     /\ In (replace_tildes home ws) seen) ->
      List.NoDup (agents_pass home r seen)
      /\ forall p : string,
           In p (agents_pass home r seen) <->
           ~ In p seen
           /\ exists (a0 : Config.agent) (ws : string),
                In a0 (a :: r) /\ Config.workspace a0 = Some ws
                /\ ws <> EmptyString /\ p = replace_tildes home ws).
    { intros Hcase. destruct (IH seen) as [Hnd Hin]. split; [exact Hnd|].
      intros p. rewrite Hin. split.
      - intros (Hs & a0 & ws & Ha0 & Hw & Hne & Hp).
        split; [exact Hs|]. exists a0, ws. repeat split; auto. now right.
      - intros (Hs & a0 & ws & [<-|Ha0] & Hw & Hne & Hp).
        + exfalso. destruct Hcase as [E|[E|(ws' & E & Hseen)]].
          * congruence.
          * congruence.
          * rewrite Hw in E. injection E as <-. subst p. contradiction.
        + split; [exact Hs|]. exists a0, ws. repeat split; auto. }
    destruct (Config.workspace a) as [ws|] eqn:Ews; [|apply Hskip; now left].
    destruct (JS.truthy ws) eqn:Et.
    2:{ apply Hskip. right. left. f_equal.
        unfold JS.truthy in Et. apply negb_false_iff, String.eqb_eq in Et.
        exact Et. }
    apply truthy_true_iff in Et.
    destruct (existsb (String.eqb (replace_tildes home ws)) seen) eqn:Ex.
    { apply Hskip. right. right. exists ws. split; [reflexivity|].
      now apply seen_spec. }
    assert (Hnew : ~ In (replace_tildes home ws) seen).
    { intros H. apply seen_spec in H. congruence. }
    destruct (IH (replace_tildes home ws :: seen)) as [Hnd Hin]. split.
    + constructor; [|exact Hnd]. intros H. apply Hin in H as [H _].
      apply H. now left.
    + intros p. cbn [In]. rewrite Hin. split.
      * intros [<-|(Hs & a0 & ws0 & Ha0 & Hw & Hne & Hp)].
        -- split; [exact Hnew|]. exists a, ws. repeat split; auto.
        -- split; [intros H; apply Hs; now right|].
           exists a0, ws0. repeat split; auto.
      * intros (Hs & a0 & ws0 & [<-|Ha0] & Hw & Hne & Hp).
        -- left. rewrite Ews in Hw. injection Hw as <-. now subst p.
        -- destruct (String.eqb_spec (replace_tildes home ws) p) as [E|E];
             [now left|right].
           split; [intros [H|H]; [exact (E H)|exact (Hs H)]|].
           exists a0, ws0. repeat split; auto.
Qed.

(** X24: the workspaces handed to the index generator.  No path is
    listed twice, so no index is regenerated twice in a run; a path is
    listed exactly when it is the expanded default workspace or the
    expanded workspace of some agent, empty entries left out; and the
    default workspace, when configured, comes first. *)
Theorem workspaces_are_listed_once (cfg : Config.config) :
  List.NoDup (WORKSPACES home cfg)
  /\ (forall p : string,
        In p (WORKSPACES home cfg) <->
        (exists dw, Config.defaults_workspace cfg = Some dw
                    /\ dw <> EmptyString /\ p = replace_tildes home dw)
        \/ exists (a : Config.agent) (ws : string),
             In a (Config.agents_list cfg) /\ Config.workspace a = Some ws
             /\ ws <> EmptyString /\ p = replace_tildes home ws)
  /\ (forall dw, Config.defaults_workspace cfg = Some dw ->
                 dw <> EmptyString ->
                 hd_error (WORKSPACES home cfg) = Some (replace_tildes home dw)).
Proof.
  unfold WORKSPACES.
  destruct (Config.defaults_workspace cfg) as [dw|] eqn:Ed.
  - destruct (JS.truthy dw) eqn:Et.
    + apply truthy_true_iff in Et.
      destruct (agents_pass_spec (Config.agents_list cfg)
                  [replace_tildes home dw]) as [Hnd Hin].
      split; [|split].
      * constructor; [|exact Hnd]. intros H. apply Hin in H as [H _].
        apply H. now left.
      * intros p. cbn [In]. rewrite Hin. split.
        -- intros [<-|(_ & H)]; [left; now exists dw|now right].
        -- intros [(dw' & E & _ & ->)|H].
           ++ injection E as <-. now left.
           ++ destruct (String.eqb_spec (replace_tildes home dw) p) as [E|E];
                [now left|right].
              split; [|exact H]. intros [H'|[]]. exact (E H').
      * intros dw' E _. injection E as <-. reflexivity.
    + unfold JS.truthy in Et. apply negb_false_iff, String.eqb_eq in Et.
      subst dw.
      destruct (agents_pass_spec (Config.agents_list cfg) []) as [Hnd Hin].
      split; [exact Hnd|split].
      * intros p. rewrite Hin. split.
        -- intros (_ & H). now right.
        -- intros [(dw' & E & Hne & _)|H]; [congruence|].
           split; [intros []|exact H].
      * intros dw' E Hne. congruence.
  - destruct (agents_pass_spec (Config.agents_list cfg) []) as [Hnd Hin].
    split; [exact Hnd|split].
    + intros p. rewrite Hin. split.
      * intros (_ & H). now right.
      * intros [(dw' & E & _)|H]; [discriminate|].
        split; [intros []|exact H].
    + intros dw' E. discriminate.
Qed.

End RegenerateFacts.

Lemma workspaces_are_listed_once_witness :
  hd_error (Regenerate.WORKSPACES "/home/u" cfg_defaults_only)
  = Some (Regenerate.replace_tildes "/home/u" "~/shared").
Proof.
  destruct (workspaces_are_listed_once "/home/u" cfg_defaults_only)
    as (_ & _ & H).
  apply (H "~/shared").
  - reflexivity.
  - discriminate.
Defined.

(** ** The properties of the checkpoint script on the example installation *)

Lemma checkpoint_touches_two_files_only_witness :
  World.lookup_file transcript_main
    (snd (toy_checkpoint cfg_two_agents "main" clock_0930 world_rich))
  = World.lookup_file transcript_main world_rich
  /\ World.denied
       (snd (toy_checkpoint cfg_two_agents "main" clock_0930 world_rich))
     = World.denied world_rich
  /\ World.denied_dirs
       (snd (toy_checkpoint cfg_two_agents "main" clock_0930 world_rich))
     = World.denied_dirs world_rich.
Proof.
  apply (checkpoint_touches_two_files_only toy_parse toy_time toy_paths
           "/home/u" "/home/u/.clawdbot" JS.NaN false false
           cfg_two_agents "main" clock_0930 world_rich transcript_main).
  - intros E. apply (f_equal World.base) in E. vm_compute in E. discriminate.
  - intros E. apply (f_equal World.base) in E. vm_compute in E. discriminate.
Defined.

Lemma read_last_lines_is_bounded_tail_witness :
  match World.lookup_file transcript_main world_rich with
  | Some f =>
      exists lines earlier : list string,
        Checkpoint.readLastLines transcript_main 2 world_rich
          = (World.Val lines, world_rich)
        /\ JS.split_lines (JS.trim (World.content f)) = earlier ++ lines
        /\ (1 <= length lines <= 2)%nat
  | None =>
      Checkpoint.readLastLines transcript_main 2 world_rich
        = (World.Throw "ENOENT", world_rich)
  end.
Proof.
  apply (read_last_lines_is_bounded_tail transcript_main 2 world_rich).
  lia.
Defined.



Lemma batch_always_reports_witness :
  exists (rep : Checkpoint.report) (w' : World.world),
    toy_main (World.Val cfg_two_agents) clock_0930 world_rich
      = (World.Val rep, w')
    /\ Checkpoint.exit_code rep = 0
    /\ World.lookup_file transcript_main w'
       = World.lookup_file transcript_main world_rich.
Proof.
  destruct (batch_always_reports toy_parse toy_time toy_paths
              "/home/u" "/home/u/.clawdbot" JS.NaN false false
              (World.Val cfg_two_agents) clock_0930 world_rich)
    as (rep & w' & E & Hexit & _ & _ & Hframe).
  exists rep, w'. split; [exact E|]. split; [exact Hexit|].
  apply Hframe. intros a [<-|[<-|[]]]; split; intros E';
    apply (f_equal World.base) in E'; vm_compute in E'; discriminate.
Defined.

Lemma active_session_is_newest_fresh_and_large_witness :
  exists (found : option Checkpoint.session) (w' : World.world),
    Checkpoint.findActiveSession "/home/u/.clawdbot" JS.NaN false "main"
      clock_0930 world_rich = (World.Val found, w')
    /\ World.same_fs world_rich w'
    /\ (World.dirs world_rich !! sessions_of "main" = None -> found = None).
Proof.
  destruct (active_session_is_newest_fresh_and_large "/home/u/.clawdbot"
              JS.NaN false "main" clock_0930 world_rich)
    as (found & w' & E & Hfs & Hnone & _).
  exists found, w'. split; [exact E|]. split; [exact Hfs|exact Hnone].
Defined.

(** ** The reader of the session-summary hook *)

Section SummaryReader.
Import World Checkpoint SessionSummary.
Variable parse_line : string -> option entry.

Lemma summary_line_block (line b : string) :
  summary_line parse_line line = Some b ->
  exists r text : string,
    b = r +:+ ": " +:+ text
    /\ (r = "user" \/ r = "assistant")
    /\ (1 <= String.length text <= 500)%nat
    /\ JS.startsWith "/" text = false.
Proof.
  unfold summary_line.
  destruct (parse_line line) as [e|]; [|discriminate].
  destruct (etype e) as [t|]; [|discriminate].
  destruct (emessage e) as [msg|]; [|discriminate].
  destruct (String.eqb t "message"); [|discriminate].
  destruct (role msg) as [r|]; [|discriminate].
  destruct (String.eqb r "user" || String.eqb r "assistant") eqn:Er;
    [|discriminate].
  destruct (first_text (mcontent msg)) as [text|]; [|discriminate].
  destruct (JS.truthy text) eqn:Et; [|discriminate].
  destruct (JS.startsWith "/" text) eqn:Es; [discriminate|].
  cbn [negb andb]. intros E. injection E as <-.
  exists r, (JS.slice0 500 text). split; [reflexivity|]. split.
  - apply orb_true_iff in Er as [E|E]; apply String.eqb_eq in E; auto.
  - split.
    + rewrite slice0_length. apply truthy_true_iff in Et.
      destruct text; [contradiction|]. cbn [String.length]. lia.
    + rewrite slice0_first by (simpl; lia). exact Es.
Qed.

Lemma omap_length_le {A B} (f : A -> option B) (l : list A) :
  (length (omap f l) <= length l)%nat.
Proof.
  induction l as [|x l IH]; [apply le_n|]. cbn [omap list_omap length].
  destruct (f x); cbn [length]; [apply le_n_S, IH|apply le_S, IH].
Qed.

Lemma omap_Forall {A B} (f : A -> option B) (P : B -> Prop) (l : list A) :
  (forall x y, f x = Some y -> P y) -> Forall P (omap f l).
Proof.
  intros H. induction l as [|x l IH]; [constructor|].
  cbn [omap list_omap]. destruct (f x) as [y|] eqn:E; [|exact IH].
  constructor; [apply (H x y E)|exact IH].
Qed.

(** X25: reading the closed session never raises and never changes the
    world.  It answers nothing exactly when the file cannot be read;
    otherwise the answer is made of blocks, at most one for each of the
    lines asked for, and every block is a user or assistant turn whose
    text is not empty, has at most 500 characters and is not a
    command. *)
Theorem session_reader_keeps_turns_only (p : path) (maxLines : nat)
    (w : world) :
  (0 < maxLines)%nat ->
  match lookup_file p w with
  | None => getSessionContent parse_line p maxLines w = (Val None, w)
  | Some _ =>
      exists blocks : list string,
        getSessionContent parse_line p maxLines w =
          (Val (Some (String.concat (String "010" (String "010" EmptyString))
                        blocks)), w)
        /\ (length blocks <= maxLines)%nat
        /\ Forall (fun b =>
                     exists r text : string,
                       b = r +:+ ": " +:+ text
                       /\ (r = "user" \/ r = "assistant")
                       /\ (1 <= String.length text <= 500)%nat
                       /\ JS.startsWith "/" text = false) blocks
  end.
Proof.
  intros Hpos. unfold getSessionContent, try_catch, bind, readFile.
  destruct (lookup_file p w) as [f|]; [|reflexivity].
  eexists. split; [reflexivity|]. split.
  - etransitivity; [apply omap_length_le|].
    rewrite lastn_length. apply Nat.le_min_l.
  - apply omap_Forall. intros line b. apply summary_line_block.
Qed.

End SummaryReader.

Lemma session_reader_keeps_turns_only_witness :
  match World.lookup_file transcript_main world_with_command with
  | None =>
      SessionSummary.getSessionContent toy_parse transcript_main 80
        world_with_command = (World.Val None, world_with_command)
  | Some _ =>
      exists blocks : list string,
        SessionSummary.getSessionContent toy_parse transcript_main 80
          world_with_command =
          (World.Val
             (Some (String.concat (String "010" (String "010" EmptyString))
                      blocks)), world_with_command)
        /\ (length blocks <= 80)%nat
        /\ Forall (fun b =>
                     exists r text : string,
                       b = r +:+ ": " +:+ text
                       /\ (r = "user" \/ r = "assistant")
                       /\ (1 <= String.length text <= 500)%nat
                       /\ JS.startsWith "/" text = false) blocks
  end.
Proof.
  apply (session_reader_keeps_turns_only toy_parse transcript_main 80
           world_with_command).
  lia.
Defined.

(** On the example the command line is dropped and the two turns are
    kept. *)
Example session_reader_example :
  fst (SessionSummary.getSessionContent toy_parse transcript_main 80
         world_with_command)
  = World.Val (Some (String.concat Hooks.nl
                       ["user: deploy the index"; ""; "assistant: done"])).
Proof. vm_compute. reflexivity. Qed.
